(** * Verification of the data-cleaning pipeline of [data_loading.py]

    The development embeds the functions of [datastore/src/data_loading.py]
    over a model of the tables they manipulate and proves (or refutes) the
    properties stated for them.

    Modelling choices, shared by the whole file:
    - a cell of a table is a [value]: a missing-value marker ([VNaN], standing
      for [None], [np.nan] and [NaT]), a number, a string, a boolean, a nested
      dictionary (as decoded from JSON), a timestamp or a time interval (both
      in nanoseconds, as pandas stores them);
    - numbers are integers: a [float64] column holds integer-valued floats and
      [VNaN]; fractional floats are outside the modelled fragment, and a
      number that does not fit 64 bits makes its column [float64], where it
      stands for the float that the parser read;
    - a column ([Series]) carries its dtype explicitly, since the code branches
      on it; a table ([DataFrame]) is the ordered list of its named columns;
    - exceptions are results ([Raise e]); in-place updates of objects that the
      caller can see go through an explicit heap of table objects;
    - the behaviour of library routines that is not determined by the source
      (number and date parsers, the key validation of [merge], SQLite's
      comparison of text) is taken through the classes [Pandas] and
      [Sqlite]; every theorem holds for all their instances. *)

From Stdlib Require Import ZArith String Ascii List Bool Lia DecimalString.
From stdpp Require Import base tactics option list strings.
Import ListNotations.

Local Set Warnings "-register-all".
Local Open Scope string_scope.
Local Open Scope list_scope.
Local Open Scope Z_scope.

(* ------------------------------------------------------------------------- *)
(** ** Values, columns and tables *)
(* ------------------------------------------------------------------------- *)

Inductive value : Type :=
| VNaN
| VNum (z : Z)
| VStr (s : string)
| VBool (b : bool)
| VDict (d : list (string * value))
| VTime (ns : Z)
| VDelta (ns : Z).

Inductive dtype : Type :=
| int64 | float64 | object | bool_ | datetime64 | timedelta64.

Record Series : Type := mkSeries { s_dtype : dtype; cells : list value }.

(** A table is the list of its columns, in display order. *)
Definition DataFrame : Type := list (string * Series).

(** A record of [to_dict('records')]: column name to cell. *)
Definition record : Type := list (string * value).

(** The exceptions that the modelled code can meet.  [Unmodelled] is not a
    Python exception: it marks an input on which the behaviour of the
    library is outside the modelled fragment; no handler catches it. *)
Inductive exn : Type :=
| KeyError | ValueError | AttributeError | TypeError | NameError
| UnboundLocalError | IndexError | ReferenceError | DatabaseError
| ConnectionError | Unmodelled.

Inductive result (A : Type) : Type :=
| Ok (a : A)
| Raise (e : exn).
Arguments Ok {A} a.
Arguments Raise {A} e.

Definition rbind {A B} (m : result A) (f : A -> result B) : result B :=
  match m with Ok a => f a | Raise e => Raise e end.

Notation "'let*' x ':=' m 'in' k" := (rbind m (fun x => k))
  (at level 10, x name, m at level 100, k at level 200).

Definition dtype_eqb (a b : dtype) : bool :=
  match a, b with
  | int64, int64 | float64, float64 | object, object | bool_, bool_
  | datetime64, datetime64 | timedelta64, timedelta64 => true
  | _, _ => false
  end.

(** [np.issubdtype(d, np.number)] *)
Definition is_number_dtype (d : dtype) : bool :=
  match d with int64 | float64 => true | _ => false end.

(** [pandas.api.types.is_numeric_dtype]: booleans count as numeric. *)
Definition is_numeric_dtype (d : dtype) : bool :=
  match d with int64 | float64 | bool_ => true | _ => false end.

Definition isnull (v : value) : bool :=
  match v with VNaN => true | _ => false end.

(** Library behaviour that the source does not determine. *)
Class Pandas : Type := {
  (** [pd.to_numeric] on one string: [None] when it is not a number *)
  str_to_num : string -> option Z;
  (** [float(s)], used by [astype('float64')] on text *)
  str_to_float : string -> option Z;
  (** [pd.to_datetime] on one string: nanoseconds since the epoch *)
  str_to_datetime : string -> option Z;
  (** the validation of join keys of differing, not both numeric, dtypes *)
  mixed_keys_ok : Series -> Series -> bool;
  (** [str(x)] of a dictionary, a timestamp or an interval *)
  str_other : value -> string
}.

Class Sqlite : Type := {
  (** [x BETWEEN a AND b] when some operand is text *)
  between_other : value -> value -> value -> bool;
  (** whether a column name can stand unquoted in a query *)
  unquoted_name_ok : string -> bool
}.

(* ------------------------------------------------------------------------- *)
(** ** Column access *)
(* ------------------------------------------------------------------------- *)

Definition columns (df : DataFrame) : list string := map fst df.

Definition has_column (df : DataFrame) (c : string) : bool :=
  existsb (String.eqb c) (columns df).

Fixpoint get_column (df : DataFrame) (c : string) : option Series :=
  match df with
  | [] => None
  | (n, s) :: df' => if String.eqb c n then Some s else get_column df' c
  end.

(** [df[c]]: a missing label raises [KeyError]. *)
Definition getitem (df : DataFrame) (c : string) : result Series :=
  match get_column df c with Some s => Ok s | None => Raise KeyError end.

(** [df[c] = s]: overwrite where the column stands, else append it. *)
Fixpoint set_column (df : DataFrame) (c : string) (s : Series) : DataFrame :=
  match df with
  | [] => [(c, s)]
  | (n, s') :: df' =>
      if String.eqb c n then (n, s) :: df' else (n, s') :: set_column df' c s
  end.

Definition nrows (df : DataFrame) : nat :=
  match df with [] => 0%nat | (_, s) :: _ => length (cells s) end.

(** [df.drop(columns=cs)]: every label must be present. *)
Definition drop_columns (df : DataFrame) (cs : list string) : result DataFrame :=
  if forallb (has_column df) cs
  then Ok (List.filter (fun p => negb (existsb (String.eqb (fst p)) cs)) df)
  else Raise KeyError.

Fixpoint assoc {A} (k : string) (l : list (string * A)) : option A :=
  match l with
  | [] => None
  | (k', a) :: l' => if String.eqb k k' then Some a else assoc k l'
  end.

(** [df.rename(columns=m)]: labels absent from the table are ignored. *)
Definition rename_columns (df : DataFrame) (m : list (string * string)) : DataFrame :=
  map (fun p => (match assoc (fst p) m with Some n => n | None => fst p end, snd p)) df.

(** [df[cs]]: selection of columns, in the order asked. *)
Fixpoint select_columns (df : DataFrame) (cs : list string) : result DataFrame :=
  match cs with
  | [] => Ok []
  | c :: cs' =>
      let* s := getitem df c in
      let* r := select_columns df cs' in
      Ok ((c, s) :: r)
  end.

Definition map_series (f : value -> value) (s : Series) : Series :=
  mkSeries (s_dtype s) (map f (cells s)).

(** Rows picked by position; a missing position yields [VNaN]. *)
Definition take (idx : list (option nat)) (l : list value) : list value :=
  map (fun i => match i with Some n => nth n l VNaN | None => VNaN end) idx.

(** [to_dict('records')] *)
Definition record_at (df : DataFrame) (i : nat) : record :=
  map (fun p => (fst p, nth i (cells (snd p)) VNaN)) df.

Definition to_records (df : DataFrame) : list record :=
  map (record_at df) (seq 0 (nrows df)).

(* ------------------------------------------------------------------------- *)
(** ** Conversions of pandas *)
(* ------------------------------------------------------------------------- *)

Definition string_of_Z (z : Z) : string := NilZero.string_of_int (Z.to_int z).

Definition Z_of_bool (b : bool) : Z := if b then 1 else 0.

(** The view of a missing date as a 64-bit integer. *)
Definition iNaT : Z := - 2 ^ 63.

Section WithPandas.
Context `{Pandas}.

(** The number a cell of an [object] column converts to; [None] when
    [pd.to_numeric] cannot convert it.  The empty text reads as a missing
    value. *)
Definition cell_to_num (v : value) : option value :=
  match v with
  | VNaN => Some VNaN
  | VNum z => Some (VNum z)
  | VBool b => Some (VBool b)
  | VStr s => if String.eqb s "" then Some VNaN else option_map VNum (str_to_num s)
  | VDict _ | VTime _ | VDelta _ => None
  end.

Definition is_VBool (v : value) : bool :=
  match v with VBool _ => true | _ => false end.

Definition unbool (v : value) : value :=
  match v with VBool b => VNum (Z_of_bool b) | _ => v end.

(** The number does not fit a 64-bit integer. *)
Definition wide (v : value) : bool :=
  match v with
  | VNum z => (z <? - 2 ^ 63) || (2 ^ 63 <=? z)
  | _ => false
  end.

(** The dtype and cells of an array of converted numbers. *)
Definition numeric_series (vs : list value) : Series :=
  match vs with
  | [] => mkSeries int64 []
  | _ =>
      if existsb isnull vs || existsb wide vs then mkSeries float64 (map unbool vs)
      else if forallb is_VBool vs then mkSeries bool_ vs
      else mkSeries int64 (map unbool vs)
  end.

Definition date_as_int (v : value) : value :=
  match v with
  | VTime t | VDelta t => VNum t
  | VNaN => VNum iNaT
  | _ => v
  end.

Fixpoint all_some {A} (l : list (option A)) : option (list A) :=
  match l with
  | [] => Some []
  | None :: _ => None
  | Some a :: l' => option_map (cons a) (all_some l')
  end.

(** [pd.to_numeric(s, errors='ignore')]: all of the column or nothing. *)
Definition to_numeric_ignore (s : Series) : Series :=
  match s_dtype s with
  | int64 | float64 | bool_ => s
  | datetime64 | timedelta64 => mkSeries int64 (map date_as_int (cells s))
  | object =>
      match all_some (map cell_to_num (cells s)) with
      | Some vs => numeric_series vs
      | None => s
      end
  end.

(** [pd.to_numeric(s, errors='coerce')]: what fails becomes missing. *)
Definition to_numeric_coerce (s : Series) : Series :=
  match s_dtype s with
  | int64 | float64 | bool_ => s
  | datetime64 | timedelta64 => mkSeries int64 (map date_as_int (cells s))
  | object =>
      numeric_series
        (map (fun v => match cell_to_num v with Some n => n | None => VNaN end)
             (cells s))
  end.

(** [f] on each column. *)
Definition apply_columns (f : Series -> Series) (df : DataFrame) : DataFrame :=
  map (fun p => (fst p, f (snd p))) df.

(** [df.apply(f)] for a conversion [f] of columns: column by column; a
    table without rows comes back as it is, [f] is not called on its
    columns. *)
Definition df_apply (f : Series -> Series) (df : DataFrame) : DataFrame :=
  if (nrows df =? 0)%nat then df else apply_columns f df.

(** One cell of [astype('float64')]. *)
Definition cell_to_float (v : value) : result value :=
  match v with
  | VNaN => Ok VNaN
  | VNum z => Ok (VNum z)
  | VBool b => Ok (VNum (Z_of_bool b))
  | VStr s => match str_to_float s with Some z => Ok (VNum z) | None => Raise ValueError end
  | VDict _ | VTime _ | VDelta _ => Raise TypeError
  end.

Fixpoint mapM {A B} (f : A -> result B) (l : list A) : result (list B) :=
  match l with
  | [] => Ok []
  | a :: l' =>
      let* b := f a in
      let* bs := mapM f l' in
      Ok (b :: bs)
  end.

(** [s.astype('float64')] *)
Definition astype_float64 (s : Series) : result Series :=
  match s_dtype s with
  | datetime64 | timedelta64 => Raise TypeError
  | _ =>
      let* vs := mapM cell_to_float (cells s) in
      Ok (mkSeries float64 vs)
  end.

(** [str(x)] of a cell of a column of dtype [d]. *)
Definition cell_to_str (d : dtype) (v : value) : string :=
  match v with
  | VNaN => "nan"
  | VNum z => match d with float64 => string_of_Z z ++ ".0" | _ => string_of_Z z end
  | VStr s => s
  | VBool true => "True"
  | VBool false => "False"
  | _ => str_other v
  end.

(** [s.astype(str)] *)
Definition astype_str (s : Series) : Series :=
  mkSeries object (map (fun v => VStr (cell_to_str (s_dtype s) v)) (cells s)).

(** One cell of [pd.to_datetime(s, errors='coerce')]. *)
Definition cell_to_datetime (v : value) : value :=
  match v with
  | VTime t => VTime t
  | VNum z => VTime z
  | VStr s => match str_to_datetime s with Some t => VTime t | None => VNaN end
  | _ => VNaN
  end.

Definition to_datetime_coerce (s : Series) : Series :=
  mkSeries datetime64 (map cell_to_datetime (cells s)).

(* ------------------------------------------------------------------------- *)
(** ** [DataFrame.merge(how='left', on=key)] *)
(* ------------------------------------------------------------------------- *)

(** Equality of join keys: missing keys match each other, and a boolean is
    the number it equals. *)
Definition key_eqb (a b : value) : bool :=
  match unbool a, unbool b with
  | VNaN, VNaN => true
  | VNum x, VNum y => Z.eqb x y
  | VStr x, VStr y => String.eqb x y
  | VTime x, VTime y => Z.eqb x y
  | VDelta x, VDelta y => Z.eqb x y
  | _, _ => false
  end.

Definition is_VDict (v : value) : bool :=
  match v with VDict _ => true | _ => false end.

Definition is_empty {A} (l : list A) : bool :=
  match l with [] => true | _ => false end.

(** The check of the dtypes of the two key columns. *)
Definition keys_compatible (lk rk : Series) : bool :=
  if xorb (is_empty (cells lk)) (is_empty (cells rk)) then true
  else if dtype_eqb (s_dtype lk) (s_dtype rk) then true
  else if is_numeric_dtype (s_dtype lk) && is_numeric_dtype (s_dtype rk) then true
  else mixed_keys_ok lk rk.

(** Positions of the rows of [rk] whose key equals [k]. *)
Fixpoint matches_from (n : nat) (k : value) (rk : list value) : list nat :=
  match rk with
  | [] => []
  | v :: rk' =>
      if key_eqb k v then n :: matches_from (S n) k rk'
      else matches_from (S n) k rk'
  end.

(** The row pairs of a left join: left order, then right order; a left row
    without match is kept once. *)
Fixpoint left_join_from (n : nat) (lk rk : list value) : list (nat * option nat) :=
  match lk with
  | [] => []
  | k :: lk' =>
      match matches_from 0 k rk with
      | [] => [(n, None)]
      | js => map (fun j => (n, Some j)) js
      end ++ left_join_from (S n) lk' rk
  end.

Definition left_join (lk rk : list value) : list (nat * option nat) :=
  left_join_from 0 lk rk.

(** The dtype of a right-hand column once unmatched rows are missing in it. *)
Definition upcast_missing (d : dtype) : dtype :=
  match d with int64 => float64 | bool_ => object | _ => d end.

Definition no_match (o : option nat) : bool :=
  match o with None => true | Some _ => false end.

Definition suffix_if (b : bool) (n suf : string) : string :=
  if b then n ++ suf else n.

Definition merge (left right : DataFrame) (on : string) : result DataFrame :=
  let* lk := getitem left on in
  let* rk := getitem right on in
  if negb (keys_compatible lk rk) then Raise ValueError
  else if existsb is_VDict (cells lk) || existsb is_VDict (cells rk) then Raise TypeError
  else
    let idx := left_join (cells lk) (cells rk) in
    let lidx := map (fun p => Some (fst p)) idx in
    let ridx := map snd idx in
    let unmatched := existsb no_match ridx in
    let others := List.filter (fun p => negb (String.eqb (fst p) on)) right in
    let lpart :=
      map (fun p =>
             (suffix_if (negb (String.eqb (fst p) on) && has_column others (fst p))
                        (fst p) "_x",
              mkSeries (s_dtype (snd p)) (take lidx (cells (snd p))))) left in
    let rpart :=
      map (fun p =>
             (suffix_if (has_column left (fst p)) (fst p) "_y",
              mkSeries (if unmatched then upcast_missing (s_dtype (snd p))
                        else s_dtype (snd p))
                       (take ridx (cells (snd p))))) others in
    Ok (lpart ++ rpart).

End WithPandas.

(* ------------------------------------------------------------------------- *)
(** ** The heap of table objects *)
(* ------------------------------------------------------------------------- *)

Abbreviation loc := nat (only parsing).
Abbreviation heap := (list DataFrame) (only parsing).

(** A computation that reads and writes table objects and may raise; what
    was written before an exception stays written. *)
Definition M (A : Type) : Type := heap -> result A * heap.

Definition mret {A} (a : A) : M A := fun h => (Ok a, h).

Definition mbind {A B} (m : M A) (f : A -> M B) : M B :=
  fun h => match m h with
           | (Ok a, h') => f a h'
           | (Raise e, h') => (Raise e, h')
           end.

Notation "'let!' x ':=' m 'in' k" := (mbind m (fun x => k))
  (at level 10, x name, m at level 100, k at level 200).

Definition lift {A} (r : result A) : M A := fun h => (r, h).

Definition load (l : loc) : M DataFrame :=
  fun h => match h !! l with
           | Some d => (Ok d, h)
           | None => (Raise ReferenceError, h)
           end.

Definition store (l : loc) (d : DataFrame) : M unit :=
  fun h => (Ok tt, <[l := d]> h).

Definition alloc (d : DataFrame) : M loc :=
  fun h => (Ok (length h), h ++ [d]).

(* ------------------------------------------------------------------------- *)
(** ** Building tables from decoded JSON *)
(* ------------------------------------------------------------------------- *)

Definition is_VNum (v : value) : bool :=
  match v with VNum _ => true | _ => false end.

(** The column that the [DataFrame] constructor makes of a list of objects. *)
Definition infer_series (vs : list value) : Series :=
  if forallb isnull vs then mkSeries object vs
  else if forallb is_VNum vs then mkSeries int64 vs
  else if forallb (fun v => is_VNum v || isnull v) vs then mkSeries float64 vs
  else if forallb is_VBool vs then mkSeries bool_ vs
  else mkSeries object vs.

(** A column holding [v] on each of [n] rows: [df[c] = v]. *)
Definition constant_series (n : nat) (v : value) : Series :=
  infer_series (repeat v n).

Fixpoint dedup_by {A} (eqb : A -> A -> bool) (l : list A) : list A :=
  match l with
  | [] => []
  | a :: l' => a :: List.filter (fun b => negb (eqb a b)) (dedup_by eqb l')
  end.

Definition has_key {A} (k : string) (d : list (string * A)) : bool :=
  existsb (fun p => String.eqb k (fst p)) d.

(** [d[k] = v] on a dictionary: overwrite in place, else append. *)
Fixpoint dict_set (d : record) (k : string) (v : value) : record :=
  match d with
  | [] => [(k, v)]
  | (k', v') :: d' =>
      if String.eqb k k' then (k', v) :: d' else (k', v') :: dict_set d' k v
  end.

Definition dict_update (d e : record) : record :=
  fold_left (fun acc p => dict_set acc (fst p) (snd p)) e d.

Section FromDict.
Context {K : Type} (keqb : K -> K -> bool).

Fixpoint lookup_by (k : K) (data : list (K * record)) : option record :=
  match data with
  | [] => None
  | (k', r) :: data' => if keqb k k' then Some r else lookup_by k data'
  end.

(** Column labels: the field names in the order they are first met. *)
Definition field_names (data : list (K * record)) : list string :=
  dedup_by String.eqb (flat_map (fun p => map fst (snd p)) data).

(** Row labels: the union, column after column, of the keys whose record
    has that column; a key whose record is empty labels no row. *)
Definition row_keys (data : list (K * record)) : list K :=
  dedup_by keqb
    (flat_map (fun c => map fst (List.filter (fun p => has_key c (snd p)) data))
              (field_names data)).

Definition cell_of (data : list (K * record)) (k : K) (c : string) : value :=
  match lookup_by k data with
  | Some r => match assoc c r with Some v => v | None => VNaN end
  | None => VNaN
  end.

(** [pd.DataFrame.from_dict(data, orient='index')] on a dictionary of
    dictionaries: the row labels and the table. *)
Definition from_dict_index (data : list (K * record)) : list K * DataFrame :=
  let rows := row_keys data in
  (rows,
   map (fun c => (c, infer_series (map (fun k => cell_of data k c) rows)))
       (field_names data)).

End FromDict.

(** [pd.DataFrame(records)] on a list of dictionaries. *)
Definition from_records (rs : list record) : DataFrame :=
  map (fun c =>
         (c, infer_series
               (map (fun r => match assoc c r with Some v => v | None => VNaN end) rs)))
      (dedup_by String.eqb (flat_map (map fst) rs)).

(** The entries of a nested dictionary under the key [prefix], flattened
    with ["."] as [pandas.json_normalize] does below the top level. *)
Fixpoint flatten_under (prefix : string) (v : value) : record :=
  match v with
  | VDict d =>
      (fix go (l : list (string * value)) : record :=
         match l with
         | [] => []
         | (k, x) :: l' => flatten_under (prefix ++ "." ++ k) x ++ go l'
         end) d
  | _ => [(prefix, v)]
  end.

(** [nested_to_record] at the top level: plain entries stay where they are,
    the entries of nested dictionaries are added after them. *)
Definition nested_to_record (d : record) : record :=
  dict_update
    (List.filter (fun p => negb (is_VDict (snd p))) d)
    (flat_map (fun p => if is_VDict (snd p) then flatten_under (fst p) (snd p) else [])
              d).

(** [pd.json_normalize(s)] on a column: a dictionary gives its flattened
    record, any other cell a record without entries (a row of missing
    values). *)
Definition json_normalize (s : Series) : DataFrame :=
  from_records
    (map (fun v => match v with
                   | VDict d => nested_to_record d
                   | _ => []
                   end) (cells s)).

(* ------------------------------------------------------------------------- *)
(** ** Rows *)
(* ------------------------------------------------------------------------- *)

(** Positions of the rows whose cell satisfies [p]. *)
Fixpoint positions_from (n : nat) (p : value -> bool) (l : list value) : list nat :=
  match l with
  | [] => []
  | v :: l' =>
      if p v then n :: positions_from (S n) p l' else positions_from (S n) p l'
  end.

(** The rows at the given positions, the dtypes kept. *)
Definition take_rows (idx : list nat) (df : DataFrame) : DataFrame :=
  map (fun p => (fst p, mkSeries (s_dtype (snd p)) (take (map Some idx) (cells (snd p))))) df.

(** [df.dropna(subset=[c])] followed by a renumbering of the rows. *)
Definition dropna_subset (df : DataFrame) (c : string) : result DataFrame :=
  let* s := getitem df c in
  Ok (take_rows (positions_from 0 (fun v => negb (isnull v)) (cells s)) df).

(** [df[mask]] for a mask computed from column [c]. *)
Definition filter_rows (df : DataFrame) (c : string) (p : value -> bool) : result DataFrame :=
  let* s := getitem df c in
  Ok (take_rows (positions_from 0 p (cells s)) df).

Fixpoint nodup_strings (l : list string) : bool :=
  match l with
  | [] => true
  | a :: l' => negb (existsb (String.eqb a) l') && nodup_strings l'
  end.

(** The dtype of a column made of a part of dtype [a] and one of dtype [b]. *)
Definition common_dtype (a b : dtype) : dtype :=
  if dtype_eqb a b then a
  else match a, b with
       | int64, float64 | float64, int64 => float64
       | _, _ => object
       end.

(** [pd.concat([a, b])]: the rows of [b] under those of [a], over the union
    of their columns; a table without columns adds nothing. *)
Definition concat_rows (a b : DataFrame) : result DataFrame :=
  match a, b with
  | [], _ => Ok b
  | _, [] => Ok a
  | _, _ =>
      if negb (nodup_strings (columns a) && nodup_strings (columns b))
      then Raise Unmodelled
      else
        let na := nrows a in
        let nb := nrows b in
        let part (df : DataFrame) (n : nat) (c : string) : Series :=
          match get_column df c with
          | Some s => s
          | None => mkSeries float64 (repeat VNaN n)
          end in
        let names :=
          columns a ++ List.filter (fun c => negb (has_column a c)) (columns b) in
        Ok (map (fun c =>
                   let sa := part a na c in
                   let sb := part b nb c in
                   let d :=
                     match get_column a c, get_column b c with
                     | Some x, Some y => common_dtype (s_dtype x) (s_dtype y)
                     | Some x, None => upcast_missing (s_dtype x)
                     | None, Some y => upcast_missing (s_dtype y)
                     | None, None => object
                     end in
                   (c, mkSeries d (cells sa ++ cells sb)))
                names)
  end.

(** [pd.concat([a, b], axis=1)] of two tables with the same row labels. *)
Definition concat_columns (a b : DataFrame) : DataFrame := a ++ b.

(** [df.reset_index()]: the row labels become the first column, named
    ["index"], or ["level_0"] when that name is taken. *)
Definition reset_index (labels : list value) (df : DataFrame) : result DataFrame :=
  if negb (has_column df "index") then Ok (("index", infer_series labels) :: df)
  else if negb (has_column df "level_0") then Ok (("level_0", infer_series labels) :: df)
  else Raise ValueError.

(* ------------------------------------------------------------------------- *)
(** ** Helper functions of the module *)
(* ------------------------------------------------------------------------- *)

Definition use_b_if_not_a (a b : value) : value :=
  if negb (isnull a) then a else b.

(** Take a table with index columns and a column containing a dictionary and
    convert the dictionary into separate columns. *)
Definition dict_to_col (df : DataFrame) (index_cols : list string) (dict_col : string)
    (new_col_name : string) (add_col_as_category : bool) : result DataFrame :=
  let* new_df := select_columns df (index_cols ++ [dict_col]) in
  let* new_df := dropna_subset new_df dict_col in
  let new_df :=
    if add_col_as_category
    then set_column new_df new_col_name (constant_series (nrows new_df) (VStr dict_col))
    else new_df in
  let* dicts := getitem new_df dict_col in
  Ok (concat_columns new_df (json_normalize dicts)).

Fixpoint remove_column (df : DataFrame) (c : string) : DataFrame :=
  match df with
  | [] => []
  | (n, s) :: df' => if String.eqb c n then df' else (n, s) :: remove_column df' c
  end.

Fixpoint insert_at {A} (pos : nat) (a : A) (l : list A) : list A :=
  match pos, l with
  | O, _ => a :: l
  | S p, x :: l' => x :: insert_at p a l'
  | S _, [] => [a]
  end.

(** Move a column position in [df]: the column is popped from the object,
    then inserted into it. *)
Definition move_column_inplace (df : loc) (col : string) (pos : nat) : M unit :=
  let! d := load df in
  let! s := lift (getitem d col) in
  let without := remove_column d col in
  let! _ := store df without in
  if (length without <? pos)%nat then lift (Raise IndexError)
  else if has_column without col then lift (Raise ValueError)
  else store df (insert_at pos (col, s) without).

(* ------------------------------------------------------------------------- *)
(** ** Data display dictionaries *)
(* ------------------------------------------------------------------------- *)

(** [x == y] on two cells. *)
Definition py_eqb (a b : value) : bool :=
  match a, b with
  | VNaN, _ | _, VNaN => false
  | _, _ => key_eqb a b
  end.

(** The literal [{k1: v1, k2: v2}]. *)
Definition dict_literal2 (k1 v1 k2 v2 : string) : list (string * string) :=
  if String.eqb k1 k2 then [(k1, v2)] else [(k1, v1); (k2, v2)].

Section WithPandas.
Context `{Pandas}.

(** The lookup table of one field: the body of the loop of
    [get_display_dictionary]. *)
Definition term_table (display_terms : DataFrame) (api_value display_col : string)
    (i : value) : result (string * DataFrame) :=
  match get_column display_terms "api_field" with
  | None => Raise AttributeError
  | Some _ =>
      let* term_df := filter_rows display_terms "api_field" (fun v => py_eqb v i) in
      let* term_df := select_columns term_df [api_value; display_col] in
      match i with
      | VStr name =>
          let term_df :=
            rename_columns term_df
              (dict_literal2 api_value name display_col (name ++ "_display")) in
          Ok (name, df_apply to_numeric_ignore term_df)
      | _ => Raise TypeError
      end
  end.

(** From a table with the display information, create a dictionary by field
    to match the database value to a value for use in the UI.  Each lookup
    table is a new object. *)
Fixpoint fill_display_dictionary (display_terms : DataFrame)
    (api_value display_col : string) (fields : list value) : M (list (string * loc)) :=
  match fields with
  | [] => mret []
  | i :: fields' =>
      let! kt := lift (term_table display_terms api_value display_col i) in
      let! l := alloc (snd kt) in
      let! rest := fill_display_dictionary display_terms api_value display_col fields' in
      mret ((fst kt, l) :: rest)
  end.

Definition get_display_dictionary (display_terms : DataFrame)
    (api_field api_value display_col : string) : M (list (string * loc)) :=
  let! fields := lift (getitem display_terms api_field) in
  let display_terms_list := dedup_by key_eqb (cells fields) in
  fill_display_dictionary display_terms api_value display_col display_terms_list.

(** [load_display_terms], from the table read from the display-terms file
    on: the one-to-one dictionary, then the one-to-many dictionary. *)
Definition load_display_terms (display_terms : DataFrame)
    : M (DataFrame * list (string * loc) * list (string * loc)) :=
  match get_column display_terms "multi" with
  | None => lift (Raise AttributeError)
  | Some _ =>
      let! display_terms_uni :=
        lift (filter_rows display_terms "multi" (fun v => py_eqb v (VNum 0))) in
      let! display_terms_dict :=
        get_display_dictionary display_terms_uni "api_field" "api_value" "display_text" in
      let! display_terms_multi :=
        lift (filter_rows display_terms "multi" (fun v => py_eqb v (VNum 1))) in
      let! display_terms_dict_multi :=
        get_display_dictionary display_terms_multi "api_field" "api_value" "display_text" in
      mret (display_terms, display_terms_dict, display_terms_dict_multi)
  end.

End WithPandas.

(* ------------------------------------------------------------------------- *)
(** ** Combine subjects MCC jsons *)
(* ------------------------------------------------------------------------- *)

(** The decoded JSON object of one center, as the dictionary of dictionaries
    that [from_dict] expects; anything else makes it raise. *)
Definition as_records (v : value) : result (list (string * record)) :=
  match v with
  | VDict (((_, VDict _) :: _) as d) =>
      mapM (fun p => match snd p with
                     | VDict r => Ok (fst p, r)
                     | _ => Raise AttributeError
                     end) d
  | VDict [] => Ok []
  | VDict _ => Raise Unmodelled
  | _ => Raise AttributeError
  end.

Definition df_empty (df : DataFrame) : bool :=
  is_empty df || (nrows df =? 0)%nat.

(** [pd.DataFrame.from_dict(v, orient='index').reset_index()] *)
Definition from_dict_reset (v : value) : result DataFrame :=
  let* data := as_records v in
  let '(labels, df) := from_dict_index String.eqb data in
  reset_index (map VStr labels) df.

(** Convert MCC json subjects data into a table and combine. *)
Fixpoint combine_mcc_json_from (df : DataFrame) (mcc_json : list (string * value))
    : result DataFrame :=
  match mcc_json with
  | [] => Ok df
  | (mcc, v) :: rest =>
      let* mcc_data := from_dict_reset v in
      let mcc_data := set_column mcc_data "mcc" (constant_series (nrows mcc_data) (VStr mcc)) in
      let* df := if df_empty df then Ok mcc_data else concat_rows df mcc_data in
      combine_mcc_json_from df rest
  end.

Definition combine_mcc_json (mcc_json : list (string * value)) : result DataFrame :=
  combine_mcc_json_from [] mcc_json.

(* ------------------------------------------------------------------------- *)
(** ** Extract adverse events (nested dictionary) from the table *)
(* ------------------------------------------------------------------------- *)

(** [\s] on ASCII characters. *)
Definition is_space (a : ascii) : bool :=
  let n := nat_of_ascii a in
  ((9 <=? n) && (n <=? 13) || (28 <=? n) && (n <=? 32))%nat.

(** The strings matched by the pattern [^\s*$]. *)
Definition is_blank (s : string) : bool :=
  forallb is_space (list_ascii_of_string s).

(** [df.replace(r'^\s*$', np.nan, regex=True)] *)
Definition blank_to_nan (v : value) : value :=
  match v with
  | VStr s => if is_blank s then VNaN else v
  | _ => v
  end.

Definition replace_blank (df : DataFrame) : DataFrame :=
  apply_columns (map_series blank_to_nan) df.

(** The key [(index, main_record_id, mcc)] of a subject. *)
Definition subject_key : Type := (value * value * value)%type.

Definition subject_key_eqb (a b : subject_key) : bool :=
  let '(a0, a1, a2) := a in
  let '(b0, b1, b2) := b in
  key_eqb a0 b0 && key_eqb a1 b1 && key_eqb a2 b2.

Definition instance_key_eqb (a b : subject_key * string) : bool :=
  subject_key_eqb (fst a) (fst b) && String.eqb (snd a) (snd b).

Fixpoint zip4 (a b c d : list value) : list (subject_key * value) :=
  match a, b, c, d with
  | x :: a', y :: b', z :: c', w :: d' => ((x, y, z), w) :: zip4 a' b' c' d'
  | _, _, _, _ => []
  end.

Fixpoint unique_by {A} (eqb : A -> A -> bool) (l : list A) : bool :=
  match l with
  | [] => true
  | a :: l' => negb (existsb (eqb a) l') && unique_by eqb l'
  end.

(** The dictionary comprehension: one entry per subject and instance. *)
Definition instances_of (row : subject_key * value)
    : result (list ((subject_key * string) * value)) :=
  match snd row with
  | VDict insts => Ok (map (fun p => ((fst row, fst p), snd p)) insts)
  | _ => Raise AttributeError
  end.

Definition fields_of (e : (subject_key * string) * value)
    : result ((subject_key * string) * record) :=
  match snd e with
  | VDict r => Ok (fst e, r)
  | _ => Raise AttributeError
  end.

(** Extract data with multiple values (stored as the 'adverse effects'
    column) from the subjects data.  Adverse effects data is stored in a
    nested dictionary format - this function unpacks that. *)
Definition extract_adverse_effects_data (subjects_data : DataFrame)
    (adverse_effects_col : string) : result DataFrame :=
  let index_cols := ["index"; "main_record_id"; "mcc"] in
  (* reset index using index_cols *)
  let* c0 := getitem subjects_data "index" in
  let* c1 := getitem subjects_data "main_record_id" in
  let* c2 := getitem subjects_data "mcc" in
  let multi_data :=
    List.filter (fun p => negb (existsb (String.eqb (fst p)) index_cols)) subjects_data in
  (* extract multi data values *)
  let* ae := getitem multi_data adverse_effects_col in
  let multi_df :=
    List.filter (fun r => negb (isnull (snd r)))
           (zip4 (cells c0) (cells c1) (cells c2) (cells ae)) in
  (* convert from data frame back to dict *)
  if negb (unique_by subject_key_eqb (map fst multi_df)) then Raise ValueError
  else
    let* nested := mapM instances_of multi_df in
    let entries := concat nested in
    match entries with
    | [] => Raise KeyError (* no 'level_0' column without entries *)
    | first :: _ =>
        if negb (is_VDict (snd first)) then Raise Unmodelled
        else
          let* data := mapM fields_of entries in
          let '(labels, multi) := from_dict_index instance_key_eqb data in
          (* replace empty strings with NaN *)
          let multi := replace_blank multi in
          match labels with
          | [] => Raise KeyError (* no 'level_0' column without rows *)
          | _ =>
              if has_column multi "level_0" || has_column multi "level_1"
              then Raise ValueError
              else
                (* convert level 0 of index from nested index back into columns;
                   label level 1 as the instance of adverse events *)
                let multi :=
                  set_column multi "index"
                    (infer_series (map (fun l => fst (fst (fst l))) labels)) in
                let multi :=
                  set_column multi "main_record_id"
                    (infer_series (map (fun l => snd (fst (fst l))) labels)) in
                let multi :=
                  set_column multi "mcc"
                    (infer_series (map (fun l => snd (fst l)) labels)) in
                let multi :=
                  set_column multi "instance"
                    (infer_series (map (fun l => VStr (snd l)) labels)) in
                (* move index columns to start of dataframe *)
                let index_cols := index_cols ++ ["instance"] in
                let new_col_order :=
                  index_cols
                  ++ List.filter (fun c => negb (existsb (String.eqb c) index_cols))
                            (columns multi) in
                select_columns multi new_col_order
          end
    end.

(** [try: ... except Exception: return None] *)
Definition try_except {A} (m : M A) : M (option A) :=
  fun h => match m h with
           | (Ok a, h') => (Ok (Some a), h')
           | (Raise Unmodelled, h') => (Raise Unmodelled, h')
           | (Raise _, h') => (Ok None, h')
           end.

Section WithPandas.
Context `{Pandas}.

(** Convert numeric values to display values using the dictionary. *)
Fixpoint merge_multi_terms (d : list (string * loc)) (multi_data : DataFrame)
    : M DataFrame :=
  match d with
  | [] => mret multi_data
  | (i, l) :: d' =>
      if has_column multi_data i then
        let! terms := load l in
        let! multi_data := lift (merge multi_data terms i) in
        merge_multi_terms d' multi_data
      else merge_multi_terms d' multi_data
  end.

Definition clean_adverse_events (adverse_events : DataFrame)
    (display_terms_dict_multi : list (string * loc)) : M (option DataFrame) :=
  try_except
    ((* coerce to numeric *)
     let multi_data := df_apply to_numeric_ignore adverse_events in
     merge_multi_terms display_terms_dict_multi multi_data).

End WithPandas.

(* ------------------------------------------------------------------------- *)
(** ** Clean the subjects table *)
(* ------------------------------------------------------------------------- *)

(** [df.replace('N/A', np.nan)] on one cell. *)
Definition na_to_nan (v : value) : value :=
  match v with
  | VStr s => if String.eqb s "N/A" then VNaN else v
  | _ => v
  end.

Definition is_na_text (v : value) : bool :=
  match v with
  | VStr s => String.eqb s "N/A"
  | _ => false
  end.

Definition is_VStr (v : value) : bool :=
  match v with VStr _ => true | _ => false end.

Definition is_VTime (v : value) : bool :=
  match v with VTime _ => true | _ => false end.

Definition is_VDelta (v : value) : bool :=
  match v with VDelta _ => true | _ => false end.

(** The dtype that pandas infers again for the cells of an [object] column
    after a replacement: numbers, booleans and times get their own dtype; a
    text or a dictionary keeps the column [object].  [None] for a column of
    missing values only: it stays [object] when they are all [None] and
    becomes [float64] when one of them is [np.nan]. *)
Definition soft_dtype (vs : list value) : option dtype :=
  if existsb (fun v => is_VStr v || is_VDict v) vs then Some object
  else if forallb isnull vs then None
  else if forallb (fun v => is_VNum v || isnull v) vs then
    if existsb wide vs then Some object
    else if existsb isnull vs then Some float64
    else Some int64
  else if forallb is_VBool vs then Some bool_
  else if forallb (fun v => is_VTime v || isnull v) vs then Some datetime64
  else if forallb (fun v => is_VDelta v || isnull v) vs then Some timedelta64
  else Some object.

(** The column holds a text 'N/A' that [replace] finds: only [object]
    columns hold text. *)
Definition holds_na (s : Series) : bool :=
  dtype_eqb (s_dtype s) object && existsb is_na_text (cells s).

(** One [object] column after the replacement.  A column of missing values
    only, none of which comes from the replacement, is outside the modelled
    fragment (the model does not tell [None] from [np.nan]). *)
Definition replaced_column (s : Series) : result Series :=
  match s_dtype s with
  | object =>
      let vs := map na_to_nan (cells s) in
      match soft_dtype vs with
      | Some d => Ok (mkSeries d vs)
      | None => if holds_na s then Ok (mkSeries float64 vs) else Raise Unmodelled
      end
  | _ => Ok s
  end.

(** [df.replace('N/A', np.nan)].  The [object] columns of the copy are
    stored together: when a value is replaced in one of them, pandas infers
    the dtype of each of them again; when there is nothing to replace, the
    table comes back as it is. *)
Definition replace_na (df : DataFrame) : result DataFrame :=
  if existsb (fun p => holds_na (snd p)) df then
    mapM (fun p => let* s := replaced_column (snd p) in Ok (fst p, s)) df
  else Ok df.

Definition has_pipe (s : string) : bool :=
  existsb (Ascii.eqb "|"%char) (list_ascii_of_string s).

(** [s.str.contains('|', regex=False, na=False)] on one cell. *)
Definition contains_pipe (v : value) : bool :=
  match v with
  | VStr s => has_pipe s
  | _ => false
  end.

(** Whether [s.str] is available: the column is of dtype [object] and its
    present values are not all numbers, all booleans or all dates. *)
Definition str_accessor_ok (s : Series) : bool :=
  match s_dtype s with
  | object =>
      match List.filter (fun v => negb (isnull v)) (cells s) with
      | [] => true
      | vs => negb (forallb is_VNum vs || forallb is_VBool vs
                    || forallb is_VTime vs || forallb is_VDelta vs)
      end
  | _ => false
  end.

(** Lines 160-168: copy, rename 'index' to 'record_id', drop the adverse
    events column, convert all 'N/A' to missing values. *)
Definition prepare_subjects (subjects_raw : DataFrame) (drop_cols_list : list string)
    : result DataFrame :=
  let subjects_data := subjects_raw in
  let subjects_data := rename_columns subjects_data [("index", "record_id")] in
  let* subjects_data := drop_columns subjects_data drop_cols_list in
  replace_na subjects_data.

(** Lines 170-173: handle 1-many dem_race, take multi-select values and
    convert to 8. *)
Definition recode_dem_race (subjects_data : DataFrame) : result DataFrame :=
  let* dem_race := getitem subjects_data "dem_race" in
  if negb (is_number_dtype (s_dtype dem_race)) then
    let subjects_data := set_column subjects_data "dem_race_original" dem_race in
    let* dem_race := getitem subjects_data "dem_race" in
    if negb (str_accessor_ok dem_race) then Raise AttributeError
    else
      Ok (set_column subjects_data "dem_race"
            (mkSeries (s_dtype dem_race)
               (map (fun v => if contains_pipe v then VStr "8" else v)
                    (cells dem_race))))
  else Ok subjects_data.

Section WithPandas.
Context `{Pandas}.

(** Lines 181-185, the body of the loop for a field [i] that is a column of
    the table.  The lookup table [display_terms] is the object held by the
    dictionary: the cast of its key column is written into that object. *)
Definition merge_display_term (i : string) (display_terms : loc)
    (subjects_data : DataFrame) : M DataFrame :=
  let! column := lift (getitem subjects_data i) in
  let! _ :=
    if dtype_eqb (s_dtype column) float64 then
      let! terms := load display_terms in
      let! key := lift (getitem terms i) in
      let! key := lift (astype_float64 key) in
      store display_terms (set_column terms i key)
    else mret tt in
  let! terms := load display_terms in
  lift (merge subjects_data terms i).

(** Lines 178-185: merge columns on the display terms dictionary to convert
    from database terminology to user terminology. *)
Fixpoint merge_display_terms (display_terms_dict : list (string * loc))
    (subjects_data : DataFrame) : M DataFrame :=
  match display_terms_dict with
  | [] => mret subjects_data
  | (i, display_terms) :: rest =>
      if has_column subjects_data i then
        let! subjects_data := merge_display_term i display_terms subjects_data in
        merge_display_terms rest subjects_data
      else merge_display_terms rest subjects_data
  end.

(** Take the raw subjects table and clean it up.  The result is a new
    object. *)
Definition clean_subjects_data (subjects_raw : loc)
    (display_terms_dict : list (string * loc)) (drop_cols_list : list string) : M loc :=
  (* create copy of raw data *)
  let! raw := load subjects_raw in
  let! subjects_data := lift (prepare_subjects raw drop_cols_list) in
  let! subjects_data := lift (recode_dem_race subjects_data) in
  (* coerce numeric values to enable merge *)
  let subjects_data := df_apply to_numeric_ignore subjects_data in
  let! subjects_data := merge_display_terms display_terms_dict subjects_data in
  alloc subjects_data.

Context `{Sqlite}.

(** The value SQLite stores for a cell. *)
Definition sql_value (v : value) : value := unbool v.

(** [x BETWEEN a AND b] on stored values; a NULL operand matches nothing. *)
Definition sql_between (x a b : value) : bool :=
  match sql_value x, sql_value a, sql_value b with
  | VNaN, _, _ | _, VNaN, _ | _, _, VNaN => false
  | VNum x, VNum a, VNum b => ((a <=? x) && (x <=? b))%Z
  | x, a, b => between_other x a b
  end.

Definition is_date (v : value) : bool := is_VTime v || is_VDelta v.

(** The column made of the values read back from a query. *)
Definition read_back (d : dtype) (vs : list value) : Series :=
  match vs with
  | [] => mkSeries object []
  | _ => match d with
         | float64 => mkSeries float64 vs
         | _ => infer_series vs
         end
  end.

Fixpoint zip3 (a b c : list value) : list (value * value * value) :=
  match a, b, c with
  | x :: a', y :: b', z :: c' => (x, y, z) :: zip3 a' b' c'
  | _, _, _ => []
  end.

(** The rows of
    [select id, screening_site from ids join ss
     on ids.id between ss.record_id_start and ss.record_id_end]. *)
Definition range_join (ids : list value) (ss : list (value * value * value))
    : list (value * value) :=
  flat_map (fun x =>
              flat_map (fun r =>
                          let '(a, b, site) := r in
                          if sql_between x a b then [(sql_value x, sql_value site)] else [])
                       ss)
           ids.

Definition add_screening_site (screening_sites df : DataFrame) (id_col : string)
    : result DataFrame :=
  (* get dataframes *)
  let* ids := getitem df id_col in
  (* the two tables are written to an in-memory database *)
  if existsb is_VDict (cells ids)
     || existsb (fun p => existsb is_VDict (cells (snd p))) screening_sites
  then Raise DatabaseError
  else if existsb is_date (cells ids)
          || existsb (fun p => existsb is_date (cells (snd p))) screening_sites
          || negb (unquoted_name_ok id_col)
  then Raise Unmodelled
  else
    match get_column screening_sites "record_id_start",
          get_column screening_sites "record_id_end",
          get_column screening_sites "screening_site" with
    | Some starts, Some ends, Some site =>
        if has_column screening_sites id_col then Raise DatabaseError
        else
          let rows := range_join (cells ids) (zip3 (cells starts) (cells ends) (cells site)) in
          let sites :=
            [(id_col, read_back (s_dtype ids) (map fst rows));
             ("screening_site", read_back (s_dtype site) (map snd rows))] in
          merge sites df id_col
    | _, _, _ => Raise DatabaseError
    end.

End WithPandas.

(** Get the consented patients from the subjects table with screening sites
    added. *)
Definition get_consented_subjects (subjects_with_screening_site : DataFrame)
    : result DataFrame :=
  let consented := subjects_with_screening_site in
  match nrows consented with
  | O => Raise Unmodelled
  | _ =>
      let* a := getitem consented "sp_data_site_display" in
      let* b := getitem consented "redcap_data_access_group_display" in
      let treatment_site :=
        map (fun i => use_b_if_not_a (nth i (cells a) VNaN) (nth i (cells b) VNaN))
            (seq 0 (nrows consented)) in
      Ok (set_column consented "treatment_site" (infer_series treatment_site))
  end.

(* ------------------------------------------------------------------------- *)
(** ** Blood JSON input into a table *)
(* ------------------------------------------------------------------------- *)

(** [if m:] *)
Definition truthy (v : value) : bool :=
  match v with
  | VNaN => false
  | VNum z => negb (z =? 0)%Z
  | VStr s => negb (String.eqb s "")
  | VBool b => b
  | VDict d => negb (is_empty d)
  | VTime _ | VDelta _ => true
  end.

Fixpoint lookup_key (k : value) (d : list (value * value)) : option value :=
  match d with
  | [] => None
  | (k', v) :: d' => if py_eqb k k' then Some v else lookup_key k d'
  end.

Definition dict_cols : list string := ["Baseline Visit"; "6-Wks Post-Op"; "3-Mo Post-Op"].

(** The inner loop of [bloodjson_to_df]: one visit column after the other is
    unnested and added under [df]. *)
Fixpoint unnest_visits (mdf df : DataFrame) (cs : list string) : result DataFrame :=
  match cs with
  | [] => Ok df
  | c :: cs' =>
      if has_column mdf c then
        let* col_df := dict_to_col mdf ["index"; "MCC"; "screening_site"] c "Visit" true in
        let* df := concat_rows df col_df in
        unnest_visits mdf df cs'
      else unnest_visits mdf df cs'
  end.

(** The rows that the records [m] add under [df] when tagged [mcc]:
    the body of [if m:]. *)
Definition unnest_center (m mcc : value) (df : DataFrame) : result DataFrame :=
  let* data := as_records m in
  let '(labels, mdf) := from_dict_index String.eqb data in
  let* site := getitem mdf "screening_site" in
  let kept := positions_from 0 (fun v => negb (isnull v)) (cells site) in
  let mdf := take_rows kept mdf in
  let* mdf := reset_index (map (fun i => VStr (nth i labels "")) kept) mdf in
  let mdf := set_column mdf "MCC" (constant_series (nrows mdf) mcc) in
  unnest_visits mdf df dict_cols.

Section WithPandas.
Context `{Pandas}.

(** The loop of [bloodjson_to_df].  [m] is the working variable: unbound
    ([None]) until a center has been found, and kept from one iteration to
    the next. *)
Fixpoint bloodjson_loop (json : list (value * value)) (m : option value)
    (df : DataFrame) (mcc_list : list value) : result DataFrame :=
  match mcc_list with
  | [] => Ok df
  | mcc :: rest =>
      let m := match lookup_key mcc json with Some x => Some x | None => m end in
      let s := VStr (cell_to_str object mcc) in
      let '(mcc, m) :=
        match lookup_key s json with
        | Some x => (s, Some x)
        | None => (mcc, m)
        end in
      match m with
      | None => Raise UnboundLocalError
      | Some records =>
          if truthy records then
            let* df := unnest_center records mcc df in
            bloodjson_loop json m df rest
          else bloodjson_loop json m df rest
      end
  end.

Definition bloodjson_to_df (json : list (value * value)) (mcc_list : list value)
    : result DataFrame :=
  bloodjson_loop json None [] mcc_list.

(* ------------------------------------------------------------------------- *)
(** ** Clean the blood table *)
(* ------------------------------------------------------------------------- *)

(** Take the raw blood table and simplify by dropping columns with the
    nested dictionaries, and moving the visit column to the beginning.  The
    table is changed in place and returned. *)
Definition simplify_blooddata (blood_df : loc) : M loc :=
  let! d := load blood_df in
  (* drop baseline dict, 6 week dict, 3 month dict *)
  let! d := lift (drop_columns d dict_cols) in
  let! _ := store blood_df d in
  (* move Visit column to beginning of DF *)
  let! _ := move_column_inplace blood_df "Visit" 2 in
  mret blood_df.

Definition ns_per_minute : Z := 60 * 10 ^ 9.
Definition ns_per_hour : Z := 60 * ns_per_minute.
Definition ns_per_day : Z := 24 * ns_per_hour.

(** [td.components.hours] and [td.components.minutes] *)
Definition hours_component (t : Z) : Z := (t mod ns_per_day) / ns_per_hour.
Definition minutes_component (t : Z) : Z := (t mod ns_per_hour) / ns_per_minute.

Fixpoint zip_with {A B C} (f : A -> B -> C) (a : list A) (b : list B) : list C :=
  match a, b with
  | x :: a', y :: b' => f x y :: zip_with f a' b'
  | _, _ => []
  end.

(** The difference of two columns of timestamps. *)
Definition sub_datetime (a b : Series) : Series :=
  mkSeries timedelta64
    (zip_with (fun x y => match x, y with
                          | VTime t, VTime u => VDelta (t - u)
                          | _, _ => VNaN
                          end) (cells a) (cells b)).

(** [a - b] on two columns: the intervals between timestamps.  Two
    [object] columns without rows give an [object] column without rows;
    what other dtypes give is outside the modelled fragment. *)
Definition sub_columns (a b : Series) : result Series :=
  match s_dtype a, s_dtype b with
  | datetime64, datetime64 => Ok (sub_datetime a b)
  | object, object =>
      match cells a, cells b with
      | [], [] => Ok (mkSeries object [])
      | _, _ => Raise Unmodelled
      end
  | _, _ => Raise Unmodelled
  end.

(** [td.dt.components['hours']*60 + td.dt.components['minutes']] *)
Definition minutes_of (t : Z) : Z := hours_component t * 60 + minutes_component t.

Definition whole_minutes (v : value) : value :=
  match v with
  | VDelta t => VNum (minutes_of t)
  | _ => VNaN
  end.

Definition minutes_series (td : Series) : Series :=
  let vs := map whole_minutes (cells td) in
  mkSeries (if existsb isnull vs then float64 else int64) vs.

(** The accessor [.dt] with its [components]: on a column of intervals
    only. *)
Definition dt_minutes (td : Series) : result Series :=
  match s_dtype td with
  | timedelta64 => Ok (minutes_series td)
  | _ => Raise AttributeError
  end.

(** [(c < f) & (c <= 30) & (f <= 60)] on one row; a comparison with a
    missing value is false. *)
Definition in_order (c f : Z) : bool := (c <? f) && (c <=? 30) && (f <=? 60).

Definition times_in_order (c f : value) : value :=
  match c, f with
  | VNum c, VNum f => VBool (in_order c f)
  | _, _ => VBool false
  end.

Definition time_values_check (c f : Series) : Series :=
  mkSeries bool_ (zip_with times_in_order (cells c) (cells f)).

(** ['MCC' + mcc.astype(str) + ': ' + site] *)
Definition site_label (mcc site : Series) : result Series :=
  match s_dtype site with
  | object =>
      let* vs :=
        mapM (fun p =>
                match snd p with
                | VStr s => Ok (VStr ("MCC" ++ cell_to_str (s_dtype mcc) (fst p) ++ ": " ++ s))
                | VNaN => Ok VNaN
                | _ => Raise TypeError
                end)
             (zip_with pair (cells mcc) (cells site)) in
      Ok (mkSeries object vs)
  | _ => Raise Unmodelled
  end.

Definition deviation_df : DataFrame :=
  [("bscp_protocol_dev_reason", mkSeries int64 [VNum 1; VNum 2; VNum 3]);
   ("Deviation Reason",
    mkSeries object
      [VStr "Unable to obtain blood sample -technical reason";
       VStr "Unable to obtain blood sample -patient related";
       VStr "Sample handling/processing error"])].

(** [blood_df[c] = f(blood_df)], written into the object. *)
Definition assign (df : loc) (c : string) (f : DataFrame -> result Series) : M unit :=
  let! d := load df in
  let! s := lift (f d) in
  store df (set_column d c s).

(** [blood_df[cs] = blood_df[cs].apply(f)] *)
Definition assign_applied (df : loc) (cs : list string) (f : Series -> Series) : M unit :=
  let! d := load df in
  let! part := lift (select_columns d cs) in
  let part := df_apply f part in
  store df (fold_left (fun acc p => set_column acc (fst p) (snd p)) part d).

Definition binop (f : Series -> Series -> result Series) (a b : string) (d : DataFrame)
    : result Series :=
  let* x := getitem d a in
  let* y := getitem d b in
  f x y.

(** Take the raw blood table and clean it up.  The columns are converted
    and added in place; the result is the new table of the merge. *)
Definition clean_blooddata (blood_df : loc) : M loc :=
  (* convert numeric columns *)
  let numeric_cols := ["bscp_aliq_cnt"; "bscp_protocol_dev"; "bscp_protocol_dev_reason"] in
  let! _ := assign_applied blood_df numeric_cols to_numeric_coerce in
  (* convert datetime columns *)
  let datetime_cols :=
    ["bscp_time_blood_draw"; "bscp_aliquot_freezer_time"; "bscp_time_centrifuge"] in
  let! _ := assign_applied blood_df datetime_cols to_datetime_coerce in
  (* calculate time to freezer: freezer time - blood draw time *)
  let! _ := assign blood_df "time_to_freezer"
              (binop sub_columns "bscp_aliquot_freezer_time" "bscp_time_blood_draw") in
  let! _ := assign blood_df "time_to_freezer_minutes"
              (fun d => let* td := getitem d "time_to_freezer" in dt_minutes td) in
  (* calculate time to centrifuge: centrifuge time - blood draw time *)
  let! _ := assign blood_df "time_to_centrifuge"
              (binop sub_columns "bscp_time_centrifuge" "bscp_time_blood_draw") in
  let! _ := assign blood_df "time_to_centrifuge_minutes"
              (fun d => let* td := getitem d "time_to_centrifuge" in dt_minutes td) in
  (* calculate times exist in correct order *)
  let! _ := assign blood_df "time_values_check"
              (binop (fun c f => Ok (time_values_check c f))
                     "time_to_centrifuge_minutes" "time_to_freezer_minutes") in
  (* get 'Site' column that combines MCC and screening site *)
  let! _ := assign blood_df "Site"
              (fun d =>
                 let* mcc := getitem d "MCC" in
                 let* site := getitem d "screening_site" in
                 site_label mcc site) in
  (* convert deviation numeric values to text *)
  let! d := load blood_df in
  let! merged := lift (merge d deviation_df "bscp_protocol_dev_reason") in
  (* clean column names for more human friendly usage *)
  let rename_dict :=
    [("index", "ID"); ("screening_site", "Screening Site");
     ("bscp_deg_of_hemolysis", "Hemolysis")] in
  alloc (rename_columns merged rename_dict).

End WithPandas.

(* ------------------------------------------------------------------------- *)
(** ** Load and clean data from the API *)
(* ------------------------------------------------------------------------- *)

(** What a request answers: a status code and the body, decoded as JSON
    and parsed as CSV ([None] where the decoder or the parser raises). *)
Record response : Type := mkResponse {
  status_code : Z;
  json_body : option value;
  csv_body : option DataFrame
}.

(** The remote side: the answer to a GET of a URL; [None] when
    [requests.get] itself raises. *)
Definition remote : Type := string -> option response.

(** The objects bound to names at the top level of the module. *)
Inductive binding : Type := Module | Function | Class.

Definition module_globals : list (string * binding) :=
  [("traceback", Module); ("os", Module); ("io", Module); ("requests", Module);
   ("pathlib", Module); ("np", Module); ("pd", Module); ("sqlite3", Module);
   ("datetime", Class); ("timedelta", Class);
   ("use_b_if_not_a", Function); ("dict_to_col", Function);
   ("move_column_inplace", Function); ("load_display_terms", Function);
   ("get_display_dictionary", Function); ("combine_mcc_json", Function);
   ("extract_adverse_effects_data", Function); ("clean_adverse_events", Function);
   ("clean_subjects_data", Function); ("add_screening_site", Function);
   ("get_consented_subjects", Function); ("bloodjson_to_df", Function);
   ("simplify_blooddata", Function); ("clean_blooddata", Function);
   ("get_api_subjects", Function); ("create_clean_subjects", Function);
   ("get_api_imaging", Function); ("get_api_blood", Function)].

(** The value of a name that is not a local variable of the function that
    reads it: looked up in the module (no builtin bears the names read). *)
Definition load_global (name : string) : result binding :=
  match assoc name module_globals with
  | Some b => Ok b
  | None => Raise NameError
  end.

Inductive pyobject : Type :=
| Timestamp (t : Z)
| Global (b : binding).

(** What the top-level functions return. *)
Inductive api_result : Type :=
| Failure (status source : string)   (* {'status': .., 'source': ..} *)
| StepFail (step : string)           (* {'step fail': ..} *)
| Status (status : string)           (* {'status': ..} *)
| Records (rs : list record)         (* a list of records *)
| Dated (date : pyobject) (data : list (string * list record))
                                     (* {'date': .., 'data': {..}} *)
| PyNone.

Definition url (api_root section file : string) : string :=
  api_root ++ "/" ++ section ++ "/" ++ file.

(** The [api_dict] literal of the three fetchers. *)
Definition api_dict (section key : string) : string :=
  match section, key with
  | "subjects", "subjects1" => "subjects-1-latest.json"
  | "subjects", "subjects2" => "subjects-2-latest.json"
  | "imaging", "imaging" => "imaging-log-latest.csv"
  | "imaging", "qc" => "qc-log-latest.csv"
  | "blood", "blood1" => "blood-1-latest.json"
  | "blood", "blood2" => "blood-2-latest.json"
  | _, _ => ""
  end.

(** The outcome of a body of [try: .. except Exception: return fallback]. *)
Definition or_else (r : result api_result) (fallback : api_result) : result api_result :=
  match r with
  | Ok a => Ok a
  | Raise Unmodelled => Raise Unmodelled
  | Raise _ => Ok fallback
  end.

(** A run of a fetcher: what it returns and the resources it requested, in
    order. *)
Definition run : Type := (result api_result * list string)%type.

(** Load subjects data from the api. *)
Definition get_api_subjects (net : remote) (now : Z) (api_root : string) : run :=
  let current_datetime := now in
  let annoying := Status "this is annoying" in
  let file1 := api_dict "subjects" "subjects1" in
  let file2 := api_dict "subjects" "subjects2" in
  match net (url api_root "subjects" file1) with
  | None => (Ok annoying, [file1])
  | Some subjects1_request =>
      if (status_code subjects1_request =? 200)%Z then
        match json_body subjects1_request with
        | None => (Ok annoying, [file1])
        | Some subjects1 =>
            match net (url api_root "subjects" file2) with
            | None => (Ok annoying, [file1; file2])
            | Some subjects2_request =>
                if (status_code subjects2_request =? 200)%Z then
                  match json_body subjects2_request with
                  | None => (Ok annoying, [file1; file2])
                  | Some subjects2 =>
                      (* add json to dict and combine *)
                      let subjects_json := [("1", subjects1); ("2", subjects2)] in
                      (or_else
                         (let* subjects_raw := combine_mcc_json subjects_json in
                          Ok (Records (to_records subjects_raw)))
                         (StepFail "2"),
                       [file1; file2])
                  end
                else (Ok (Failure "500" file2), [file1; file2])
            end
        end
      else (Ok (Failure "500" file1), [file1])
  end.

(** Load data from imaging api. *)
Definition get_api_imaging (net : remote) (now : Z) (api_root : string) : run :=
  let current_datetime := now in
  let file1 := api_dict "imaging" "imaging" in
  let file2 := api_dict "imaging" "qc" in
  match net (url api_root "imaging" file1) with
  | None => (Ok PyNone, [file1])
  | Some imaging_request =>
      if (status_code imaging_request =? 200)%Z then
        match csv_body imaging_request with
        | None => (Ok PyNone, [file1])
        | Some imaging =>
            match net (url api_root "imaging" file2) with
            | None => (Ok PyNone, [file1; file2])
            | Some qc_request =>
                if (status_code qc_request =? 200)%Z then
                  match csv_body qc_request with
                  | None => (Ok PyNone, [file1; file2])
                  | Some qc =>
                      let data :=
                        [("imaging", to_records imaging); ("qc", to_records qc)] in
                      (Ok (Dated (Timestamp current_datetime) data), [file1; file2])
                  end
                else (Ok (Failure "500" file2), [file1; file2])
            end
        end
      else (Ok (Failure "500" file1), [file1])
  end.

(** A computation on tables that no caller holds. *)
Definition run_local {A} (m : M A) : result A := fst (m []).

Section WithPandas.
Context `{Pandas}.

(** Load blood data from the api. *)
Definition get_api_blood (net : remote) (now : Z) (api_root : string) : run :=
  let current_datetime := now in
  let file1 := api_dict "blood" "blood1" in
  let file2 := api_dict "blood" "blood2" in
  match net (url api_root "blood" file1) with
  | None => (Ok PyNone, [file1])
  | Some blood1_request =>
      if (status_code blood1_request =? 200)%Z then
        match json_body blood1_request with
        | None => (Ok PyNone, [file1])
        | Some blood1 =>
            match net (url api_root "blood" file2) with
            | None => (Ok PyNone, [file1; file2])
            | Some blood2_request =>
                if (status_code blood2_request =? 200)%Z then
                  match json_body blood2_request with
                  | None => (Ok PyNone, [file1; file2])
                  | Some blood2 =>
                      let blood_json := [(VStr "1", blood1); (VStr "2", blood2)] in
                      (or_else
                         (let* blood := bloodjson_to_df blood_json [VStr "1"; VStr "2"] in
                          let* blood :=
                            run_local (let! l := alloc blood in
                                       let! l := simplify_blooddata l in
                                       load l) in
                          let data := [("blood", to_records blood)] in
                          Ok (Dated (Timestamp current_datetime) data))
                         PyNone,
                       [file1; file2])
                  end
                else (Ok (Failure "500" file2), [file1; file2])
            end
        end
      else (Ok (Failure "500" file1), [file1])
  end.

Context `{Sqlite}.

(** The subjects-cleaning pipeline of [create_clean_subjects], lines
    363-368: the cleaned table with its screening sites, and the consented
    view. *)
Definition subjects_pipeline (subjects_raw screening_sites : loc)
    (display_terms_dict : list (string * loc)) : M (DataFrame * DataFrame) :=
  (* clean up subjects data *)
  let! subjects := clean_subjects_data subjects_raw display_terms_dict ["adverse_effects"] in
  let! subjects := load subjects in
  let! sites := load screening_sites in
  let! subjects := lift (add_screening_site sites subjects "record_id") in
  (* get subset of data for consented patients *)
  let! consented := lift (get_consented_subjects subjects) in
  mret (subjects, consented).

(** The three cleaned views of [create_clean_subjects], lines 363-378. *)
Definition clean_views (subjects_raw screening_sites : loc)
    (display_terms_dict display_terms_dict_multi : list (string * loc))
    : M (list (string * list record)) :=
  let! views := subjects_pipeline subjects_raw screening_sites display_terms_dict in
  let subjects := fst views in
  let consented := snd views in
  (* extract adverse events data *)
  let! raw := load subjects_raw in
  let! extracted := lift (extract_adverse_effects_data raw "adverse_effects") in
  let! adverse_events := clean_adverse_events extracted display_terms_dict_multi in
  (* data output *)
  match adverse_events with
  | None => lift (Raise AttributeError)
  | Some adverse_events =>
      mret [("subjects", to_records subjects);
            ("consented", to_records consented);
            ("adverse_events", to_records adverse_events)]
  end.

Definition create_clean_subjects (subjects_raw screening_sites : loc)
    (display_terms_dict display_terms_dict_multi : list (string * loc))
    : M (option api_result) :=
  try_except
    (let! data :=
       clean_views subjects_raw screening_sites display_terms_dict display_terms_dict_multi in
     let! current_datetime := lift (load_global "current_datetime") in
     mret (Dated (Global current_datetime) data)).

End WithPandas.

(* ------------------------------------------------------------------------- *)
(** ** A reference instance of the library behaviour

    Used to run the model on concrete inputs: integer literals are numbers,
    timestamps are written [YYYY-MM-DD], [YYYY-MM-DD HH:MM] or
    [YYYY-MM-DD HH:MM:SS] and name a day and a time that exist, keys of
    differing, not both numeric, dtypes are refused, a query compares a
    text that is an integer literal with a number as that integer, any
    other text as greater than every number, and two texts in the order of
    their characters, and a column name of lower-case letters and
    underscores can stand unquoted. *)
(* ------------------------------------------------------------------------- *)

Definition digit_of (a : ascii) : option Z :=
  let n := nat_of_ascii a in
  if ((48 <=? n) && (n <=? 57))%nat then Some (Z.of_nat n - 48) else None.

Fixpoint digits_from (acc : Z) (l : list ascii) : option Z :=
  match l with
  | [] => Some acc
  | a :: l' =>
      match digit_of a with
      | Some d => digits_from (10 * acc + d) l'
      | None => None
      end
  end.

Definition parse_nat (l : list ascii) : option Z :=
  match l with
  | [] => None
  | _ => digits_from 0 l
  end.

Definition parse_int (s : string) : option Z :=
  match list_ascii_of_string s with
  | "-"%char :: l => option_map Z.opp (parse_nat l)
  | l => parse_nat l
  end.

(** Days from 1970-01-01 to the given day of the proleptic Gregorian
    calendar. *)
Definition days_from_civil (y m d : Z) : Z :=
  let y := if m <=? 2 then y - 1 else y in
  let era := y / 400 in
  let yoe := y - era * 400 in
  let doy := (153 * (if 2 <? m then m - 3 else m + 9) + 2) / 5 + d - 1 in
  let doe := yoe * 365 + yoe / 4 - yoe / 100 + doy in
  era * 146097 + doe - 719468.

Definition is_leap (y : Z) : bool :=
  (y mod 4 =? 0) && (negb (y mod 100 =? 0) || (y mod 400 =? 0)).

Definition days_in_month (y m : Z) : Z :=
  if m =? 2 then (if is_leap y then 29 else 28)
  else if (m =? 4) || (m =? 6) || (m =? 9) || (m =? 11) then 30
  else 31.

(** The nanoseconds of a day and a time given by their digits. *)
Definition timestamp_of (y m d hh mm ss : list ascii) : option Z :=
  match parse_nat y, parse_nat m, parse_nat d,
        parse_nat hh, parse_nat mm, parse_nat ss with
  | Some y, Some m, Some d, Some hh, Some mm, Some ss =>
      if (1 <=? m) && (m <=? 12) && (1 <=? d) && (d <=? days_in_month y m)
         && (hh <? 24) && (mm <? 60) && (ss <? 60)
      then Some ((days_from_civil y m d * 86400 + hh * 3600 + mm * 60 + ss) * 10 ^ 9)
      else None
  | _, _, _, _, _, _ => None
  end.

Definition parse_iso_datetime (s : string) : option Z :=
  let zero := ["0"; "0"]%char in
  match list_ascii_of_string s with
  | [y1; y2; y3; y4; "-"; m1; m2; "-"; d1; d2; " "; h1; h2; ":"; n1; n2; ":"; s1; s2]%char =>
      timestamp_of [y1; y2; y3; y4] [m1; m2] [d1; d2] [h1; h2] [n1; n2] [s1; s2]
  | [y1; y2; y3; y4; "-"; m1; m2; "-"; d1; d2; " "; h1; h2; ":"; n1; n2]%char =>
      timestamp_of [y1; y2; y3; y4] [m1; m2] [d1; d2] [h1; h2] [n1; n2] zero
  | [y1; y2; y3; y4; "-"; m1; m2; "-"; d1; d2]%char =>
      timestamp_of [y1; y2; y3; y4] [m1; m2] [d1; d2] zero zero zero
  | _ => None
  end.

(** A text operand of a comparison with a number, as the column affinity
    converts it. *)
Definition sql_numeric (v : value) : value :=
  match v with
  | VStr s => match parse_int s with Some z => VNum z | None => v end
  | _ => v
  end.

(** [a <= b] in a query: numbers before texts, texts by their characters. *)
Definition sql_le (a b : value) : bool :=
  match a, b with
  | VStr s, VStr t => String.leb s t
  | _, _ =>
      match sql_numeric a, sql_numeric b with
      | VNum x, VNum y => x <=? y
      | VNum _, VStr _ => true
      | _, _ => false
      end
  end.

Definition is_lower_name (s : string) : bool :=
  negb (String.eqb s "")
  && forallb (fun a => let n := nat_of_ascii a in
                       ((97 <=? n) && (n <=? 122) || (n =? 95))%nat)
             (list_ascii_of_string s).

#[export] Instance reference_pandas : Pandas := {|
  str_to_num := parse_int;
  str_to_float := parse_int;
  str_to_datetime := parse_iso_datetime;
  mixed_keys_ok := fun _ _ => false;
  str_other := fun _ => ""
|}.

#[export] Instance reference_sqlite : Sqlite := {|
  between_other := fun x a b => sql_le a x && sql_le x b;
  unquoted_name_ok := is_lower_name
|}.

(* ------------------------------------------------------------------------- *)
(** ** Inputs used to run the model *)
(* ------------------------------------------------------------------------- *)



(** A blood table with the columns of a record and no record. *)
Definition blood_no_records : DataFrame :=
  map (fun c => (c, mkSeries object []))
      ["index"; "MCC"; "screening_site"; "bscp_aliq_cnt"; "bscp_protocol_dev";
       "bscp_protocol_dev_reason"; "bscp_time_blood_draw";
       "bscp_aliquot_freezer_time"; "bscp_time_centrifuge"].

(* ------------------------------------------------------------------------- *)
(** ** Notions used to state the properties of the blood cleaner *)
(* ------------------------------------------------------------------------- *)

Section BloodNotions.
Context `{Pandas}.




End BloodNotions.



(* ------------------------------------------------------------------------- *)
(** ** Notions used to state the properties of [bloodjson_to_df] *)
(* ------------------------------------------------------------------------- *)

Section BloodJsonNotions.
Context `{Pandas}.

(** The center id is a key of the JSON under neither its given form nor
    its string form. *)
Definition missing_center (json : list (value * value)) (mcc : value) : Prop :=
  lookup_key mcc json = None
  /\ lookup_key (VStr (cell_to_str object mcc)) json = None.

(** The records of a center that is a key of the JSON: those under its
    string form, else those under its given form. *)
Definition center_records (json : list (value * value)) (mcc : value) : option value :=
  match lookup_key (VStr (cell_to_str object mcc)) json with
  | Some x => Some x
  | None => lookup_key mcc json
  end.

(** The working variable after the centers [pre]. *)
Definition bound_after (json : list (value * value)) (m : option value)
    (pre : list value) : option value :=
  fold_left (fun m c => match center_records json c with
                        | Some x => Some x
                        | None => m
                        end) pre m.

End BloodJsonNotions.

(** The blood JSON of one center, ["1"], with one subject and its baseline
    visit. *)
Definition blood_json_one : list (value * value) :=
  [(VStr "1",
    VDict [("10001",
            VDict [("screening_site", VStr "UI");
                   ("Baseline Visit", VDict [("bscp_aliq_cnt", VStr "3")])])])].

(** The blood JSON of one center, ["1"], without subjects. *)
Definition blood_json_empty : list (value * value) := [(VStr "1", VDict [])].

(* ------------------------------------------------------------------------- *)
(** ** Notions used to state the properties of the fetchers *)
(* ------------------------------------------------------------------------- *)

(** The resource [file] of [section] answers with a status other than 200. *)
Definition answers_failure (net : remote) (api_root section file : string) : Prop :=
  exists resp, net (url api_root section file) = Some resp /\ status_code resp <> 200.

(** A run stops at the requested resource [file]: the structured failure
    value naming [file] is returned, [file] is the last resource requested
    and no resource was requested twice. *)
Definition stops_at (r : run) (file : string) : Prop :=
  fst r = Ok (Failure "500" file) /\ last (snd r) = Some file /\ NoDup (snd r).

(** The resource [file] of [section] is served: it answers with the status
    200 and a body that decodes, as CSV for the imaging and as JSON for the
    subjects and the blood. *)
Definition served (net : remote) (api_root section file : string) : Prop :=
  exists resp,
    net (url api_root section file) = Some resp
    /\ status_code resp = 200
    /\ (if String.eqb section "imaging" then csv_body resp <> None
        else json_body resp <> None).

(** The resources of a section, in the order in which its fetcher requests
    them. *)
Definition resources (section : string) : list string :=
  if String.eqb section "subjects"
  then [api_dict "subjects" "subjects1"; api_dict "subjects" "subjects2"]
  else if String.eqb section "imaging"
  then [api_dict "imaging" "imaging"; api_dict "imaging" "qc"]
  else if String.eqb section "blood"
  then [api_dict "blood" "blood1"; api_dict "blood" "blood2"]
  else [].

(** The fetcher of a section. *)
Definition fetcher `{Pandas} (section : string) : remote -> Z -> string -> run :=
  if String.eqb section "subjects" then get_api_subjects
  else if String.eqb section "imaging" then get_api_imaging
  else get_api_blood.

(** A remote side where the first subjects resource is served and the second
    answers 404. *)
Definition remote_404 : remote :=
  fun u =>
    if String.eqb u "https://api.a2cps.org/reports/subjects/subjects-1-latest.json"
    then Some (mkResponse 200
                 (Some (VDict [("10001", VDict [("main_record_id", VStr "7")])])) None)
    else if String.eqb u "https://api.a2cps.org/reports/subjects/subjects-2-latest.json"
    then Some (mkResponse 404 None None)
    else None.

(* ------------------------------------------------------------------------- *)
(** ** A small trial: inputs used to run the subjects pipeline *)
(* ------------------------------------------------------------------------- *)

(** The display-terms file. *)
Definition trial_display_terms : DataFrame :=
  [("api_field",
    mkSeries object
      [VStr "sp_data_site"; VStr "sp_data_site";
       VStr "redcap_data_access_group"; VStr "dem_race"; VStr "dem_race";
       VStr "erep_ae_severity"]);
   ("api_value",
    mkSeries object
      [VStr "1"; VStr "2"; VStr "ui"; VStr "1"; VStr "8"; VStr "2"]);
   ("display_text",
    mkSeries object
      [VStr "Site One"; VStr "Site Two"; VStr "University I";
       VStr "White"; VStr "Multiple"; VStr "Moderate"]);
   ("multi", mkSeries int64 [VNum 0; VNum 0; VNum 0; VNum 0; VNum 0; VNum 1])].

(** The raw subjects table, as [combine_mcc_json] makes it. *)
Definition trial_subjects_raw : DataFrame :=
  [("index", mkSeries object [VStr "5"; VStr "15"; VStr "25"]);
   ("main_record_id", mkSeries object [VStr "a5"; VStr "a15"; VStr "a25"]);
   ("dem_race", mkSeries object [VStr "1"; VStr "1|2"; VStr "N/A"]);
   ("sp_data_site", mkSeries object [VStr "1"; VStr "N/A"; VStr "2"]);
   ("redcap_data_access_group", mkSeries object [VStr "ui"; VStr "ui"; VStr "ui"]);
   ("adverse_effects",
    mkSeries object
      [VDict [("0", VDict [("erep_ae_severity", VStr "2");
                           ("erep_ae_desc", VStr "nausea");
                           ("erep_action", VStr " ")]);
              ("1", VDict [("erep_ae_severity", VStr "2");
                           ("erep_ae_desc", VStr "rash");
                           ("erep_action", VStr "none")])];
       VNaN; VNaN]);
   ("mcc", mkSeries object [VStr "1"; VStr "1"; VStr "2"])].

(** The screening-site ranges [1,10] -> "A" and [11,20] -> "B". *)
Definition trial_screening_sites : DataFrame :=
  [("record_id_start", mkSeries int64 [VNum 1; VNum 11]);
   ("record_id_end", mkSeries int64 [VNum 10; VNum 20]);
   ("screening_site", mkSeries object [VStr "A"; VStr "B"])].

(** The trial in the heap: the raw table, the ranges, and the dictionaries
    that [load_display_terms] builds. *)
Definition trial_setup : M (nat * nat * list (string * nat) * list (string * nat)) :=
  let! raw := alloc trial_subjects_raw in
  let! sites := alloc trial_screening_sites in
  let! r := load_display_terms trial_display_terms in
  mret (raw, sites, snd (fst r), snd r).

Definition trial_heap : list DataFrame := snd (trial_setup []).

Definition trial_dict : list (string * nat) :=
  [("sp_data_site", 2%nat); ("redcap_data_access_group", 3%nat); ("dem_race", 4%nat)].

Definition trial_dict_multi : list (string * nat) := [("erep_ae_severity", 5%nat)].

(* ------------------------------------------------------------------------- *)
(** ** Inputs used to run the blood simplifier *)
(* ------------------------------------------------------------------------- *)


(** A computation that leaves the size of the heap and every object whose
    location satisfies [P] as they are. *)
Definition preserves {A} (P : nat -> Prop) (m : M A) : Prop :=
  forall (h h' : list DataFrame) (r : result A),
    m h = (r, h') ->
    length h' = length h /\ forall l, P l -> h' !! l = h !! l.

(* ------------------------------------------------------------------------- *)
(** ** Notions used to state the properties of the screening-site join *)
(* ------------------------------------------------------------------------- *)

(** A screening-site range: the closed interval of ids and its site. *)
Definition site_range : Type := (Z * Z * string)%type.

(** The screening-site range table of the given ranges. *)
Definition ranges_table (rs : list site_range) : DataFrame :=
  [("record_id_start", mkSeries int64 (map (fun r => VNum (fst (fst r))) rs));
   ("record_id_end", mkSeries int64 (map (fun r => VNum (snd (fst r))) rs));
   ("screening_site", mkSeries object (map (fun r => VStr (snd r)) rs))].

Definition in_range (z : Z) (r : site_range) : Prop :=
  fst (fst r) <= z <= snd (fst r).

(** No id lies in two ranges of the table. *)
Definition disjoint_ranges (rs : list site_range) : Prop :=
  forall r1 r2 z, In r1 rs -> In r2 rs -> in_range z r1 -> in_range z r2 -> r1 = r2.

(** The cell is a number or is missing. *)
Definition number_or_missing (v : value) : Prop := v = VNaN \/ exists z, v = VNum z.

(** The columns of a table other than [c]. *)
Definition other_columns (df : DataFrame) (c : string) : DataFrame :=
  List.filter (fun p => negb (String.eqb (fst p) c)) df.

(** The subjects 5, 15 and 25, with their record id as a number. *)
Definition three_subjects : DataFrame :=
  [("record_id", mkSeries int64 [VNum 5; VNum 15; VNum 25]);
   ("main_record_id", mkSeries object [VStr "a5"; VStr "a15"; VStr "a25"])].

Definition two_ranges : list site_range := [(1, 10, "A"); (11, 20, "B")].

(* ------------------------------------------------------------------------- *)
(** ** Inputs used to run the adverse-events extractor *)
(* ------------------------------------------------------------------------- *)

(** A raw subjects table in which no subject has adverse events. *)
Definition subjects_without_events : DataFrame :=
  [("index", mkSeries object [VStr "5"; VStr "15"]);
   ("main_record_id", mkSeries object [VStr "a5"; VStr "a15"]);
   ("dem_race", mkSeries object [VStr "1"; VStr "2"]);
   ("adverse_effects", mkSeries object [VNaN; VNaN]);
   ("mcc", mkSeries object [VStr "1"; VStr "1"])].

(* ------------------------------------------------------------------------- *)
(** ** Notions used to state the properties of the subjects cleaner *)
(* ------------------------------------------------------------------------- *)

Section SubjectsNotions.
Context `{Pandas}.

(** The table that enters the loop over the display dictionary: lines
    160-176 of [clean_subjects_data]. *)
Definition coerced_subjects (raw : DataFrame) (drop_cols_list : list string)
    : result DataFrame :=
  let* subjects_data := prepare_subjects raw drop_cols_list in
  let* subjects_data := recode_dem_race subjects_data in
  Ok (df_apply to_numeric_ignore subjects_data).

(** The cleaned table, before it is made an object of the heap. *)
Definition cleaned_subjects (subjects_raw : nat) (d : list (string * nat))
    (drop_cols_list : list string) : M DataFrame :=
  let! raw := load subjects_raw in
  let! subjects_data := lift (coerced_subjects raw drop_cols_list) in
  merge_display_terms d subjects_data.

End SubjectsNotions.

(** A race value that holds the multi-select delimiter: a text in which
    the character '|' occurs. *)
Definition holds_delimiter (v : value) : Prop :=
  exists s, v = VStr s /\ In "|"%char (list_ascii_of_string s).

(** A raw table in which one subject has selected two races. *)
Definition subjects_two_races : DataFrame :=
  [("index", mkSeries object [VStr "5"; VStr "15"; VStr "25"]);
   ("dem_race", mkSeries object [VStr "1|2"; VStr "unknown"; VStr "N/A"]);
   ("adverse_effects", mkSeries object [VNaN; VNaN; VNaN])].




(* ------------------------------------------------------------------------- *)
(** ** Notions used to state the round trip through the display dictionary *)
(* ------------------------------------------------------------------------- *)

(** Every column of the table has [n] cells. *)
Definition rectangular (n : nat) (df : DataFrame) : Prop :=
  Forall (fun p => length (cells (snd p)) = n) df.

(** Row [j] of the display-terms table is the one-to-one term
    (api_field = F, api_value = V, display_text = T, multi = 0). *)
Definition term_at (terms : DataFrame) (j : nat) (F : string) (V T : value) : Prop :=
  exists fields values texts multi,
    get_column terms "api_field" = Some fields
    /\ get_column terms "api_value" = Some values
    /\ get_column terms "display_text" = Some texts
    /\ get_column terms "multi" = Some multi
    /\ cells fields !! j = Some (VStr F)
    /\ cells values !! j = Some V
    /\ cells texts !! j = Some T
    /\ cells multi !! j = Some (VNum 0).

(** The key that the join compares: the key of the lookup table, cast to
    float when the column of the subjects table is of dtype float64. *)
Definition join_key `{Pandas} (column : dtype) (k : value) : result value :=
  if dtype_eqb column float64 then cell_to_float k else Ok k.

(** The lookup table of a field: the values under the name of the field,
    the texts under its display name. *)
Definition lookup_table (G : string) (keys texts : Series) : DataFrame :=
  [(G, keys); ((G ++ "_display")%string, texts)].

(** Each entry of the dictionary is bound to such a lookup table. *)
Definition lookup_tables (d : list (string * nat)) (h : list DataFrame) : Prop :=
  forall G l, In (G, l) d ->
    exists keys texts, h !! l = Some (lookup_table G keys texts).

(** What [pd.to_numeric(errors='ignore')] can make of a cell [v] of a
    column: the cell itself, its number, or the integer of a time. *)
Definition coerced `{Pandas} (v k : value) : Prop :=
  k = v \/ (exists n, cell_to_num v = Some n /\ k = unbool n) \/ k = date_as_int v.

(* ------------------------------------------------------------------------- *)
(** ** Inputs used to run the round trip *)
(* ------------------------------------------------------------------------- *)

(** A display-terms table with one term, for two races selected at once. *)
Definition race_terms : DataFrame :=
  [("api_field", mkSeries object [VStr "dem_race"]);
   ("api_value", mkSeries object [VStr "1|2"]);
   ("display_text", mkSeries object [VStr "Both"]);
   ("multi", mkSeries int64 [VNum 0])].

(** A display-terms table in which one value of the field is a number and
    the other is not. *)
Definition site_terms : DataFrame :=
  [("api_field", mkSeries object [VStr "sp_data_site"; VStr "sp_data_site"]);
   ("api_value", mkSeries object [VStr "1"; VStr "ui"]);
   ("display_text", mkSeries object [VStr "Site One"; VStr "University"]);
   ("multi", mkSeries int64 [VNum 0; VNum 0])].

(** A raw table whose site column holds a number and 'N/A'. *)
Definition subjects_one_site : DataFrame :=
  [("index", mkSeries object [VStr "5"; VStr "15"]);
   ("dem_race", mkSeries object [VStr "1"; VStr "2"]);
   ("sp_data_site", mkSeries object [VStr "1"; VStr "N/A"]);
   ("adverse_effects", mkSeries object [VNaN; VNaN])].

(** Build the dictionaries from a display-terms table, clean the raw table
    at location 0 with the one-to-one dictionary, and read the result. *)
Definition build_and_clean `{Pandas} (terms : DataFrame) : M DataFrame :=
  let! r := load_display_terms terms in
  let! l := clean_subjects_data 0%nat (snd (fst r)) ["adverse_effects"] in
  load l.

(* ------------------------------------------------------------------------- *)
(** ** Inputs used to run the helpers *)
(* ------------------------------------------------------------------------- *)


(** A table of four columns, the last of which is to be moved. *)
Definition four_columns : DataFrame :=
  [("index", mkSeries object [VStr "a"]);
   ("MCC", mkSeries object [VStr "1"]);
   ("screening_site", mkSeries object [VStr "UI"]);
   ("Visit", mkSeries object [VStr "Baseline Visit"])].

(** A blood table in which no record has the visit at three months. *)
Definition blood_two_visits : DataFrame :=
  [("index", mkSeries object [VStr "a"]);
   ("MCC", mkSeries object [VStr "1"]);
   ("screening_site", mkSeries object [VStr "UI"]);
   ("Baseline Visit", mkSeries object [VNaN]);
   ("Visit", mkSeries object [VStr "Baseline Visit"]);
   ("6-Wks Post-Op", mkSeries object [VNaN])].

(** A remote side on which both centers answer with an object without
    records. *)
Definition remote_no_records : remote :=
  fun _ => Some (mkResponse 200 (Some (VDict [])) None).

(** The rows of the display-terms table that bear the field [F] with the
    flag [multi] equal to [mv], in the order of the table. *)
Definition term_rows (fields multi : Series) (mv : value) (F : string) : list nat :=
  List.filter (fun j => py_eqb (nth j (cells multi) VNaN) mv
                        && py_eqb (nth j (cells fields) VNaN) (VStr F))
              (seq 0 (length (cells multi))).

(** The lookup table that the terms of the field [F] with the flag [mv]
    make: their values under the name of the field and their texts under its
    display name, in the order of the table, each column coerced to numbers
    when all of it parses. *)
Definition terms_lookup `{Pandas} (fields multi values texts : Series) (mv : value)
    (F : string) : DataFrame :=
  let rows := term_rows fields multi mv F in
  lookup_table F
    (to_numeric_ignore
       (mkSeries (s_dtype values) (map (fun j => nth j (cells values) VNaN) rows)))
    (to_numeric_ignore
       (mkSeries (s_dtype texts) (map (fun j => nth j (cells texts) VNaN) rows))).

(** The dictionary [dict], with its lookup tables in [h], holds the terms of
    the table whose flag [multi] equals [mv]: its keys are the fields that
    have such a term, and each is bound to the lookup table of its terms. *)
Definition holds_terms `{Pandas} (terms : DataFrame) (mv : value)
    (dict : list (string * nat)) (h : list DataFrame) : Prop :=
  exists fields multi,
    get_column terms "api_field" = Some fields
    /\ get_column terms "multi" = Some multi
    /\ (forall F, In F (map fst dict) <-> term_rows fields multi mv F <> [])
    /\ (forall F l, In (F, l) dict ->
          exists values texts,
            get_column terms "api_value" = Some values
            /\ get_column terms "display_text" = Some texts
            /\ h !! l = Some (terms_lookup fields multi values texts mv F)).

(* ------------------------------------------------------------------------- *)
(** ** Inputs used to run the fetchers to their end *)
(* ------------------------------------------------------------------------- *)

(** A remote side on which each subjects resource answers with one subject,
    and each imaging resource with a table of one row. *)
Definition remote_one_subject : remote :=
  fun _ =>
    Some (mkResponse 200
            (Some (VDict [("5", VDict [("main_record_id", VStr "a5")])]))
            (Some [("site", mkSeries object [VStr "UI"])])).

(** Two ranges that overlap on the ids 5 to 10. *)
Definition overlapping_ranges : list site_range := [(1, 10, "A"); (5, 20, "B")].

Definition in_rangeb (z : Z) (r : site_range) : bool :=
  (fst (fst r) <=? z) && (z <=? snd (fst r)).

(** The positions of the rows whose id is the number [z]. *)
Definition rows_with_id (z : Z) (ids : list value) : list nat :=
  List.filter (fun j => match nth j ids VNaN with
                        | VNum y => z =? y
                        | _ => false
                        end)
              (seq 0 (length ids)).

(** The records of the subjects with their sites: for each row of the
    subjects with a numeric id, in order, and for each range that holds the
    id, in the order of the range table, one record for every row of the
    subjects that bears this id: the id, the site of the range and the other
    cells of that row. *)
Definition records_with_sites (rs : list site_range) (df : DataFrame) (id_col : string)
    (ids : list value) : list record :=
  flat_map
    (fun x =>
       match x with
       | VNum z =>
           flat_map
             (fun r =>
                if in_rangeb z r
                then map (fun j => (id_col, VNum z) :: ("screening_site", VStr (snd r))
                                   :: record_at (other_columns df id_col) j)
                         (rows_with_id z ids)
                else [])
             rs
       | _ => []
       end)
    ids.



(** The table of one center, as the loop of [combine_mcc_json] makes it
    before it is added to the others. *)
Definition center_table (mcc : string) (v : value) : result DataFrame :=
  let* mcc_data := from_dict_reset v in
  Ok (set_column mcc_data "mcc" (constant_series (nrows mcc_data) (VStr mcc))).

(** The cells of column [c], none if the table has no such column. *)
Definition column_cells (c : string) (df : DataFrame) : list value :=
  match get_column df c with Some s => cells s | None => [] end.

(** A table with at least one column, distinct column names and columns of
    one length. *)
Definition well_formed (df : DataFrame) : Prop :=
  df <> [] /\ nodup_strings (columns df) = true /\ rectangular (nrows df) df.

(** [df] holds the rows of [tables], one table under the other: each column
    that all the tables have holds their cells in the order of the tables. *)
Definition stacks (tables : list DataFrame) (df : DataFrame) : Prop :=
  nrows df = list_sum (map nrows tables)
  /\ (tables = [] -> df = [])
  /\ (tables <> [] ->
      well_formed df
      /\ forall c, Forall (fun t => has_column t c = true) tables ->
           exists s, get_column df c = Some s
                     /\ cells s = flat_map (column_cells c) tables).

(** The subjects of three centers; the first center has none. *)
Definition three_centers : list (string * value) :=
  [("1", VDict []);
   ("2", VDict [("7", VDict [("age", VStr "30")])]);
   ("3", VDict [("8", VDict [("age", VStr "41")]); ("9", VDict [("sex", VStr "1")])])].




(* ------------------------------------------------------------------------- *)
(** ** Lemmas on columns, rows and the heap *)
(* ------------------------------------------------------------------------- *)

Lemma get_column_set_column (d : DataFrame) (c c' : string) (s : Series) :
  get_column (set_column d c s) c'
  = if String.eqb c' c then Some s else get_column d c'.
Proof.
  induction d as [|[n s'] d IH]; simpl.
  - reflexivity.
  - destruct (String.eqb_spec c n) as [->|Hcn]; simpl.
    + destruct (String.eqb c' n); reflexivity.
    + rewrite IH. destruct (String.eqb_spec c' n) as [->|Hc'n].
      * destruct (String.eqb_spec n c); congruence.
      * reflexivity.
Qed.

Lemma get_column_app (a b : DataFrame) (c : string) :
  get_column (a ++ b) c
  = match get_column a c with Some s => Some s | None => get_column b c end.
Proof.
  induction a as [|[n s] a IH]; simpl; [reflexivity|].
  destruct (String.eqb c n); [reflexivity|apply IH].
Qed.

(** Columns renamed by [fn] and transformed by [g]: a label that [fn]
    neither produces nor moves is found as before. *)
Lemma get_column_map (fn : string -> string) (g : string * Series -> Series)
    (d : DataFrame) (c : string) :
  (forall n, String.eqb c (fn n) = String.eqb c n) ->
  get_column (map (fun p => (fn (fst p), g p)) d) c
  = match get_column d c with Some s => Some (g (c, s)) | None => None end.
Proof.
  intros Hfn. induction d as [|[n s] d IH]; simpl; [reflexivity|].
  rewrite Hfn. destruct (String.eqb_spec c n) as [->|]; [reflexivity|apply IH].
Qed.

Lemma nth_take (idx : list (option nat)) (l : list value) (i : nat) :
  nth i (take idx l) VNaN
  = match nth i idx None with Some n => nth n l VNaN | None => VNaN end.
Proof.
  unfold take.
  exact (map_nth (fun o => match o with Some n => nth n l VNaN | None => VNaN end) idx None i).
Qed.



Lemma load_lookup (l : loc) (h : heap) (d : DataFrame) :
  h !! l = Some d -> load l h = (Ok d, h).
Proof. intros Hl. unfold load. rewrite Hl. reflexivity. Qed.

Lemma lookup_store (l : loc) (h : heap) (d d' : DataFrame) :
  h !! l = Some d -> (<[l := d']> h) !! l = Some d'.
Proof.
  intros Hl. apply list_lookup_insert_eq. eapply lookup_lt_Some, Hl.
Qed.

(* ------------------------------------------------------------------------- *)
(** ** The blood cleaner: the quality-control flag *)
(* ------------------------------------------------------------------------- *)

Ltac eqb_literals :=
  repeat match goal with
         | |- context [String.eqb ?a ?b] =>
             let r := eval vm_compute in (String.eqb a b) in
             change (String.eqb a b) with r
         end;
  cbv iota.




Section BloodProperties.
Context `{Pandas}.










Lemma existsb_false {A} (p : A -> bool) (l : list A) :
  Forall (fun a => p a = false) l -> existsb p l = false.
Proof. induction 1; simpl; [reflexivity|]. rewrite H0. assumption. Qed.












Lemma has_column_get (d : DataFrame) (c : string) :
  has_column d c = match get_column d c with Some _ => true | None => false end.
Proof.
  unfold has_column, columns. induction d as [|[n s] d IH]; simpl; [reflexivity|].
  destruct (String.eqb c n); [reflexivity|exact IH].
Qed.






End BloodProperties.



(* ------------------------------------------------------------------------- *)
(** ** [bloodjson_to_df]: a center that is not in the JSON *)
(* ------------------------------------------------------------------------- *)

Section BloodJsonProperties.
Context `{Pandas}.

Lemma bloodjson_loop_app (json : list (value * value)) (pre rest : list value) :
  forall (m : option value) (df : DataFrame),
    bloodjson_loop json m df (pre ++ rest)
    = match bloodjson_loop json m df pre with
      | Ok df' => bloodjson_loop json (bound_after json m pre) df' rest
      | Raise e => Raise e
      end.
Proof.
  induction pre as [|c pre IH]; intros m df; simpl; [reflexivity|].
  unfold center_records.
  destruct (lookup_key (VStr (cell_to_str object c)) json) as [x|] eqn:Hs.
  - destruct (truthy x); [|apply IH].
    destruct (unnest_center x _ df); simpl; [apply IH|reflexivity].
  - destruct (lookup_key c json) as [x|] eqn:Hg.
    + destruct (truthy x); [|apply IH].
      destruct (unnest_center x c df); simpl; [apply IH|reflexivity].
    + destruct m as [x|]; [|reflexivity].
      destruct (truthy x); [|apply IH].
      destruct (unnest_center x c df); simpl; [apply IH|reflexivity].
Qed.

Lemma bound_after_missing (json : list (value * value)) (pre : list value)
    (m : option value) :
  Forall (missing_center json) pre -> bound_after json m pre = m.
Proof.
  intros Hpre. revert m. induction Hpre as [|c pre [Hg Hs] _ IH]; intros m; simpl;
    [reflexivity|].
  unfold center_records. rewrite Hs, Hg. apply IH.
Qed.

Lemma bound_after_app (json : list (value * value)) (a b : list value)
    (m : option value) :
  bound_after json m (a ++ b) = bound_after json (bound_after json m a) b.
Proof. unfold bound_after. apply fold_left_app. Qed.

(** C10 (amended).  A center id that is a key of the JSON under neither its
    given form nor its string form makes [bloodjson_to_df] fail when it is
    the first element of [mcc_list]; after a center [c'] that is in the JSON
    (with only missing centers in between) the records [r] of [c'] are
    unnested again, tagged with the id of the missing center itself, unless
    [r] is empty, in which case the missing center adds nothing. *)
Theorem bloodjson_missing_center (json : list (value * value)) (c : value)
    (post : list value) :
  missing_center json c ->
  bloodjson_to_df json (c :: post) = Raise UnboundLocalError
  /\ forall (pre1 pre2 : list value) (c' r : value) (df : DataFrame),
       center_records json c' = Some r ->
       Forall (missing_center json) pre2 ->
       bloodjson_to_df json (pre1 ++ c' :: pre2) = Ok df ->
       bloodjson_to_df json ((pre1 ++ c' :: pre2) ++ c :: post)
       = if truthy r
         then let* df' := unnest_center r c df in
              bloodjson_loop json (Some r) df' post
         else bloodjson_loop json (Some r) df post.
Proof.
  intros [Hg Hs]. split.
  - unfold bloodjson_to_df. simpl. rewrite Hg, Hs. reflexivity.
  - intros pre1 pre2 c' r df Hr Hpre2 Hdf.
    unfold bloodjson_to_df in *. rewrite bloodjson_loop_app, Hdf.
    rewrite bound_after_app.
    replace (bound_after json (bound_after json None pre1) (c' :: pre2)) with (Some r).
    + simpl. rewrite Hg, Hs. reflexivity.
    + simpl. rewrite Hr. symmetry. apply bound_after_missing, Hpre2.
Qed.

End BloodJsonProperties.

(** C10, witness: center ["2"] is missing, first or after center ["1"]. *)
Lemma bloodjson_missing_center_run :
  bloodjson_to_df blood_json_one [VStr "2"; VStr "1"] = Raise UnboundLocalError
  /\ bloodjson_to_df blood_json_one ([VStr "1"] ++ [VStr "2"])
     = (let* df := bloodjson_to_df blood_json_one [VStr "1"] in
        let* df' :=
          unnest_center (VDict [("10001",
                                 VDict [("screening_site", VStr "UI");
                                        ("Baseline Visit",
                                         VDict [("bscp_aliq_cnt", VStr "3")])])])
                        (VStr "2") df in
        Ok df').
Proof.
  destruct (bloodjson_missing_center blood_json_one (VStr "2") [VStr "1"]) as [Hfirst _];
    [split; reflexivity|].
  destruct (bloodjson_missing_center blood_json_one (VStr "2") []) as [_ Hlater];
    [split; reflexivity|].
  split; [exact Hfirst|].
  destruct (bloodjson_to_df blood_json_one [VStr "1"]) as [df|e] eqn:Hdf;
    [|vm_compute in Hdf; discriminate].
  exact (Hlater [] [] (VStr "1") _ df eq_refl (List.Forall_nil _) Hdf).
Defined.

(** C10, counterexample.  With center ["1"] in the JSON and center ["2"]
    missing, the rows added for ["2"] are tagged ["2"], not ["1"]; and when
    the records of center ["1"] are empty, the missing center ["2"] adds no
    row and nothing fails. *)
Lemma bloodjson_missing_center_tag :
  option_map (fun s => cells s)
    (match bloodjson_to_df blood_json_one [VStr "1"; VStr "2"] with
     | Ok df => get_column df "MCC"
     | Raise _ => None
     end) = Some [VStr "1"; VStr "2"]
  /\ bloodjson_to_df blood_json_empty [VStr "1"; VStr "2"] = Ok [].
Proof. vm_compute. split; reflexivity. Qed.

(* ------------------------------------------------------------------------- *)
(** ** The fetchers: a resource that answers with a status other than 200 *)
(* ------------------------------------------------------------------------- *)

Ltac fetch_cases :=
  repeat match goal with
         | |- context [api_dict ?a ?b] =>
             let r := eval vm_compute in (api_dict a b) in
             change (api_dict a b) with r
         end;
  repeat match goal with
         | |- context [match ?net ?u with Some _ => _ | None => _ end] =>
             let E := fresh "E" in destruct (net u) eqn:E
         | |- context [(status_code ?r =? 200)%Z] =>
             let S := fresh "S" in destruct (Z.eqb_spec (status_code r) 200) as [S|S]
         | |- context [match json_body ?r with Some _ => _ | None => _ end] =>
             destruct (json_body r)
         | |- context [match csv_body ?r with Some _ => _ | None => _ end] =>
             destruct (csv_body r)
         end.

Ltac fetch_leaf :=
  simpl; intros Hin [resp [Hnet Hst]];
  repeat match goal with
         | H : _ \/ _ |- _ => destruct H
         | H : False |- _ => destruct H
         | H : _ = _ :> string |- _ => (subst || discriminate H)
         end;
  repeat match goal with
         | H1 : ?n ?u = Some ?a, H2 : ?n ?u = Some ?b |- _ =>
             rewrite H1 in H2; injection H2 as ->
         | H1 : ?n ?u = None, H2 : ?n ?u = Some _ |- _ =>
             rewrite H1 in H2; discriminate H2
         end;
  try contradiction;
  unfold stops_at; simpl;
  (split; [reflexivity|split; [reflexivity|]]);
  apply (bool_decide_unpack _); vm_compute; exact I.

Section FetcherProperties.
Context `{Pandas}.

Lemma fetch_requested_failure (net : remote) (now : Z) (api_root file : string) :
  (In file (snd (get_api_subjects net now api_root)) ->
   answers_failure net api_root "subjects" file ->
   stops_at (get_api_subjects net now api_root) file)
  /\ (In file (snd (get_api_imaging net now api_root)) ->
      answers_failure net api_root "imaging" file ->
      stops_at (get_api_imaging net now api_root) file)
  /\ (In file (snd (get_api_blood net now api_root)) ->
      answers_failure net api_root "blood" file ->
      stops_at (get_api_blood net now api_root) file).
Proof.
  split; [|split].
  - unfold get_api_subjects. cbv zeta. fetch_cases; fetch_leaf.
  - unfold get_api_imaging. cbv zeta. fetch_cases; fetch_leaf.
  - unfold get_api_blood. cbv zeta. fetch_cases; fetch_leaf.
Qed.

Ltac fetch_known :=
  repeat match goal with
         | H : ?net ?u = Some ?r |- context [?net ?u] => rewrite H
         | H : status_code ?r = 200 |- context [status_code ?r] => rewrite H
         | H : status_code ?r <> 200 |- context [(status_code ?r =? 200)%Z] =>
             destruct (Z.eqb_spec (status_code r) 200); [contradiction|]
         | H : json_body ?r <> None |- context [json_body ?r] =>
             destruct (json_body r); [|contradiction]
         | H : csv_body ?r <> None |- context [csv_body ?r] =>
             destruct (csv_body r); [|contradiction]
         end.

(** C2.  Each fetcher requests its resources in a fixed order.  When the
    resources before [file] are served and [file] answers with a status
    other than 200, the run returns [{status: '500', source: file}] and the
    resources requested are those before [file], then [file]: one request
    each, none after [file], and nothing of the bodies fetched before is
    returned.  More generally, in every run a requested resource that
    answers with a status other than 200 is named by the failure value
    returned, is the last one requested, and no resource is requested
    twice. *)
Theorem fetch_failure_stops (net : remote) (now : Z) (api_root section : string)
    (pre post : list string) (file : string) :
  In section ["subjects"; "imaging"; "blood"] ->
  answers_failure net api_root section file ->
  (resources section = pre ++ file :: post ->
   Forall (served net api_root section) pre ->
   fetcher section net now api_root = (Ok (Failure "500" file), pre ++ [file]))
  /\ (In file (snd (fetcher section net now api_root)) ->
      stops_at (fetcher section net now api_root) file).
Proof.
  intros Hsection Hfail. split.
  - intros Hres Hpre. destruct Hfail as (resp & Hnet & Hstatus).
    destruct Hsection as [<-|[<-|[<-|[]]]]; vm_compute in Hres;
      (destruct pre as [|f1 [|f2 pre]];
       [injection Hres as <- _
       |injection Hres as <- <- _;
        apply Forall_cons in Hpre as [(resp1 & Hnet1 & Hstatus1 & Hbody1) _];
        simpl in Hbody1
       |injection Hres as _ _ Hres; destruct pre; discriminate Hres]);
      unfold fetcher; simpl;
      [unfold get_api_subjects|unfold get_api_subjects
      |unfold get_api_imaging|unfold get_api_imaging
      |unfold get_api_blood|unfold get_api_blood];
      cbv zeta;
      repeat match goal with
             | |- context [api_dict ?a ?b] =>
                 let r := eval vm_compute in (api_dict a b) in
                 change (api_dict a b) with r
             end;
      fetch_known; reflexivity.
  - pose proof (fetch_requested_failure net now api_root file) as (Hs & Hi & Hb).
    destruct Hsection as [<-|[<-|[<-|[]]]]; unfold fetcher; simpl; intros Hin; auto.
Qed.

End FetcherProperties.

(** C2, witness: the first subjects resource is served and the second
    answers 404; the run returns the failure value naming the second, after
    one request to each resource. *)
Lemma fetch_failure_404 :
  get_api_subjects remote_404 0 "https://api.a2cps.org/reports"
  = (Ok (Failure "500" "subjects-2-latest.json"),
     ["subjects-1-latest.json"; "subjects-2-latest.json"])
  /\ stops_at (get_api_subjects remote_404 0 "https://api.a2cps.org/reports")
              "subjects-2-latest.json".
Proof.
  destruct (fetch_failure_stops remote_404 0 "https://api.a2cps.org/reports" "subjects"
              ["subjects-1-latest.json"] [] "subjects-2-latest.json")
    as [Hrun Hstop].
  - left. reflexivity.
  - exists (mkResponse 404 None None). split; [vm_compute; reflexivity|simpl; lia].
  - split.
    + apply Hrun; [reflexivity|]. constructor; [|constructor].
      eexists. split; [vm_compute; reflexivity|]. split; [reflexivity|].
      simpl. discriminate.
    + apply Hstop. vm_compute. right. left. reflexivity.
Defined.

(* ------------------------------------------------------------------------- *)
(** ** [create_clean_subjects]: the date of the result *)
(* ------------------------------------------------------------------------- *)

Lemma trial_setup_run :
  trial_setup [] = (Ok (0%nat, 1%nat, trial_dict, trial_dict_multi), trial_heap).
Proof. vm_compute. reflexivity. Qed.

Section CreateCleanSubjects.
Context `{Pandas} `{Sqlite}.

Lemma current_datetime_unbound : load_global "current_datetime" = Raise NameError.
Proof. vm_compute. reflexivity. Qed.

(** C1.  [create_clean_subjects] reads the name [current_datetime], which is
    bound nowhere in the module: whenever the cleaning steps succeed and the
    three views are built, the function returns the null sentinel; it
    returns the mapping [{date, data}] on no input at all. *)
Theorem create_clean_subjects_returns_none
    (subjects_raw screening_sites : nat)
    (display_terms_dict display_terms_dict_multi : list (string * nat))
    (h h' : list DataFrame) (data : list (string * list record)) :
  clean_views subjects_raw screening_sites display_terms_dict display_terms_dict_multi h
  = (Ok data, h') ->
  create_clean_subjects subjects_raw screening_sites display_terms_dict
    display_terms_dict_multi h
  = (Ok None, h').
Proof.
  intros Hviews. unfold create_clean_subjects, try_except, mbind.
  rewrite Hviews. unfold lift. rewrite current_datetime_unbound. reflexivity.
Qed.

Lemma create_clean_subjects_never_dated
    (subjects_raw screening_sites : nat)
    (display_terms_dict display_terms_dict_multi : list (string * nat))
    (h : list DataFrame) (r : api_result) :
  fst (create_clean_subjects subjects_raw screening_sites display_terms_dict
         display_terms_dict_multi h)
  <> Ok (Some r).
Proof.
  unfold create_clean_subjects, try_except, mbind.
  destruct (clean_views _ _ _ _ h) as [[data|e] h'].
  - unfold lift. rewrite current_datetime_unbound. discriminate.
  - destruct e; discriminate.
Qed.

End CreateCleanSubjects.

(** C1, witness: on the trial the three views are built, with the rows of
    subjects 5 and 15 and two adverse events, and the result is the null
    sentinel. *)
Lemma create_clean_subjects_trial :
  exists data h',
    clean_views 0%nat 1%nat trial_dict trial_dict_multi trial_heap = (Ok data, h')
    /\ map (fun v => (fst v, length (snd v))) data
       = [("subjects", 2%nat); ("consented", 2%nat); ("adverse_events", 2%nat)]
    /\ create_clean_subjects 0%nat 1%nat trial_dict trial_dict_multi trial_heap
       = (Ok None, h').
Proof.
  destruct (clean_views 0%nat 1%nat trial_dict trial_dict_multi trial_heap)
    as [[data|e] h'] eqn:Hviews; [|vm_compute in Hviews; discriminate].
  exists data, h'. split; [reflexivity|]. split.
  - vm_compute in Hviews. injection Hviews as <- _. reflexivity.
  - exact (create_clean_subjects_returns_none _ _ _ _ _ _ _ Hviews).
Defined.

(* ------------------------------------------------------------------------- *)
(** ** What the cleaning functions write *)
(* ------------------------------------------------------------------------- *)

Lemma preserves_mret {A} (P : nat -> Prop) (a : A) : preserves P (mret a).
Proof. intros h h' r [= <- <-]. auto. Qed.

Lemma preserves_lift {A} (P : nat -> Prop) (x : result A) : preserves P (lift x).
Proof. intros h h' r [= <- <-]. auto. Qed.

Lemma preserves_load (P : nat -> Prop) (l : nat) : preserves P (load l).
Proof.
  intros h h' r. unfold load. destruct (h !! l); intros [= <- <-]; auto.
Qed.

Lemma preserves_store (P : nat -> Prop) (l : nat) (d : DataFrame) :
  ~ P l -> preserves P (store l d).
Proof.
  intros Hl h h' r [= <- <-]. split; [apply length_insert|].
  intros l' Hl'. apply list_lookup_insert_ne. intros ->. contradiction.
Qed.

Lemma preserves_bind {A B} (P : nat -> Prop) (m : M A) (f : A -> M B) :
  preserves P m -> (forall a, preserves P (f a)) -> preserves P (mbind m f).
Proof.
  intros Hm Hf h h' r. unfold mbind.
  destruct (m h) as [[a|e] h1] eqn:E.
  - intros Hfa. destruct (Hm _ _ _ E) as [Hlen Hsame].
    destruct (Hf a _ _ _ Hfa) as [Hlen' Hsame']. split; [congruence|].
    intros l Hl. rewrite Hsame', Hsame by assumption. reflexivity.
  - intros [= <- <-]. exact (Hm _ _ _ E).
Qed.

Section Effects.
Context `{Pandas}.

Lemma merge_display_term_preserves (P : nat -> Prop) (i : string) (l : nat)
    (subjects_data : DataFrame) :
  ~ P l -> preserves P (merge_display_term i l subjects_data).
Proof.
  intros Hl. unfold merge_display_term.
  apply preserves_bind; [apply preserves_lift|]. intros column.
  apply preserves_bind.
  - destruct (dtype_eqb _ _); [|apply preserves_mret].
    apply preserves_bind; [apply preserves_load|]. intros terms.
    apply preserves_bind; [apply preserves_lift|]. intros key.
    apply preserves_bind; [apply preserves_lift|]. intros key'.
    apply preserves_store. exact Hl.
  - intros _. apply preserves_bind; [apply preserves_load|]. intros terms.
    apply preserves_lift.
Qed.

Lemma merge_display_terms_preserves (P : nat -> Prop) (d : list (string * nat)) :
  Forall (fun p => ~ P (snd p)) d ->
  forall subjects_data, preserves P (merge_display_terms d subjects_data).
Proof.
  induction 1 as [|[i l] d Hl Hd IH]; intros sd; simpl.
  - apply preserves_mret.
  - destruct (has_column sd i); [|apply IH].
    apply preserves_bind; [apply merge_display_term_preserves; exact Hl|].
    intros sd'. apply IH.
Qed.




End Effects.



(* ------------------------------------------------------------------------- *)
(** ** The screening-site join *)
(* ------------------------------------------------------------------------- *)

#[local] Arguments String.eqb : simpl never.

Lemma matches_from_In (k : value) (rk : list value) :
  forall n j,
    In j (matches_from n k rk)
    <-> exists i, j = (n + i)%nat /\ (i < length rk)%nat
                  /\ key_eqb k (nth i rk VNaN) = true.
Proof.
  induction rk as [|v rk IH]; intros n j; simpl.
  - split; [contradiction|]. intros (i & _ & Hi & _). lia.
  - assert (Hrest : In j (matches_from (S n) k rk)
                    <-> exists i, j = (n + S i)%nat /\ (i < length rk)%nat
                                  /\ key_eqb k (nth i rk VNaN) = true).
    { rewrite IH. split; intros (i & -> & Hi & Hk); exists i; repeat split;
        try assumption; lia. }
    destruct (key_eqb k v) eqn:Hkv; simpl; rewrite ?Hrest; split.
    + intros [<-|(i & -> & Hi & Hk)].
      * exists 0%nat. repeat split; [lia|lia|exact Hkv].
      * exists (S i). repeat split; [lia|exact Hk].
    + intros ([|i] & -> & Hi & Hk).
      * left. lia.
      * right. exists i. repeat split; [lia|exact Hk].
    + intros (i & -> & Hi & Hk). exists (S i). repeat split; [lia|exact Hk].
    + intros ([|i] & -> & Hi & Hk); [simpl in Hk; congruence|].
      exists i. repeat split; [lia|exact Hk].
Qed.

Lemma left_join_from_In (lk rk : list value) :
  forall n l o,
    In (l, o) (left_join_from n lk rk)
    -> exists i, l = (n + i)%nat /\ (i < length lk)%nat
                 /\ match o with
                    | Some k => In k (matches_from 0 (nth i lk VNaN) rk)
                    | None => matches_from 0 (nth i lk VNaN) rk = []
                    end.
Proof.
  induction lk as [|v lk IH]; intros n l o; simpl; [contradiction|].
  rewrite in_app_iff. intros [Hhead|Htail].
  - exists 0%nat. destruct (matches_from 0 v rk) as [|j js] eqn:Hm.
    + destruct Hhead as [[= <- <-]|[]].
      split; [lia|]. split; [simpl; lia|]. reflexivity.
    + destruct Hhead as [[= <- <-]|Hhead].
      * split; [lia|]. split; [simpl; lia|]. left. reflexivity.
      * apply in_map_iff in Hhead as (k & [= <- <-] & Hk).
        split; [lia|]. split; [simpl; lia|]. right. exact Hk.
  - destruct (IH _ _ _ Htail) as (i & -> & Hi & Ho).
    exists (S i). split; [lia|]. split; [simpl; lia|]. exact Ho.
Qed.

Lemma left_join_from_Some (lk rk : list value) :
  forall n i k,
    (i < length lk)%nat -> In k (matches_from 0 (nth i lk VNaN) rk) ->
    In ((n + i)%nat, Some k) (left_join_from n lk rk).
Proof.
  induction lk as [|v lk IH]; intros n i k Hi Hk; simpl in *; [lia|].
  rewrite in_app_iff. destruct i as [|i].
  - left. rewrite Nat.add_0_r. destruct (matches_from 0 v rk) as [|j js]; [contradiction|].
    apply (in_map (fun j => (n, Some j)) (j :: js) k Hk).
  - right. replace (n + S i)%nat with (S n + i)%nat by lia. apply IH; [lia|exact Hk].
Qed.

Lemma length_take (idx : list (option nat)) (l : list value) :
  length (take idx l) = length idx.
Proof. apply length_map. Qed.

Lemma map_seq_nth {A B} (f : A -> B) (l : list A) (d : A) :
  map (fun j => f (nth j l d)) (seq 0 (length l)) = map f l.
Proof.
  induction l as [|a l IH]; simpl; [reflexivity|].
  f_equal. rewrite <- seq_shift, map_map. exact IH.
Qed.

Lemma key_eqb_num (z : Z) : key_eqb (VNum z) (VNum z) = true.
Proof. unfold key_eqb. simpl. apply Z.eqb_refl. Qed.

Lemma key_eqb_num_inv (z : Z) (v : value) :
  number_or_missing v -> key_eqb (VNum z) v = true -> v = VNum z.
Proof.
  intros [->|[x ->]]; unfold key_eqb; simpl; [discriminate|].
  intros Hx. apply Z.eqb_eq in Hx. congruence.
Qed.

Lemma assoc_head {A} (k : string) (a : A) (l : list (string * A)) :
  assoc k ((k, a) :: l) = Some a.
Proof. simpl. rewrite String.eqb_refl. reflexivity. Qed.

Lemma has_column_false_neq (df : DataFrame) (c c' : string) (s : Series) :
  get_column df c = Some s -> has_column df c' = false -> c <> c'.
Proof.
  intros Hc Hc' ->. rewrite has_column_get, Hc in Hc'. discriminate.
Qed.

Section ScreeningSite.
Context `{Pandas} `{Sqlite}.

Lemma sql_between_num (z a b : Z) :
  sql_between (VNum z) (VNum a) (VNum b) = ((a <=? z) && (z <=? b))%Z.
Proof. reflexivity. Qed.

(** The rows of the range join of numeric ids against a range table. *)
Lemma range_join_In (ids : list value) (rs : list site_range) (x s : value) :
  Forall number_or_missing ids ->
  In (x, s)
     (range_join ids
        (zip3 (map (fun r => VNum (fst (fst r))) rs)
              (map (fun r => VNum (snd (fst r))) rs)
              (map (fun r => VStr (snd r)) rs)))
  <-> exists z r, x = VNum z /\ s = VStr (snd r) /\ In (VNum z) ids /\ In r rs
                  /\ in_range z r.
Proof.
  intros Hids.
  match goal with
  | |- context [range_join ids ?z] =>
      assert (Hzip : z = map (fun r : site_range =>
                                (VNum (fst (fst r)), VNum (snd (fst r)), VStr (snd r))) rs)
  end.
  { clear. induction rs as [|r rs IH]; simpl; [reflexivity|]. f_equal. exact IH. }
  rewrite Hzip. unfold range_join. rewrite in_flat_map. split.
  - intros (v & Hv & Hin). apply in_flat_map in Hin as (t & Ht & Hin).
    apply in_map_iff in Ht as (r & <- & Hr).
    rewrite List.Forall_forall in Hids.
    destruct (Hids v Hv) as [->|[z ->]]; simpl in Hin; [contradiction|].
    rewrite sql_between_num in Hin.
    destruct ((fst (fst r) <=? z) && (z <=? snd (fst r))) eqn:Hb; [|contradiction].
    destruct Hin as [[= <- <-]|[]].
    exists z, r. repeat split; try assumption; unfold in_range; lia.
  - intros (z & r & -> & -> & Hz & Hr & [Ha Hb]).
    exists (VNum z). split; [exact Hz|]. apply in_flat_map.
    exists (VNum (fst (fst r)), VNum (snd (fst r)), VStr (snd r)). split.
    + apply in_map_iff. exists r. split; [reflexivity|exact Hr].
    + rewrite sql_between_num.
      replace ((fst (fst r) <=? z) && (z <=? snd (fst r))) with true
        by (symmetry; apply andb_true_iff; split; apply Z.leb_le; assumption).
      left. reflexivity.
Qed.


Lemma existsb_map_false {A} (p : value -> bool) (f : A -> value) (l : list A) :
  (forall a, p (f a) = false) -> existsb p (map f l) = false.
Proof. intros Hp. induction l; simpl; [reflexivity|]. rewrite Hp. assumption. Qed.

Lemma existsb_number_or_missing (p : value -> bool) (l : list value) :
  p VNaN = false -> (forall z, p (VNum z) = false) ->
  Forall number_or_missing l -> existsb p l = false.
Proof.
  intros Hnan Hnum. induction 1 as [|v l [->|[z ->]] _ IH]; simpl;
    rewrite ?Hnan, ?Hnum; auto.
Qed.

Lemma has_column_other_columns (df : DataFrame) (c c' : string) :
  has_column df c' = false -> has_column (other_columns df c) c' = false.
Proof.
  unfold has_column, columns, other_columns.
  induction df as [|[n s] df IH]; simpl; [reflexivity|].
  intros Hc. apply orb_false_iff in Hc as [Hn Hrest].
  destruct (negb (String.eqb n c)); simpl; [rewrite Hn|]; auto.
Qed.

(** The table that [add_screening_site] returns on numeric ids, row by row:
    one record per pair of the join. *)
Lemma add_screening_site_records (rs : list site_range) (df : DataFrame)
    (id_col : string) (ids : Series) :
  get_column df id_col = Some ids ->
  is_number_dtype (s_dtype ids) = true ->
  Forall number_or_missing (cells ids) ->
  cells ids <> [] ->
  has_column df "screening_site" = false ->
  has_column (ranges_table rs) id_col = false ->
  unquoted_name_ok id_col = true ->
  let rows :=
    range_join (cells ids)
      (zip3 (map (fun r => VNum (fst (fst r))) rs)
            (map (fun r => VNum (snd (fst r))) rs)
            (map (fun r => VStr (snd r)) rs)) in
  exists out,
    add_screening_site (ranges_table rs) df id_col = Ok out
    /\ to_records out
       = map (fun p : nat * option nat =>
                (id_col, nth (fst p) (map fst rows) VNaN)
                :: ("screening_site", nth (fst p) (map snd rows) VNaN)
                :: map (fun c => (fst c,
                                  match snd p with
                                  | Some k => nth k (cells (snd c)) VNaN
                                  | None => VNaN
                                  end))
                       (other_columns df id_col))
             (left_join (map fst rows) (cells ids)).
Proof.
  intros Hids Hnum Hcells Hne Hsite Hamb Hname rows.
  assert (Hneq : id_col <> "screening_site")
    by (eapply has_column_false_neq; eassumption).
  assert (Hrows : Forall (fun p : value * value => exists z, fst p = VNum z) rows).
  { apply List.Forall_forall. intros [x s'] Hin.
    apply (range_join_In _ _ _ _ Hcells) in Hin as (z & r & -> & _). eauto. }
  assert (Hkeys : Forall (fun v => exists z, v = VNum z) (map fst rows)).
  { apply Forall_map. exact Hrows. }
  unfold add_screening_site, getitem. rewrite Hids. simpl rbind.
  rewrite (existsb_number_or_missing is_VDict) by (auto || exact Hcells).
  rewrite (existsb_number_or_missing is_date) by (auto || exact Hcells).
  simpl existsb. rewrite !existsb_map_false by reflexivity.
  rewrite Hname. simpl orb. cbv iota.
  change (get_column (ranges_table rs) "record_id_start")
    with (Some (mkSeries int64 (map (fun r : site_range => VNum (fst (fst r))) rs))).
  change (get_column (ranges_table rs) "record_id_end")
    with (Some (mkSeries int64 (map (fun r : site_range => VNum (snd (fst r))) rs))).
  change (get_column (ranges_table rs) "screening_site")
    with (Some (mkSeries object (map (fun r : site_range => VStr (snd r)) rs))).
  cbv iota. rewrite Hamb. simpl cells. fold rows.
  unfold merge, getitem. simpl get_column. rewrite String.eqb_refl, Hids. simpl rbind.
  assert (Hcompat : keys_compatible (read_back (s_dtype ids) (map fst rows)) ids = true).
  { unfold keys_compatible, read_back.
    destruct (map fst rows) as [|v vs] eqn:Hv; simpl.
    - destruct (cells ids); [congruence|reflexivity].
    - destruct (cells ids) as [|c cs]; [congruence|]. simpl.
      destruct (s_dtype ids) eqn:Hd; try discriminate; simpl; [|reflexivity].
      unfold infer_series.
      assert (Hall : forallb is_VNum (v :: vs) = true).
      { apply forallb_forall. intros x Hx. rewrite List.Forall_forall in Hkeys.
        destruct (Hkeys x Hx) as [z ->]. reflexivity. }
      assert (Hnull : forallb isnull (v :: vs) = false).
      { simpl. inversion Hkeys as [|? ? [z ->] _]. reflexivity. }
      rewrite Hnull, Hall. reflexivity. }
  rewrite Hcompat. simpl negb. cbv iota.
  assert (Hnodict : existsb is_VDict (cells (read_back (s_dtype ids) (map fst rows))) = false).
  { assert (Hvs : existsb is_VDict (map fst rows) = false).
    { apply existsb_false. eapply Forall_impl; [exact Hkeys|]. intros v [z ->]. reflexivity. }
    unfold read_back. destruct (map fst rows) eqn:Hv; [reflexivity|].
    destruct (s_dtype ids); try exact Hvs; unfold infer_series;
      repeat match goal with |- context [if ?b then _ else _] => destruct b end;
      exact Hvs. }
  rewrite Hnodict. rewrite (existsb_number_or_missing is_VDict) by (auto || exact Hcells).
  simpl orb. cbv iota. eexists. split; [reflexivity|].
  assert (Hcells_back : forall d vs, cells (read_back d vs) = vs).
  { intros d vs. unfold read_back. destruct vs; [reflexivity|].
    destruct d; try reflexivity; unfold infer_series;
      repeat match goal with |- context [if ?b then _ else _] => destruct b end;
      reflexivity. }
  rewrite !Hcells_back.
  set (idx := left_join (map fst rows) (cells ids)).
  fold (other_columns df id_col).
  unfold to_records. simpl nrows. rewrite length_take, length_map.
  match goal with
  | |- _ = map ?f idx => rewrite <- (map_seq_nth f idx (0%nat, None))
  end.
  apply map_ext_in. intros j Hj. apply in_seq in Hj.
  unfold record_at. simpl map. rewrite !nth_take.
  assert (Hl : nth j (map (fun p : nat * option nat => Some (fst p)) idx) None
               = Some (fst (nth j idx (0%nat, None)))).
  { rewrite (nth_indep _ None (Some (fst (0%nat, @None nat))))
      by (rewrite length_map; lia).
    apply (map_nth (fun p : nat * option nat => Some (fst p))). }
  rewrite Hl.
  assert (Hx : suffix_if (negb (String.eqb id_col id_col)
                          && has_column (other_columns df id_col) id_col) id_col "_x"
               = id_col).
  { rewrite String.eqb_refl. reflexivity. }
  assert (Hy : suffix_if (negb (String.eqb "screening_site" id_col)
                          && has_column (other_columns df id_col) "screening_site")
                         "screening_site" "_x"
               = "screening_site").
  { rewrite has_column_other_columns by exact Hsite. rewrite andb_false_r. reflexivity. }
  rewrite Hx, Hy. f_equal. f_equal.
  rewrite map_map.
  apply map_ext_in. intros [n c] Hc. simpl fst. simpl snd.
  apply filter_In in Hc as [Hin Hn]. simpl in Hn.
  assert (Hnot : has_column
                   [(id_col, read_back (s_dtype ids) (map fst rows));
                    ("screening_site",
                     read_back object (map snd rows))] n = false).
  { unfold has_column. simpl. rewrite orb_false_r. apply orb_false_iff. split.
    - apply negb_true_iff in Hn. exact Hn.
    - destruct (String.eqb_spec n "screening_site") as [->|]; [|reflexivity].
      exfalso. clear -Hin Hsite. unfold has_column, columns in Hsite.
      induction df as [|[m s] df IH]; simpl in *; [contradiction|].
      apply orb_false_iff in Hsite as [Hm Hrest].
      destruct Hin as [[= -> ->]|Hin]; [rewrite String.eqb_refl in Hm; discriminate|auto]. }
  rewrite Hnot. unfold suffix_if. f_equal. simpl cells.
  rewrite nth_take.
  rewrite (nth_indep _ None (snd (0%nat, @None nat))) by (rewrite length_map; lia).
  rewrite (map_nth snd). reflexivity.
Qed.


(** C5.  With disjoint closed ranges, [add_screening_site] returns a table
    in which every subject whose id lies in a range has a row made of its
    id, the site of that range and its other cells, in which every row with
    that id carries that site, and in which no row carries an id that lies
    in no range (such a subject is dropped). *)
Theorem add_screening_site_attaches (rs : list site_range) (df : DataFrame)
    (id_col : string) (ids : Series) :
  disjoint_ranges rs ->
  get_column df id_col = Some ids ->
  is_number_dtype (s_dtype ids) = true ->
  Forall number_or_missing (cells ids) ->
  cells ids <> [] ->
  has_column df "screening_site" = false ->
  has_column (ranges_table rs) id_col = false ->
  unquoted_name_ok id_col = true ->
  exists out,
    add_screening_site (ranges_table rs) df id_col = Ok out
    /\ (forall k z r,
          nth_error (cells ids) k = Some (VNum z) -> In r rs -> in_range z r ->
          In ((id_col, VNum z) :: ("screening_site", VStr (snd r))
              :: record_at (other_columns df id_col) k)
             (to_records out)
          /\ forall row,
               In row (to_records out) -> assoc id_col row = Some (VNum z) ->
               assoc "screening_site" row = Some (VStr (snd r)))
    /\ (forall z,
          (forall r, In r rs -> ~ in_range z r) ->
          forall row, In row (to_records out) -> assoc id_col row <> Some (VNum z)).
Proof.
  intros Hdisj Hids Hnum Hcells Hne Hsite Hamb Hname.
  destruct (add_screening_site_records rs df id_col ids) as (out & Hout & Hrec);
    try assumption.
  cbv zeta in Hrec.
  set (rows := range_join (cells ids)
                 (zip3 (map (fun r => VNum (fst (fst r))) rs)
                       (map (fun r => VNum (snd (fst r))) rs)
                       (map (fun r => VStr (snd r)) rs))) in *.
  assert (Hneq : String.eqb "screening_site" id_col = false).
  { apply String.eqb_neq. intros E. symmetry in E. revert E.
    eapply has_column_false_neq; eassumption. }
  (* every row of the result comes from a pair of the range join *)
  assert (Hsound : forall row,
             In row (to_records out) ->
             exists z r, In r rs /\ in_range z r
                         /\ assoc id_col row = Some (VNum z)
                         /\ assoc "screening_site" row = Some (VStr (snd r))).
  { intros row Hrow. rewrite Hrec in Hrow.
    apply in_map_iff in Hrow as ([l o] & <- & Hin).
    apply left_join_from_In in Hin as (i & -> & Hi & _).
    rewrite length_map in Hi. simpl fst.
    destruct (nth i rows (VNaN, VNaN)) as [x s'] eqn:Hnth.
    assert (Hmem : In (x, s') rows) by (rewrite <- Hnth; apply nth_In; exact Hi).
    apply (range_join_In _ _ _ _ Hcells) in Hmem as (z & r & -> & -> & _ & Hr & Hz).
    exists z, r. split; [exact Hr|]. split; [exact Hz|].
    rewrite assoc_head. simpl assoc. rewrite Hneq, ?String.eqb_refl.
    change VNaN with (fst (VNaN, VNaN)) at 1. rewrite map_nth, Hnth.
    change VNaN with (snd (VNaN, VNaN)). rewrite map_nth, Hnth.
    split; reflexivity. }
  exists out. split; [exact Hout|]. split.
  - intros k z r Hk Hr Hz. split.
    + assert (Hmem : In (VNum z, VStr (snd r)) rows).
      { apply (range_join_In _ _ _ _ Hcells). exists z, r.
        repeat split; try assumption; try apply Hz.
        eapply nth_error_In, Hk. }
      apply (In_nth _ _ (VNaN, VNaN)) in Hmem as (l & Hl & Hnth).
      rewrite Hrec. apply in_map_iff. exists (l, Some k). split.
      * simpl fst. simpl snd.
        change VNaN with (fst (VNaN, VNaN)) at 1. rewrite map_nth, Hnth.
        change VNaN with (snd (VNaN, VNaN)) at 1. rewrite map_nth, Hnth.
        reflexivity.
      * apply (left_join_from_Some _ _ 0%nat l k); [rewrite length_map; exact Hl|].
        apply matches_from_In. exists k. split; [reflexivity|].
        split; [apply nth_error_Some; congruence|].
        change VNaN with (fst (VNaN, VNaN)) at 1. rewrite map_nth, Hnth. simpl fst.
        rewrite (nth_error_nth _ _ VNaN Hk). apply key_eqb_num.
    + intros row Hrow Hid.
      destruct (Hsound row Hrow) as (z' & r' & Hr' & Hz' & Hid' & Hsite').
      rewrite Hid in Hid'. injection Hid' as <-.
      rewrite (Hdisj r r' z Hr Hr' Hz Hz'). exact Hsite'.
  - intros z Hnone row Hrow Hid.
    destruct (Hsound row Hrow) as (z' & r' & Hr' & Hz' & Hid' & _).
    rewrite Hid in Hid'. injection Hid' as <-. exact (Hnone r' Hr' Hz').
Qed.

End ScreeningSite.

(** C5, witness: with the ranges [1,10] -> "A" and [11,20] -> "B", the
    subject 5 is joined to "A", the subject 15 to "B", and the subject 25 is
    in no row. *)
Lemma add_screening_site_example :
  exists out,
    add_screening_site (ranges_table two_ranges) three_subjects "record_id" = Ok out
    /\ In [("record_id", VNum 5); ("screening_site", VStr "A");
           ("main_record_id", VStr "a5")] (to_records out)
    /\ In [("record_id", VNum 15); ("screening_site", VStr "B");
           ("main_record_id", VStr "a15")] (to_records out)
    /\ forall row, In row (to_records out) -> assoc "record_id" row <> Some (VNum 25).
Proof.
  destruct (add_screening_site_attaches two_ranges three_subjects "record_id"
              (mkSeries int64 [VNum 5; VNum 15; VNum 25]))
    as (out & Hout & Hin & Hnone); try reflexivity; try discriminate.
  - intros r1 r2 z [<-|[<-|[]]] [<-|[<-|[]]]; unfold in_range; simpl; intros; try reflexivity; lia.
  - repeat (match goal with |- Forall _ _ => constructor end); right; eexists; reflexivity.
  - exists out. split; [exact Hout|]. split; [|split].
    + apply (Hin 0%nat 5 (1, 10, "A")); [reflexivity|left; reflexivity|].
      unfold in_range. simpl. lia.
    + apply (Hin 1%nat 15 (11, 20, "B")); [reflexivity|right; left; reflexivity|].
      unfold in_range. simpl. lia.
    + apply Hnone. intros r [<-|[<-|[]]]; unfold in_range; simpl; lia.
Defined.

(* ------------------------------------------------------------------------- *)
(** ** The adverse-events extractor *)
(* ------------------------------------------------------------------------- *)

Lemma get_column_filter (p : string -> bool) (df : DataFrame) (c : string) :
  p c = true -> get_column (List.filter (fun q => p (fst q)) df) c = get_column df c.
Proof.
  intros Hc. induction df as [|[n s] df IH]; simpl; [reflexivity|].
  destruct (String.eqb_spec c n) as [->|Hn].
  - rewrite Hc. simpl. rewrite String.eqb_refl. reflexivity.
  - destruct (p n); simpl; [|exact IH].
    destruct (String.eqb_spec c n); [contradiction|exact IH].
Qed.

Lemma zip4_all_null (a b c d : list value) :
  Forall (fun v => isnull v = true) d ->
  List.filter (fun r => negb (isnull (snd r))) (zip4 a b c d) = [].
Proof.
  intros Hd. revert a b c. induction Hd as [|v d Hv _ IH]; intros [|x a] [|y b] [|z c];
    simpl; try reflexivity.
  rewrite Hv. simpl. apply IH.
Qed.

(** C6, the case that fails.  On every raw subjects table in which no
    subject has adverse effects (each cell of the adverse-effects column is
    missing), [extract_adverse_effects_data] raises [KeyError] (the table
    built from no entry has no ['level_0'] column) instead of returning a
    table without rows. *)
Theorem extract_adverse_effects_none (subjects_data : DataFrame) (adverse_effects_col : string)
    (c0 c1 c2 ae : Series) :
  get_column subjects_data "index" = Some c0 ->
  get_column subjects_data "main_record_id" = Some c1 ->
  get_column subjects_data "mcc" = Some c2 ->
  existsb (String.eqb adverse_effects_col) ["index"; "main_record_id"; "mcc"] = false ->
  get_column subjects_data adverse_effects_col = Some ae ->
  Forall (fun v => isnull v = true) (cells ae) ->
  extract_adverse_effects_data subjects_data adverse_effects_col = Raise KeyError.
Proof.
  intros H0 H1 H2 Hcol Hae Hnull. unfold extract_adverse_effects_data, getitem.
  rewrite H0, H1, H2. simpl rbind.
  rewrite (get_column_filter
             (fun n => negb (existsb (String.eqb n) ["index"; "main_record_id"; "mcc"])))
    by (rewrite Hcol; reflexivity).
  rewrite Hae. simpl rbind. rewrite zip4_all_null by exact Hnull. reflexivity.
Qed.

(** C6, witness: two subjects, none with adverse effects. *)
Lemma extract_adverse_effects_none_example :
  extract_adverse_effects_data subjects_without_events "adverse_effects" = Raise KeyError.
Proof.
  apply (extract_adverse_effects_none subjects_without_events "adverse_effects"
           (mkSeries object [VStr "5"; VStr "15"])
           (mkSeries object [VStr "a5"; VStr "a15"])
           (mkSeries object [VStr "1"; VStr "1"])
           (mkSeries object [VNaN; VNaN])); try reflexivity.
  repeat (match goal with |- Forall _ _ => constructor end); reflexivity.
Defined.

(** On the trial, the subject with two instances of three fields each
    yields two rows of the four identifying columns and the three fields;
    the subjects without adverse effects yield none, and the field made of
    white space is missing in the result. *)
Lemma extract_adverse_effects_trial :
  exists out,
    extract_adverse_effects_data trial_subjects_raw "adverse_effects" = Ok out
    /\ columns out
       = ["index"; "main_record_id"; "mcc"; "instance";
          "erep_ae_severity"; "erep_ae_desc"; "erep_action"]
    /\ to_records out
       = [[("index", VStr "5"); ("main_record_id", VStr "a5"); ("mcc", VStr "1");
           ("instance", VStr "0"); ("erep_ae_severity", VStr "2");
           ("erep_ae_desc", VStr "nausea"); ("erep_action", VNaN)];
          [("index", VStr "5"); ("main_record_id", VStr "a5"); ("mcc", VStr "1");
           ("instance", VStr "1"); ("erep_ae_severity", VStr "2");
           ("erep_ae_desc", VStr "rash"); ("erep_action", VStr "none")]].
Proof. eexists. split; [vm_compute; reflexivity|]. split; reflexivity. Qed.

(* ------------------------------------------------------------------------- *)
(** ** Two runs of the subjects-cleaning pipeline *)
(* ------------------------------------------------------------------------- *)

Lemma set_column_twice (d : DataFrame) (c : string) (s s' : Series) :
  set_column (set_column d c s) c s' = set_column d c s'.
Proof.
  induction d as [|[n x] d IH]; simpl.
  - rewrite String.eqb_refl. reflexivity.
  - destruct (String.eqb c n) eqn:E; simpl; rewrite E; [reflexivity|].
    rewrite IH. reflexivity.
Qed.

Section TwoRuns.
Context `{Pandas}.

Lemma cell_to_float_again (v w : value) :
  cell_to_float v = Ok w -> cell_to_float w = Ok w.
Proof.
  destruct v; simpl; try discriminate; try (intros [= <-]; reflexivity).
  destruct (str_to_float s); [intros [= <-]; reflexivity|discriminate].
Qed.

Lemma mapM_cell_to_float_again (vs ws : list value) :
  mapM cell_to_float vs = Ok ws -> mapM cell_to_float ws = Ok ws.
Proof.
  revert ws. induction vs as [|v vs IH]; simpl; intros ws.
  - intros [= <-]. reflexivity.
  - destruct (cell_to_float v) as [w|] eqn:Hv; [|discriminate]. simpl.
    destruct (mapM cell_to_float vs) as [ws'|]; [|discriminate]. simpl.
    intros [= <-]. simpl. rewrite (cell_to_float_again _ _ Hv). simpl.
    rewrite (IH ws' eq_refl). reflexivity.
Qed.

(** A column cast to [float64] is left as it is by a second cast. *)
Lemma astype_float64_again (s s' : Series) :
  astype_float64 s = Ok s' -> astype_float64 s' = Ok s'.
Proof.
  unfold astype_float64.
  destruct (mapM cell_to_float (cells s)) as [vs|] eqn:Hvs.
  - destruct (s_dtype s); simpl; try discriminate; intros [= <-]; simpl;
      rewrite (mapM_cell_to_float_again _ _ Hvs); reflexivity.
  - destruct (s_dtype s); simpl; discriminate.
Qed.

(** The body of the loop, run again on a heap that holds the lookup table
    as the first run left it, gives the same table and leaves the lookup
    table as it is. *)
Lemma merge_display_term_again (i : string) (l : nat) (sd : DataFrame)
    (h h1 : list DataFrame) (r : result DataFrame) :
  merge_display_term i l sd h = (r, h1) ->
  forall h2,
    h2 !! l = h1 !! l ->
    exists h2',
      merge_display_term i l sd h2 = (r, h2')
      /\ h2' !! l = h1 !! l
      /\ forall l', l' <> l -> h2' !! l' = h2 !! l'.
Proof.
  unfold merge_display_term, mbind, lift. intros Hrun h2 Hl.
  destruct (getitem sd i) as [column|e].
  2:{ injection Hrun as <- <-. exists h2. repeat split; auto; congruence. }
  destruct (dtype_eqb (s_dtype column) float64).
  - unfold load in Hrun at 1.
    destruct (h !! l) as [t|] eqn:Ht.
    2:{ injection Hrun as <- <-. rewrite Ht in Hl.
        unfold load. rewrite Hl. exists h2. repeat split; auto; congruence. }
    destruct (getitem t i) as [key|e] eqn:Hkey.
    2:{ injection Hrun as <- <-. rewrite Ht in Hl.
        unfold load. rewrite Hl, Hkey. exists h2. repeat split; auto; congruence. }
    destruct (astype_float64 key) as [key'|e] eqn:Hcast.
    2:{ injection Hrun as <- <-. rewrite Ht in Hl.
        unfold load. rewrite Hl, Hkey, Hcast. exists h2. repeat split; auto; congruence. }
    unfold store in Hrun.
    assert (Ht' : (<[l := set_column t i key']> h) !! l = Some (set_column t i key'))
      by (eapply lookup_store, Ht).
    unfold load in Hrun. rewrite Ht' in Hrun.
    assert (Hh1 : h1 !! l = Some (set_column t i key')).
    { destruct (merge sd (set_column t i key') i); injection Hrun as <- <-; exact Ht'. }
    rewrite Hh1 in Hl. unfold load at 1. rewrite Hl.
    unfold getitem at 1. rewrite get_column_set_column, String.eqb_refl.
    rewrite (astype_float64_again _ _ Hcast). unfold store.
    rewrite set_column_twice.
    assert (Hid : <[l := set_column t i key']> h2 = h2) by (apply list_insert_id, Hl).
    rewrite Hid. unfold load. rewrite Hl.
    exists h2. split; [|split; [rewrite Hh1; exact Hl|reflexivity]].
    destruct (merge sd (set_column t i key') i); injection Hrun as <- _; reflexivity.
  - unfold mret in Hrun. unfold load in Hrun.
    destruct (h !! l) as [t|] eqn:Ht.
    + assert (Hh1 : h1 !! l = Some t).
      { destruct (merge sd t i); injection Hrun as <- <-; exact Ht. }
      rewrite Hh1 in Hl. unfold mret, load. rewrite Hl.
      exists h2. split; [|split; [rewrite Hh1; exact Hl|reflexivity]].
      destruct (merge sd t i); injection Hrun as <- _; reflexivity.
    + injection Hrun as <- <-. rewrite Ht in Hl. unfold mret, load. rewrite Hl. exists h2. repeat split; auto; congruence.
Qed.

(** The loop, run again on a heap that holds the lookup tables as the first
    run left them, gives the same table. *)
Lemma merge_display_terms_again (d : list (string * nat)) :
  NoDup (map snd d) ->
  forall (sd : DataFrame) (h h' : list DataFrame) (r : result DataFrame),
    merge_display_terms d sd h = (r, h') ->
    forall h2,
      (forall l, In l (map snd d) -> h2 !! l = h' !! l) ->
      fst (merge_display_terms d sd h2) = r.
Proof.
  induction d as [|[i l] d IH]; intros Hnd sd h h' r Hrun h2 Hsame; simpl in *.
  - injection Hrun as <- _. reflexivity.
  - apply NoDup_cons in Hnd as [Hl Hnd].
    destruct (has_column sd i).
    2:{ eapply IH; [exact Hnd|exact Hrun|]. intros l' Hl'. apply Hsame. right. exact Hl'. }
    unfold mbind in Hrun.
    destruct (merge_display_term i l sd h) as [[sd'|e] h1] eqn:Hstep.
    + assert (Hfix : h' !! l = h1 !! l).
      { assert (Hp : Forall (fun p : string * nat => ~ (fun x => x = l) (snd p)) d).
        { apply List.Forall_forall. intros p Hp Heq. apply Hl. simpl in Heq.
          rewrite <- Heq. apply list_elem_of_In. apply in_map. exact Hp. }
        destruct (merge_display_terms_preserves (fun x => x = l) d Hp _ _ _ _ Hrun)
          as [_ Hs]. apply Hs. reflexivity. }
      destruct (merge_display_term_again _ _ _ _ _ _ Hstep h2) as (h2' & Hstep2 & _ & Hothers).
      { rewrite <- Hfix. apply Hsame. left. reflexivity. }
      unfold mbind. rewrite Hstep2.
      eapply IH; [exact Hnd|exact Hrun|].
      intros l' Hl'. rewrite Hothers.
      * apply Hsame. right. exact Hl'.
      * intros ->. apply Hl. apply list_elem_of_In. exact Hl'.
    + injection Hrun as <- <-.
      destruct (merge_display_term_again _ _ _ _ _ _ Hstep h2) as (h2' & Hstep2 & _).
      { apply Hsame. left. reflexivity. }
      unfold mbind. rewrite Hstep2. reflexivity.
Qed.


Lemma clean_subjects_data_cleaned (subjects_raw : nat) (d : list (string * nat))
    (drop_cols_list : list string) (h : list DataFrame) :
  clean_subjects_data subjects_raw d drop_cols_list h
  = match cleaned_subjects subjects_raw d drop_cols_list h with
    | (Ok out, h') => (Ok (length h'), h' ++ [out])
    | (Raise e, h') => (Raise e, h')
    end.
Proof.
  unfold clean_subjects_data, cleaned_subjects, coerced_subjects, mbind, lift, alloc.
  destruct (load subjects_raw h) as [[raw|e] h0]; [|reflexivity].
  destruct (prepare_subjects raw drop_cols_list) as [t|e]; [|reflexivity]. simpl.
  destruct (recode_dem_race t) as [t'|e]; [|reflexivity]. simpl.
  destruct (merge_display_terms d _ h0) as [[out|e] h']; reflexivity.
Qed.

Lemma cleaned_subjects_preserves (P : nat -> Prop) (subjects_raw : nat)
    (d : list (string * nat)) (drop_cols_list : list string) :
  Forall (fun p => ~ P (snd p)) d ->
  preserves P (cleaned_subjects subjects_raw d drop_cols_list).
Proof.
  intros Hd. unfold cleaned_subjects.
  apply preserves_bind; [apply preserves_load|]. intros raw.
  apply preserves_bind; [apply preserves_lift|]. intros sd.
  apply merge_display_terms_preserves. exact Hd.
Qed.

(** The cleaned table of a second run, on a heap that holds the raw table
    and the lookup tables as the first run left them, is that of the first
    run. *)
Lemma cleaned_subjects_again (subjects_raw : nat) (d : list (string * nat))
    (drop_cols_list : list string) (h h' : list DataFrame) (r : result DataFrame) :
  NoDup (map snd d) -> ~ In subjects_raw (map snd d) ->
  cleaned_subjects subjects_raw d drop_cols_list h = (r, h') ->
  forall h2,
    h2 !! subjects_raw = h' !! subjects_raw ->
    (forall l, In l (map snd d) -> h2 !! l = h' !! l) ->
    fst (cleaned_subjects subjects_raw d drop_cols_list h2) = r.
Proof.
  intros Hnd Hraw Hrun h2 Hraw2 Hsame.
  assert (Hp : Forall (fun p : string * nat => ~ (fun x => x = subjects_raw) (snd p)) d).
  { apply List.Forall_forall. intros p Hp Heq. apply Hraw. simpl in Heq.
    rewrite <- Heq. apply in_map. exact Hp. }
  destruct (cleaned_subjects_preserves _ subjects_raw d drop_cols_list Hp _ _ _ Hrun)
    as [_ Hkeep].
  rewrite (Hkeep subjects_raw eq_refl) in Hraw2.
  unfold cleaned_subjects, mbind, load, lift in *. rewrite Hraw2.
  destruct (h !! subjects_raw) as [raw|]; [|injection Hrun as <- _; reflexivity].
  destruct (coerced_subjects raw drop_cols_list) as [sd|e];
    [|injection Hrun as <- _; reflexivity].
  eapply merge_display_terms_again; eassumption.
Qed.

Lemma subjects_pipeline_cleaned `{Sqlite} (subjects_raw screening_sites : nat)
    (d : list (string * nat)) (h : list DataFrame) :
  subjects_pipeline subjects_raw screening_sites d h
  = match cleaned_subjects subjects_raw d ["adverse_effects"] h with
    | (Ok out, h') =>
        match (h' ++ [out]) !! screening_sites with
        | Some sites =>
            (let* subjects := add_screening_site sites out "record_id" in
             let* consented := get_consented_subjects subjects in
             Ok (subjects, consented), h' ++ [out])
        | None => (Raise ReferenceError, h' ++ [out])
        end
    | (Raise e, h') => (Raise e, h')
    end.
Proof.
  unfold subjects_pipeline. unfold mbind at 1.
  rewrite clean_subjects_data_cleaned.
  destruct (cleaned_subjects subjects_raw d ["adverse_effects"] h)
    as [[out|e] h']; [|reflexivity].
  unfold mbind, load, lift, mret. rewrite lookup_app_r by lia.
  rewrite Nat.sub_diag. simpl.
  destruct ((h' ++ [out]) !! screening_sites) as [ss|]; [|reflexivity].
  destruct (add_screening_site ss out "record_id") as [s|]; [|reflexivity].
  simpl. destruct (get_consented_subjects s); reflexivity.
Qed.

(** C9.  The subjects-cleaning pipeline, run a second time on the same raw
    table, screening-site ranges and display dictionary, from the heap as the
    first run left it, returns the same two tables (or raises the same
    exception) as the first run: the lookup tables that the first run cast in
    place do not change what the second run computes. *)
Theorem subjects_pipeline_twice `{Sqlite} (subjects_raw screening_sites : nat)
    (d : list (string * nat)) (h : list DataFrame) :
  NoDup (map snd d) ->
  ~ In subjects_raw (map snd d) ->
  ~ In screening_sites (map snd d) ->
  is_Some (h !! subjects_raw) ->
  is_Some (h !! screening_sites) ->
  Forall (fun p => is_Some (h !! snd p)) d ->
  fst (subjects_pipeline subjects_raw screening_sites d
         (snd (subjects_pipeline subjects_raw screening_sites d h)))
  = fst (subjects_pipeline subjects_raw screening_sites d h).
Proof.
  intros Hnd Hraw Hsites [raw Hrawv] [ss Hssv] Halloc.
  assert (Hlt : forall l, In l (map snd d) -> (l < length h)%nat).
  { intros l Hl. apply in_map_iff in Hl as (p & <- & Hp).
    rewrite List.Forall_forall in Halloc. destruct (Halloc p Hp) as [t Ht].
    eapply lookup_lt_Some, Ht. }
  assert (Hp : Forall (fun p : string * nat =>
                         ~ (fun x => ~ In x (map snd d)) (snd p)) d).
  { apply List.Forall_forall. intros p Hp Hn. apply Hn. apply in_map. exact Hp. }
  rewrite (subjects_pipeline_cleaned subjects_raw screening_sites d h).
  destruct (cleaned_subjects subjects_raw d ["adverse_effects"] h)
    as [[out|e] h'] eqn:Hrun;
    destruct (cleaned_subjects_preserves _ subjects_raw d ["adverse_effects"] Hp _ _ _ Hrun)
      as [Hlen Hkeep].
  - assert (Hss' : (h' ++ [out]) !! screening_sites = Some ss).
    { rewrite lookup_app_l by (rewrite Hlen; eapply lookup_lt_Some, Hssv).
      rewrite Hkeep by exact Hsites. exact Hssv. }
    rewrite Hss'. simpl snd. simpl fst.
    rewrite subjects_pipeline_cleaned.
    assert (Hagain : fst (cleaned_subjects subjects_raw d ["adverse_effects"] (h' ++ [out]))
                     = Ok out).
    { eapply cleaned_subjects_again; [exact Hnd|exact Hraw|exact Hrun| |].
      - apply lookup_app_l. rewrite Hlen. eapply lookup_lt_Some, Hrawv.
      - intros l Hl. apply lookup_app_l. rewrite Hlen. apply Hlt, Hl. }
    destruct (cleaned_subjects subjects_raw d ["adverse_effects"] (h' ++ [out]))
      as [r2 h2] eqn:Hrun2.
    simpl in Hagain. subst r2.
    destruct (cleaned_subjects_preserves _ subjects_raw d ["adverse_effects"] Hp _ _ _ Hrun2)
      as [Hlen2 Hkeep2].
    assert (Hss2 : (h2 ++ [out]) !! screening_sites = Some ss).
    { rewrite lookup_app_l.
      - rewrite Hkeep2 by exact Hsites. exact Hss'.
      - rewrite Hlen2, length_app, Hlen. apply lookup_lt_Some in Hssv. lia. }
    rewrite Hss2. reflexivity.
  - simpl snd. simpl fst. rewrite subjects_pipeline_cleaned.
    assert (Hagain : fst (cleaned_subjects subjects_raw d ["adverse_effects"] h') = Raise e).
    { eapply cleaned_subjects_again; [exact Hnd|exact Hraw|exact Hrun| |]; auto. }
    destruct (cleaned_subjects subjects_raw d ["adverse_effects"] h') as [r2 h2].
    simpl in Hagain. subst r2. reflexivity.
Qed.

End TwoRuns.

(** C9, witness: the trial.  The first run casts the lookup table of
    [sp_data_site] in place, and the second run returns the same tables. *)
Lemma subjects_pipeline_twice_trial :
  let first := subjects_pipeline 0%nat 1%nat trial_dict trial_heap in
  snd first !! 2%nat <> trial_heap !! 2%nat
  /\ (exists subjects consented, fst first = Ok (subjects, consented))
  /\ fst (subjects_pipeline 0%nat 1%nat trial_dict (snd first)) = fst first.
Proof.
  split; [vm_compute; discriminate|].
  split; [vm_compute; eexists _, _; reflexivity|].
  apply (subjects_pipeline_twice 0%nat 1%nat trial_dict trial_heap).
  - apply (bool_decide_unpack _). vm_compute. exact I.
  - vm_compute. intuition discriminate.
  - vm_compute. intuition discriminate.
  - vm_compute. eexists. reflexivity.
  - vm_compute. eexists. reflexivity.
  - repeat (match goal with |- Forall _ _ => constructor end);
      vm_compute; eexists; reflexivity.
Defined.

(* ------------------------------------------------------------------------- *)
(** ** The race column *)
(* ------------------------------------------------------------------------- *)

Lemma contains_pipe_spec (v : value) :
  contains_pipe v = true <-> holds_delimiter v.
Proof.
  unfold holds_delimiter. destruct v; simpl;
    try (split; [discriminate|intros (s0 & Hs & _); discriminate]).
  unfold has_pipe. rewrite existsb_exists. split.
  - intros (c & Hc & Heq). apply Ascii.eqb_eq in Heq. subst c.
    eexists. split; [reflexivity|exact Hc].
  - intros (s0 & [= <-] & Hin). exists "|"%char. split; [exact Hin|reflexivity].
Qed.


(* ------------------------------------------------------------------------- *)
(** ** The round trip through the display dictionary *)
(* ------------------------------------------------------------------------- *)

Lemma string_length_append (a b : string) :
  String.length (a ++ b) = (String.length a + String.length b)%nat.
Proof. induction a as [|c a IH]; simpl; [reflexivity|]. rewrite IH. reflexivity. Qed.

Lemma append_inj_l (s a b : string) : (a ++ s = b ++ s)%string -> a = b.
Proof.
  revert b. induction a as [|c a IH]; intros [|c' b] Heq.
  - reflexivity.
  - apply (f_equal String.length) in Heq.
    rewrite !string_length_append in Heq. simpl in Heq. lia.
  - apply (f_equal String.length) in Heq.
    rewrite !string_length_append in Heq. simpl in Heq. lia.
  - change (String c (a ++ s) = String c' (b ++ s)) in Heq.
    injection Heq as -> Heq. f_equal. apply IH, Heq.
Qed.

Lemma display_name_neq (G : string) : (G ++ "_display")%string <> G.
Proof.
  intros Heq. apply (f_equal String.length) in Heq.
  rewrite string_length_append in Heq. simpl in Heq. lia.
Qed.

Lemma get_column_In (df : DataFrame) (c : string) (s : Series) :
  get_column df c = Some s -> In (c, s) df.
Proof.
  induction df as [|[n s'] df IH]; simpl; [discriminate|].
  destruct (String.eqb_spec c n) as [->|_].
  - intros [= ->]. left. reflexivity.
  - intros Hc. right. apply IH, Hc.
Qed.

Lemma rectangular_get (n : nat) (df : DataFrame) (c : string) (s : Series) :
  rectangular n df -> get_column df c = Some s -> length (cells s) = n.
Proof.
  intros Hr Hc. apply get_column_In in Hc.
  unfold rectangular in Hr. rewrite List.Forall_forall in Hr. exact (Hr _ Hc).
Qed.

Lemma get_column_take_rows (idx : list nat) (df : DataFrame) (c : string) :
  get_column (take_rows idx df) c
  = option_map (fun s => mkSeries (s_dtype s) (take (map Some idx) (cells s)))
               (get_column df c).
Proof.
  unfold take_rows.
  rewrite (get_column_map (fun n => n)
             (fun p => mkSeries (s_dtype (snd p)) (take (map Some idx) (cells (snd p)))))
    by reflexivity.
  destruct (get_column df c); reflexivity.
Qed.

Lemma has_column_take_rows (idx : list nat) (df : DataFrame) (c : string) :
  has_column (take_rows idx df) c = has_column df c.
Proof.
  rewrite !has_column_get, get_column_take_rows. destruct (get_column df c); reflexivity.
Qed.

Lemma rectangular_take_rows (idx : list nat) (df : DataFrame) :
  rectangular (length idx) (take_rows idx df).
Proof.
  unfold rectangular, take_rows. apply List.Forall_forall. intros p Hp.
  apply in_map_iff in Hp as (q & <- & _). simpl. rewrite length_take, length_map.
  reflexivity.
Qed.

Lemma lookup_take_Some (idx : list nat) (l : list value) (q p : nat) :
  idx !! q = Some p -> take (map Some idx) l !! q = Some (nth p l VNaN).
Proof.
  intros Hq. unfold take. change (map ?f ?x) with (f <$> x).
  rewrite !list_lookup_fmap, Hq. reflexivity.
Qed.

Lemma lookup_take_inv (idx : list (option nat)) (l : list value) (q : nat) (v : value) :
  take idx l !! q = Some v ->
  exists o, idx !! q = Some o
            /\ v = match o with Some n => nth n l VNaN | None => VNaN end.
Proof.
  unfold take. change (map ?f ?x) with (f <$> x). rewrite list_lookup_fmap.
  destruct (idx !! q) as [o|]; [|discriminate]. intros [= <-]. eauto.
Qed.

Lemma nth_lookup_value (l : list value) (i : nat) (v : value) :
  l !! i = Some v -> nth i l VNaN = v.
Proof. intros Hl. apply nth_lookup_Some with (d := VNaN) in Hl. exact Hl. Qed.

Lemma In_lookup {A} (l : list A) (x : A) : In x l -> exists i, l !! i = Some x.
Proof.
  induction l as [|a l IH]; [contradiction|]. intros [->|Hin].
  - exists 0%nat. reflexivity.
  - destruct (IH Hin) as [i Hi]. exists (S i). exact Hi.
Qed.

Lemma lookup_In {A} (l : list A) (i : nat) (x : A) : l !! i = Some x -> In x l.
Proof.
  revert i. induction l as [|a l IH]; intros [|i]; simpl; try discriminate.
  - intros [= ->]. left. reflexivity.
  - intros Hi. right. eapply IH, Hi.
Qed.

Lemma left_join_In (lk rk : list value) (l : nat) (o : option nat) :
  In (l, o) (left_join lk rk) ->
  (l < length lk)%nat
  /\ match o with
     | Some k => (k < length rk)%nat /\ key_eqb (nth l lk VNaN) (nth k rk VNaN) = true
     | None => forall k, (k < length rk)%nat -> key_eqb (nth l lk VNaN) (nth k rk VNaN) = false
     end.
Proof.
  intros Hin. apply left_join_from_In in Hin as (i & -> & Hi & Ho). simpl.
  split; [exact Hi|]. destruct o as [k|].
  - apply matches_from_In in Ho as (i' & -> & Hi' & Hkey). auto.
  - intros k Hk. destruct (key_eqb (nth i lk VNaN) (nth k rk VNaN)) eqn:Hkey; [|reflexivity].
    assert (Hin : In k (matches_from 0 (nth i lk VNaN) rk)).
    { apply matches_from_In. exists k. auto. }
    rewrite Ho in Hin. contradiction.
Qed.

Lemma left_join_from_covers (lk rk : list value) :
  forall n i, (i < length lk)%nat -> exists o, In ((n + i)%nat, o) (left_join_from n lk rk).
Proof.
  induction lk as [|k lk IH]; intros n i Hi; simpl in *; [lia|].
  destruct i as [|i].
  - rewrite Nat.add_0_r. destruct (matches_from 0 k rk) as [|j js].
    + exists None. left. reflexivity.
    + exists (Some j). left. reflexivity.
  - destruct (IH (S n) i ltac:(lia)) as [o Ho]. exists o.
    apply in_or_app. right. replace (n + S i)%nat with (S n + i)%nat by lia. exact Ho.
Qed.

Lemma take_take (prov1 prov2 : list nat) (l : list value) :
  Forall (fun q => (q < length prov1)%nat) prov2 ->
  take (map Some prov2) (take (map Some prov1) l)
  = take (map Some (map (fun q => nth q prov1 0%nat) prov2)) l.
Proof.
  intros Hin. unfold take at 1 3. rewrite !map_map. apply map_ext_in.
  intros q Hq. rewrite List.Forall_forall in Hin. specialize (Hin q Hq).
  rewrite nth_take.
  rewrite (nth_indep _ None (Some 0%nat)) by (rewrite length_map; exact Hin).
  rewrite (map_nth Some prov1 0%nat q). reflexivity.
Qed.

Lemma key_eqb_trans_l (a b c : value) :
  key_eqb a b = true -> key_eqb a c = true -> key_eqb b c = true.
Proof.
  unfold key_eqb.
  destruct (unbool a), (unbool b); try discriminate;
    destruct (unbool c); try discriminate; try reflexivity;
    rewrite ?Z.eqb_eq, ?String.eqb_eq; congruence.
Qed.

Lemma lookup_take_map (idx : list nat) (l : list value) (q : nat) (v : value) :
  take (map Some idx) l !! q = Some v ->
  exists p, idx !! q = Some p /\ v = nth p l VNaN.
Proof.
  intros Hq. apply lookup_take_inv in Hq as (o & Ho & ->).
  change (map Some idx) with (Some <$> idx) in Ho. rewrite list_lookup_fmap in Ho.
  destruct (idx !! q) as [p|]; [|discriminate]. injection Ho as <-. eauto.
Qed.

Lemma lookup_nth_value (l : list value) (i : nat) :
  (i < length l)%nat -> l !! i = Some (nth i l VNaN).
Proof.
  intros Hi. destruct (nth_lookup_or_length l i VNaN) as [Hl|Hl]; [exact Hl|lia].
Qed.

Lemma has_column_app (a b : DataFrame) (c : string) :
  has_column (a ++ b) c = has_column a c || has_column b c.
Proof. unfold has_column, columns. rewrite map_app, existsb_app. reflexivity. Qed.

Section RoundTrip.
Context `{Pandas}.

(** The merge of a table with the lookup table of a field whose display
    name is not yet a column: the rows follow the left positions, and the
    display column comes last. *)
Lemma merge_lookup (sd out : DataFrame) (G : string) (jk texts col : Series) :
  get_column sd G = Some col ->
  has_column sd (G ++ "_display") = false ->
  merge sd [(G, jk); ((G ++ "_display")%string, texts)] G = Ok out ->
  let idx := left_join (cells col) (cells jk) in
  out = take_rows (map fst idx) sd
        ++ [((G ++ "_display")%string,
             mkSeries (if existsb no_match (map snd idx)
                       then upcast_missing (s_dtype texts) else s_dtype texts)
                      (take (map snd idx) (cells texts)))].
Proof.
  intros Hcol Hnew. unfold merge, getitem. rewrite Hcol. simpl.
  rewrite String.eqb_refl. simpl.
  destruct (keys_compatible col jk); [|discriminate]. simpl.
  destruct (existsb is_VDict (cells col) || existsb is_VDict (cells jk));
    [discriminate|].
  assert (Hne : String.eqb (G ++ "_display") G = false).
  { apply String.eqb_neq, display_name_neq. }
  rewrite ?String.eqb_refl, Hne. simpl. rewrite Hnew. simpl.
  intros [= <-]. f_equal.
  unfold take_rows. apply map_ext_in. intros [n s] Hin. simpl.
  rewrite map_map.
  assert (Hn : String.eqb n (G ++ "_display") = false).
  { apply String.eqb_neq. intros ->.
    rewrite has_column_get in Hnew.
    assert (Hsome : exists s', get_column sd (G ++ "_display") = Some s').
    { clear - Hin. induction sd as [|[n' s'] sd IH]; [contradiction|]. simpl.
      destruct (String.eqb_spec (G ++ "_display") n') as [|Hn']; [eauto|].
      destruct Hin as [Hin|Hin]; [|apply IH, Hin].
      injection Hin as Hin _. symmetry in Hin. contradiction. }
    destruct Hsome as [s' Hs']. rewrite Hs' in Hnew. discriminate. }
  unfold has_column, columns. simpl. rewrite Hn. rewrite andb_false_r. reflexivity.
Qed.


Lemma mapM_lookup {A B} (f : A -> result B) (l : list A) (l' : list B) :
  mapM f l = Ok l' ->
  forall j b, l' !! j = Some b <-> exists a, l !! j = Some a /\ f a = Ok b.
Proof.
  revert l'. induction l as [|a l IH]; intros l'; simpl.
  - intros [= <-] j b. split; [discriminate|]. intros (a & Ha & _). discriminate.
  - destruct (f a) as [b0|] eqn:Hfa; [|discriminate]. simpl.
    destruct (mapM f l) as [bs|]; [|discriminate]. simpl.
    intros [= <-] j b. destruct j as [|j]; simpl.
    + split.
      * intros [= <-]. eauto.
      * intros (a' & [= <-] & Hb). congruence.
    + apply IH. reflexivity.
Qed.

(** The keys that the join compares, cell by cell. *)
Lemma joined_keys_lookup (column : dtype) (keys jk : Series) :
  (if dtype_eqb column float64 then astype_float64 keys = Ok jk else jk = keys) ->
  forall j k', cells jk !! j = Some k'
               <-> exists k, cells keys !! j = Some k /\ join_key column k = Ok k'.
Proof.
  unfold join_key. destruct (dtype_eqb column float64).
  - unfold astype_float64. intros Hcast.
    destruct (mapM cell_to_float (cells keys)) as [vs|] eqn:Hvs.
    + assert (Hjk : cells jk = vs).
      { destruct (s_dtype keys); simpl in Hcast; try discriminate;
          injection Hcast as <-; reflexivity. }
      rewrite Hjk. apply mapM_lookup, Hvs.
    + destruct (s_dtype keys); discriminate.
  - intros -> j k'. split; [eauto|]. intros (k & Hk & [= <-]). exact Hk.
Qed.

(** One step of the loop, for a field whose lookup table has the two
    columns and whose display name is new. *)
Lemma merge_display_term_lookup (G : string) (l : nat) (sd out : DataFrame)
    (h h' : list DataFrame) (col keys texts : Series) :
  get_column sd G = Some col ->
  has_column sd (G ++ "_display") = false ->
  h !! l = Some (lookup_table G keys texts) ->
  merge_display_term G l sd h = (Ok out, h') ->
  exists jk,
    (if dtype_eqb (s_dtype col) float64 then astype_float64 keys = Ok jk else jk = keys)
    /\ h' !! l = Some (lookup_table G jk texts)
    /\ (forall l', l' <> l -> h' !! l' = h !! l')
    /\ let idx := left_join (cells col) (cells jk) in
       out = take_rows (map fst idx) sd
             ++ [((G ++ "_display")%string,
                  mkSeries (if existsb no_match (map snd idx)
                            then upcast_missing (s_dtype texts) else s_dtype texts)
                           (take (map snd idx) (cells texts)))].
Proof.
  intros Hcol Hnew Hl. unfold merge_display_term, mbind, lift, load, store, mret, getitem.
  rewrite Hcol. destruct (dtype_eqb (s_dtype col) float64).
  - rewrite Hl. unfold lookup_table at 1 2. simpl get_column. rewrite String.eqb_refl.
    destruct (astype_float64 keys) as [jk|] eqn:Hjk; [|discriminate].
    simpl set_column. rewrite String.eqb_refl.
    fold (lookup_table G jk texts).
    rewrite list_lookup_insert_eq by (eapply lookup_lt_Some, Hl).
    destruct (merge sd _ G) as [m|] eqn:Hm; [|discriminate].
    intros [= <- <-]. exists jk. split; [reflexivity|].
    split; [apply list_lookup_insert_eq; eapply lookup_lt_Some, Hl|].
    split; [intros l' Hl'; apply list_lookup_insert_ne; congruence|].
    eapply merge_lookup; eassumption.
  - rewrite Hl. unfold lookup_table at 1. destruct (merge sd _ G) as [m|] eqn:Hm; [|discriminate].
    intros [= <- <-]. exists keys. split; [reflexivity|]. split; [exact Hl|].
    split; [reflexivity|]. eapply merge_lookup; eassumption.
Qed.


Lemma merge_display_term_tables (D : list (string * nat)) (G : string) (l : nat)
    (sd : DataFrame) (h h' : list DataFrame) (r : result DataFrame) :
  lookup_tables D h -> In (G, l) D ->
  merge_display_term G l sd h = (r, h') -> lookup_tables D h'.
Proof.
  intros HD Hin. destruct (HD G l Hin) as (keys & texts & Hl).
  unfold merge_display_term, mbind, lift, load, store, mret, getitem.
  destruct (get_column sd G) as [col|]; [|intros [= <- <-]; exact HD].
  destruct (dtype_eqb (s_dtype col) float64).
  - rewrite Hl. unfold lookup_table at 1 2. simpl get_column. rewrite String.eqb_refl.
    destruct (astype_float64 keys) as [jk|]; [|intros [= <- <-]; exact HD].
    simpl set_column. rewrite String.eqb_refl. fold (lookup_table G jk texts).
    rewrite list_lookup_insert_eq by (eapply lookup_lt_Some, Hl).
    intros [= <- <-]. intros G' l' Hin'.
    destruct (Nat.eq_dec l' l) as [->|Hne].
    + destruct (HD G' l Hin') as (keys' & texts' & Hl').
      rewrite Hl in Hl'. injection Hl' as <- _ _.
      exists jk, texts. apply list_lookup_insert_eq. eapply lookup_lt_Some, Hl.
    + rewrite list_lookup_insert_ne by congruence. apply HD, Hin'.
  - rewrite Hl. intros [= <- <-]. exact HD.
Qed.

(** The loop keeps the rows of the table it is given, each at least once,
    with the cells of all its columns, provided that no display name is a
    column already. *)
Lemma merge_display_terms_rows (D d : list (string * nat)) :
  incl d D -> NoDup (map fst d) ->
  forall (sd out : DataFrame) (h h' : list DataFrame) (n : nat),
    merge_display_terms d sd h = (Ok out, h') ->
    lookup_tables D h ->
    (forall G, In G (map fst d) -> has_column sd (G ++ "_display") = false) ->
    rectangular n sd ->
    exists prov,
      rectangular (length prov) out
      /\ Forall (fun p => (p < n)%nat) prov
      /\ (forall r, (r < n)%nat -> In r prov)
      /\ (forall c s, get_column sd c = Some s ->
            get_column out c
            = Some (mkSeries (s_dtype s) (take (map Some prov) (cells s))))
      /\ (forall c, has_column out c = true ->
            has_column sd c = true
            \/ exists G, In G (map fst d) /\ c = (G ++ "_display")%string).
Proof.
  induction d as [|[G l] d IH]; intros Hincl Hnd sd out h h' n Hrun HD Hnew Hrect.
  - simpl in Hrun. injection Hrun as <- <-.
    exists (seq 0 n). rewrite length_seq. split; [exact Hrect|].
    split; [apply List.Forall_forall; intros p Hp; apply in_seq in Hp; lia|].
    split; [intros r Hr; apply in_seq; lia|].
    split; [|intros c Hc; left; exact Hc].
    intros c s Hc. rewrite Hc. f_equal. destruct s as [dt cs]. simpl. f_equal.
    assert (Hlen : length cs = n) by exact (rectangular_get _ _ _ _ Hrect Hc).
    subst n. unfold take. rewrite map_map.
    rewrite (map_seq_nth (fun v => v) cs VNaN). symmetry. apply map_id.
  - simpl in Hrun. inversion Hnd as [|? ? HG Hnd']; subst.
    assert (Hincl' : incl d D) by (intros p Hp; apply Hincl; right; exact Hp).
    destruct (has_column sd G) eqn:HhasG.
    + unfold mbind in Hrun.
      destruct (merge_display_term G l sd h) as [[out1|] h1] eqn:Hstep; [|discriminate].
      rewrite has_column_get in HhasG.
      destruct (get_column sd G) as [col|] eqn:Hcol; [|discriminate].
      assert (HinD : In (G, l) D) by (apply Hincl; left; reflexivity).
      destruct (HD G l HinD) as (keys & texts & Hl).
      destruct (merge_display_term_lookup G l sd out1 h h1 col keys texts Hcol
                  (Hnew G (or_introl eq_refl)) Hl Hstep)
        as (jk & _ & _ & _ & Hout1).
      set (idx := left_join (cells col) (cells jk)) in Hout1. cbv zeta in Hout1.
      assert (Hcoln : length (cells col) = n) by exact (rectangular_get _ _ _ _ Hrect Hcol).
      assert (Hrect1 : rectangular (length idx) out1).
      { subst out1. apply Forall_app. split.
        - rewrite <- (length_map fst idx). apply rectangular_take_rows.
        - constructor; [|constructor]. simpl. rewrite length_take, length_map. reflexivity. }
      assert (Hnew1 : forall G', In G' (map fst d) ->
                                 has_column out1 (G' ++ "_display") = false).
      { intros G' HG'. subst out1. rewrite has_column_app, has_column_take_rows.
        rewrite (Hnew G' (or_intror HG')). simpl.
        unfold has_column, columns. simpl. rewrite orb_false_r.
        apply String.eqb_neq. intros Heq. apply append_inj_l in Heq. subst G'.
        apply HG, list_elem_of_In, HG'. }
      destruct (IH Hincl' Hnd' out1 out h1 h' (length idx) Hrun
                   (merge_display_term_tables D G l sd h h1 _ HD HinD Hstep) Hnew1 Hrect1)
        as (prov2 & Hrect2 & Hrange2 & Hcover2 & Hcols2 & Hnames2).
      exists (map (fun q => nth q (map fst idx) 0%nat) prov2).
      rewrite length_map. split; [exact Hrect2|].
      split; [|split; [|split]].
      * apply List.Forall_forall. intros p Hp. apply in_map_iff in Hp as (q & <- & Hq).
        rewrite List.Forall_forall in Hrange2. specialize (Hrange2 q Hq).
        assert (Hnth : In (nth q idx (0%nat, None)) idx) by (apply nth_In; exact Hrange2).
        change 0%nat with (fst (0%nat, @None nat)). rewrite map_nth.
        destruct (nth q idx (0%nat, None)) as [a o]. apply left_join_In in Hnth as [Ha _].
        simpl. lia.
      * intros r Hr. rewrite <- Hcoln in Hr.
        destruct (left_join_from_covers (cells col) (cells jk) 0 r Hr) as [o Ho].
        simpl in Ho. fold (left_join (cells col) (cells jk)) in Ho. fold idx in Ho.
        apply In_lookup in Ho as [q Hq].
        apply in_map_iff. exists q. split.
        -- change 0%nat with (fst (0%nat, @None nat)). rewrite map_nth.
           apply nth_lookup_Some with (d := (0%nat, None)) in Hq. rewrite Hq. reflexivity.
        -- apply Hcover2. eapply lookup_lt_Some, Hq.
      * intros c s Hc.
        assert (Hc1 : get_column out1 c
                      = Some (mkSeries (s_dtype s) (take (map Some (map fst idx)) (cells s)))).
        { subst out1. rewrite get_column_app, get_column_take_rows, Hc. reflexivity. }
        rewrite (Hcols2 c _ Hc1). simpl. rewrite take_take; [reflexivity|].
        rewrite length_map. exact Hrange2.
      * intros c Hc. destruct (Hnames2 c Hc) as [Hc1|(G' & HG' & ->)].
        -- subst out1. rewrite has_column_app, has_column_take_rows in Hc1.
           apply orb_true_iff in Hc1 as [Hc1|Hc1]; [left; exact Hc1|].
           right. exists G. split; [left; reflexivity|].
           unfold has_column, columns in Hc1. simpl in Hc1. rewrite orb_false_r in Hc1.
           apply String.eqb_eq in Hc1. exact Hc1.
        -- right. exists G'. split; [right; exact HG'|reflexivity].
    + destruct (IH Hincl' Hnd' sd out h h' n Hrun HD
                   (fun G' HG' => Hnew G' (or_intror HG')) Hrect)
        as (prov & Hrect' & Hrange & Hcover & Hcols & Hnames).
      exists prov. repeat split; try assumption.
      intros c Hc. destruct (Hnames c Hc) as [Hc1|(G' & HG' & ->)]; [left; exact Hc1|].
      right. exists G'. split; [right; exact HG'|reflexivity].
Qed.


Lemma merge_display_terms_app (d1 d2 : list (string * nat)) :
  forall (sd : DataFrame) (h : list DataFrame),
    merge_display_terms (d1 ++ d2) sd h
    = mbind (merge_display_terms d1 sd) (fun sd' => merge_display_terms d2 sd') h.
Proof.
  induction d1 as [|[G l] d1 IH]; intros sd h; simpl.
  - reflexivity.
  - destruct (has_column sd G); [|apply IH].
    unfold mbind.
    destruct (merge_display_term G l sd h) as [[sd'|e] h1]; [|reflexivity].
    rewrite IH. reflexivity.
Qed.

Lemma merge_display_terms_tables (D d : list (string * nat)) :
  incl d D ->
  forall (sd : DataFrame) (h h' : list DataFrame) (r : result DataFrame),
    lookup_tables D h -> merge_display_terms d sd h = (r, h') -> lookup_tables D h'.
Proof.
  induction d as [|[G l] d IH]; intros Hincl sd h h' r HD; simpl.
  - intros [= <- <-]. exact HD.
  - assert (Hincl' : incl d D) by (intros p Hp; apply Hincl; right; exact Hp).
    destruct (has_column sd G); [|apply (IH Hincl'), HD].
    unfold mbind.
    destruct (merge_display_term G l sd h) as [[sd'|e] h1] eqn:Hstep.
    + apply (IH Hincl').
      eapply merge_display_term_tables; [exact HD| |exact Hstep].
      apply Hincl. left. reflexivity.
    + intros [= <- <-].
      eapply merge_display_term_tables; [exact HD| |exact Hstep].
      apply Hincl. left. reflexivity.
Qed.

(** *** The dictionary that [load_display_terms] builds *)

Lemma all_some_lookup {A} (l : list (option A)) (vs : list A) :
  all_some l = Some vs -> forall i, l !! i = option_map Some (vs !! i).
Proof.
  revert vs. induction l as [|[a|] l IH]; intros vs; simpl.
  - intros [= <-] i. destruct i; reflexivity.
  - destruct (all_some l) as [vs'|]; [|discriminate]. simpl. intros [= <-] [|i].
    + reflexivity.
    + simpl. apply IH. reflexivity.
  - discriminate.
Qed.

Lemma to_numeric_ignore_cell (s : Series) (i : nat) (v : value) :
  cells s !! i = Some v ->
  exists k, cells (to_numeric_ignore s) !! i = Some k /\ coerced v k.
Proof.
  intros Hv. unfold to_numeric_ignore, coerced.
  destruct (s_dtype s);
    try (exists v; split; [exact Hv|left; reflexivity]);
    try (exists (date_as_int v); split; [|right; right; reflexivity];
         simpl; change (map ?f ?x) with (f <$> x);
         rewrite list_lookup_fmap, Hv; reflexivity).
  destruct (all_some (map cell_to_num (cells s))) as [vs|] eqn:Hall;
    [|exists v; split; [exact Hv|left; reflexivity]].
  pose proof (all_some_lookup _ _ Hall i) as Hi.
  change (map ?f ?x) with (f <$> x) in Hi. rewrite list_lookup_fmap, Hv in Hi.
  simpl in Hi. destruct (vs !! i) as [n|] eqn:Hn; [|discriminate].
  injection Hi as Hnum.
  unfold numeric_series. destruct vs as [|v0 vs']; [destruct i; discriminate|].
  remember (v0 :: vs') as vs eqn:Hvs. clear Hvs.
  destruct (existsb isnull vs || existsb wide vs).
  - exists (unbool n). simpl. change (map ?f ?x) with (f <$> x).
    rewrite list_lookup_fmap, Hn. split; [reflexivity|]. right. left. eauto.
  - destruct (forallb is_VBool vs) eqn:Hbool.
    + exists n. split; [exact Hn|]. left.
      rewrite forallb_forall in Hbool. specialize (Hbool n (lookup_In _ _ _ Hn)).
      destruct n; try discriminate.
      destruct v; simpl in Hnum; try discriminate; try congruence.
      destruct (String.eqb s0 ""); [discriminate|].
      destruct (str_to_num s0); discriminate.
    + exists (unbool n). simpl. change (map ?f ?x) with (f <$> x).
      rewrite list_lookup_fmap, Hn. split; [reflexivity|]. right. left. eauto.
Qed.

Lemma positions_from_matches (p : value -> bool) (k : value) (l : list value) :
  (forall v, p v = key_eqb k v) ->
  forall n, positions_from n p l = matches_from n k l.
Proof.
  intros Hp. induction l as [|v l IH]; intros n; simpl; [reflexivity|].
  rewrite Hp, !IH. reflexivity.
Qed.

Lemma positions_from_lookup (p : value -> bool) (l : list value) (j : nat) (v : value) :
  l !! j = Some v -> p v = true -> exists q, positions_from 0 p l !! q = Some j.
Proof.
  intros Hj Hv. apply In_lookup.
  assert (Hgen : forall n, In (n + j)%nat (positions_from n p l)); [|exact (Hgen 0%nat)].
  revert j Hj. induction l as [|a l IH]; intros j Hj n; [destruct j; discriminate|].
  simpl. destruct j as [|j].
  - injection Hj as ->. rewrite Hv, Nat.add_0_r. left. reflexivity.
  - simpl in Hj. replace (n + S j)%nat with (S n + j)%nat by lia.
    destruct (p a); [right|]; apply IH, Hj.
Qed.

Lemma key_eqb_VStr (a : value) (s : string) : key_eqb a (VStr s) = true -> a = VStr s.
Proof.
  unfold key_eqb. destruct a as [| | |[]| | |]; simpl; try discriminate.
  intros Heq. apply String.eqb_eq in Heq. congruence.
Qed.

Lemma dedup_by_In {A} (eqb : A -> A -> bool) (x : A) (l : list A) :
  (forall a, eqb a x = true -> a = x) -> In x l -> In x (dedup_by eqb l).
Proof.
  intros Heq. induction l as [|a l IH]; [contradiction|]. intros [->|Hin]; simpl.
  - left. reflexivity.
  - destruct (eqb a x) eqn:Hax.
    + left. apply Heq, Hax.
    + right. apply filter_In. split; [apply IH, Hin|]. rewrite Hax. reflexivity.
Qed.

Lemma ForallOrdPairs_filter {A} (R : A -> A -> Prop) (f : A -> bool) (l : list A) :
  ForallOrdPairs R l -> ForallOrdPairs R (List.filter f l).
Proof.
  induction 1 as [|a l Ha Hl IH]; simpl; [constructor|].
  destruct (f a); [|exact IH]. constructor; [|exact IH].
  apply List.Forall_forall. intros x Hx. apply filter_In in Hx as [Hx _].
  rewrite List.Forall_forall in Ha. apply Ha, Hx.
Qed.

Lemma dedup_by_pairs {A} (eqb : A -> A -> bool) (l : list A) :
  ForallOrdPairs (fun a b => eqb a b = false) (dedup_by eqb l).
Proof.
  induction l as [|a l IH]; simpl; constructor.
  - apply List.Forall_forall. intros x Hx. apply filter_In in Hx as [_ Hx].
    destruct (eqb a x); [discriminate|reflexivity].
  - apply ForallOrdPairs_filter, IH.
Qed.

Lemma dedup_by_distinct (l : list value) (names : list string) :
  dedup_by key_eqb l = map VStr names -> NoDup names.
Proof.
  intros Heq. pose proof (dedup_by_pairs key_eqb l) as Hpairs. rewrite Heq in Hpairs.
  clear Heq. induction names as [|name names IH]; [constructor|].
  simpl in Hpairs. inversion Hpairs as [|? ? Hhead Htail]; subst.
  apply NoDup_cons. split; [|apply IH, Htail].
  intros Hin. apply list_elem_of_In in Hin. apply (in_map VStr) in Hin.
  rewrite List.Forall_forall in Hhead. specialize (Hhead _ Hin).
  unfold key_eqb in Hhead. simpl in Hhead. rewrite String.eqb_refl in Hhead. discriminate.
Qed.

(** The lookup table of a field, from the rows of the table given. *)
Lemma term_table_lookup (terms : DataFrame) (i : value) (name : string) (tbl : DataFrame) :
  term_table terms "api_value" "display_text" i = Ok (name, tbl) ->
  exists fields values texts,
    i = VStr name
    /\ get_column terms "api_field" = Some fields
    /\ get_column terms "api_value" = Some values
    /\ get_column terms "display_text" = Some texts
    /\ let idx := positions_from 0 (fun v => py_eqb v i) (cells fields) in
       let convert := if is_empty idx then (fun s => s) else to_numeric_ignore in
       tbl = lookup_table name
               (convert (mkSeries (s_dtype values) (take (map Some idx) (cells values))))
               (convert (mkSeries (s_dtype texts) (take (map Some idx) (cells texts)))).
Proof.
  unfold term_table, filter_rows, getitem.
  destruct (get_column terms "api_field") as [fields|] eqn:Hfields; [|discriminate].
  cbn [rbind select_columns]. unfold getitem. rewrite !get_column_take_rows.
  destruct (get_column terms "api_value") as [values|] eqn:Hvalues; [|discriminate].
  destruct (get_column terms "display_text") as [texts|] eqn:Htexts; [|discriminate].
  simpl. destruct i as [| |name'| | | |]; try discriminate.
  intros [= <- <-]. exists fields, values, texts.
  repeat (split; [reflexivity|]).
  unfold dict_literal2, rename_columns, df_apply, apply_columns, lookup_table. simpl.
  eqb_literals. simpl. eqb_literals. unfold take. rewrite !length_map.
  destruct (positions_from 0 _ (cells fields)); reflexivity.
Qed.

Lemma fill_display_dictionary_spec (terms : DataFrame) (fields : list value) :
  forall (h h' : list DataFrame) (d : list (string * nat)),
    fill_display_dictionary terms "api_value" "display_text" fields h = (Ok d, h') ->
    fields = map VStr (map fst d)
    /\ (exists ext, h' = h ++ ext)
    /\ forall G l, In (G, l) d ->
         exists tbl, term_table terms "api_value" "display_text" (VStr G) = Ok (G, tbl)
                     /\ h' !! l = Some tbl.
Proof.
  induction fields as [|i fields IH]; intros h h' d; simpl.
  - intros [= <- <-]. split; [reflexivity|]. split; [exists []; symmetry; apply app_nil_r|].
    intros G l [].
  - unfold mbind, lift, alloc, mret.
    destruct (term_table terms "api_value" "display_text" i) as [[name tbl]|] eqn:Hterm;
      [|discriminate].
    simpl.
    destruct (fill_display_dictionary terms "api_value" "display_text" fields (h ++ [tbl]))
      as [[rest|] h1] eqn:Hrest; [|discriminate].
    intros [= <- <-].
    destruct (IH _ _ _ Hrest) as (Hfields & [ext Hext] & Htables).
    destruct (term_table_lookup _ _ _ _ Hterm) as (_ & _ & _ & -> & _).
    split; [simpl; f_equal; exact Hfields|].
    split; [exists ([tbl] ++ ext); rewrite Hext, <- app_assoc; reflexivity|].
    intros G l [[= <- <-]|Hin].
    + exists tbl. split; [exact Hterm|]. rewrite Hext, <- app_assoc.
      rewrite lookup_app_r by lia. rewrite Nat.sub_diag. reflexivity.
    + apply Htables, Hin.
Qed.



Lemma get_display_dictionary_spec (terms : DataFrame) (h h' : list DataFrame)
    (d : list (string * nat)) :
  get_display_dictionary terms "api_field" "api_value" "display_text" h = (Ok d, h') ->
  exists fields,
    get_column terms "api_field" = Some fields
    /\ NoDup (map fst d)
    /\ (exists ext, h' = h ++ ext)
    /\ (forall G l, In (G, l) d ->
          exists tbl, term_table terms "api_value" "display_text" (VStr G) = Ok (G, tbl)
                      /\ h' !! l = Some tbl)
    /\ (forall G, In (VStr G) (cells fields) -> In G (map fst d)).
Proof.
  unfold get_display_dictionary, mbind, lift, getitem.
  destruct (get_column terms "api_field") as [fields|]; [|discriminate].
  intros Hfill. apply fill_display_dictionary_spec in Hfill as (Hfields & Hext & Htables).
  exists fields. split; [reflexivity|].
  split; [eapply dedup_by_distinct, Hfields|]. split; [exact Hext|].
  split; [exact Htables|].
  intros G HG. apply (dedup_by_In key_eqb) in HG; [|intros a; apply key_eqb_VStr].
  rewrite Hfields in HG. apply in_map_iff in HG as (x & [= ->] & Hx). exact Hx.
Qed.

Lemma load_display_terms_spec (terms t : DataFrame) (h0 h1 : list DataFrame)
    (d dm : list (string * nat)) :
  load_display_terms terms h0 = (Ok (t, d, dm), h1) ->
  exists multi fields,
    get_column terms "multi" = Some multi
    /\ let uni := take_rows (positions_from 0 (fun v => py_eqb v (VNum 0)) (cells multi))
                            terms in
       get_column uni "api_field" = Some fields
       /\ NoDup (map fst d)
       /\ (forall G l, In (G, l) d ->
             exists tbl, term_table uni "api_value" "display_text" (VStr G) = Ok (G, tbl)
                         /\ h1 !! l = Some tbl)
       /\ (forall G, In (VStr G) (cells fields) -> In G (map fst d)).
Proof.
  unfold load_display_terms.
  destruct (get_column terms "multi") as [multi|] eqn:Hmulti; [|discriminate].
  unfold filter_rows, getitem. rewrite Hmulti. unfold mbind at 1. unfold lift at 1.
  cbn [rbind]. unfold mbind at 1.
  destruct (get_display_dictionary _ "api_field" "api_value" "display_text" h0)
    as [[d'|] hA] eqn:Hdict; [|discriminate].
  unfold mbind at 1. unfold lift at 1. unfold mbind at 1.
  destruct (get_display_dictionary _ "api_field" "api_value" "display_text" hA)
    as [[dm'|] hB] eqn:Hdictm; [|discriminate].
  unfold mret. intros [= <- <- <- <-].
  apply get_display_dictionary_spec in Hdict as (fields & Hfields & Hnd & _ & Htables & Hin).
  apply get_display_dictionary_spec in Hdictm as (_ & _ & _ & [ext ->] & _).
  exists multi, fields. split; [reflexivity|]. cbv zeta.
  split; [exact Hfields|]. split; [exact Hnd|]. split; [|exact Hin].
  intros G l HGl. destruct (Htables G l HGl) as (tbl & Hterm & Hl).
  exists tbl. split; [exact Hterm|].
  rewrite lookup_app_l by (eapply lookup_lt_Some, Hl). exact Hl.
Qed.

(** The dictionary holds the term: the lookup table of the field has a row
    with the value and the text of the term, as the numeric coercion of the
    two columns leaves them. *)
Lemma display_dictionary_entry (terms t : DataFrame) (h0 h1 : list DataFrame)
    (d dm : list (string * nat)) (j : nat) (F : string) (V T : value) :
  load_display_terms terms h0 = (Ok (t, d, dm), h1) ->
  term_at terms j F V T ->
  NoDup (map fst d) /\ lookup_tables d h1
  /\ exists lF keys texts jj K T',
       In (F, lF) d
       /\ h1 !! lF = Some (lookup_table F keys texts)
       /\ cells keys !! jj = Some K
       /\ cells texts !! jj = Some T'
       /\ coerced V K /\ coerced T T'.
Proof.
  intros Hload (fields0 & values0 & texts0 & multi0 & Hfields0 & Hvalues0 & Htexts0
                & Hmulti0 & Hf & Hv & Ht & Hm).
  apply load_display_terms_spec in Hload
    as (multi & fields & Hmulti & Hfields & Hnd & Htables & Hin).
  rewrite Hmulti0 in Hmulti. injection Hmulti as <-.
  set (idx0 := positions_from 0 (fun v => py_eqb v (VNum 0)) (cells multi0)) in *.
  set (uni := take_rows idx0 terms) in *.
  split; [exact Hnd|]. split.
  { intros G l HGl. destruct (Htables G l HGl) as (tbl & Hterm & Hl).
    apply term_table_lookup in Hterm as (f & v & x & _ & _ & _ & _ & ->).
    eexists _, _. exact Hl. }
  destruct (positions_from_lookup (fun v => py_eqb v (VNum 0)) _ _ _ Hm eq_refl)
    as [p0 Hp0].
  fold idx0 in Hp0.
  assert (Hcell : forall c s v, get_column terms c = Some s -> cells s !! j = Some v ->
                    exists s', get_column uni c = Some s' /\ cells s' !! p0 = Some v).
  { intros c s v Hc Hcv. unfold uni. rewrite get_column_take_rows, Hc. simpl.
    eexists. split; [reflexivity|]. simpl.
    rewrite (lookup_take_Some _ _ _ _ Hp0). f_equal. apply nth_lookup_value, Hcv. }
  destruct (Hcell _ _ _ Hfields0 Hf) as (fields' & Hfields' & Hf').
  rewrite Hfields in Hfields'. injection Hfields' as <-.
  assert (HF : In F (map fst d)) by (eapply Hin, lookup_In, Hf').
  apply in_map_iff in HF as ([F' lF] & HF' & HFl). simpl in HF'. subst F'.
  destruct (Htables F lF HFl) as (tbl & Hterm & Hl).
  apply term_table_lookup in Hterm
    as (fields' & values & texts & _ & Hfields' & Hvalues & Htexts & Htbl).
  rewrite Hfields in Hfields'. injection Hfields' as <-.
  destruct (positions_from_lookup (fun v => py_eqb v (VStr F)) _ _ _ Hf') as [jj Hjj].
  { unfold py_eqb, key_eqb. simpl. apply String.eqb_refl. }
  set (idx := positions_from 0 (fun v => py_eqb v (VStr F)) (cells fields)) in *.
  cbv zeta in Htbl.
  assert (Hne : is_empty idx = false)
    by (destruct idx; [destruct jj; discriminate Hjj|reflexivity]).
  rewrite Hne in Htbl.
  destruct (Hcell _ _ _ Hvalues0 Hv) as (values' & Hvalues' & Hv').
  rewrite Hvalues in Hvalues'. injection Hvalues' as <-.
  destruct (Hcell _ _ _ Htexts0 Ht) as (texts' & Htexts' & Ht').
  rewrite Htexts in Htexts'. injection Htexts' as <-.
  destruct (to_numeric_ignore_cell
              (mkSeries (s_dtype values) (take (map Some idx) (cells values))) jj V)
    as (K & HK & HVK).
  { simpl. rewrite (lookup_take_Some _ _ _ _ Hjj). f_equal. apply nth_lookup_value, Hv'. }
  destruct (to_numeric_ignore_cell
              (mkSeries (s_dtype texts) (take (map Some idx) (cells texts))) jj T)
    as (T' & HT' & HTT').
  { simpl. rewrite (lookup_take_Some _ _ _ _ Hjj). f_equal. apply nth_lookup_value, Ht'. }
  exists lF. eexists _, _, jj, K, T'.
  split; [exact HFl|]. split; [rewrite Hl, Htbl; reflexivity|].
  split; [exact HK|]. split; [exact HT'|]. split; assumption.
Qed.

Section Translation.
Variables (D : list (string * nat)) (F : string) (lF : nat).
Variables (texts : Series) (column : dtype) (K' T' : value).

(** The join of the field [F]: a row whose key equals [K'] receives the
    text of the term, and no row is lost. *)
Lemma merge_display_term_translates (sd out : DataFrame) (h h' : list DataFrame)
    (col keys : Series) (jj : nat) (K : value) :
  get_column sd F = Some col ->
  s_dtype col = column ->
  has_column sd (F ++ "_display") = false ->
  h !! lF = Some (lookup_table F keys texts) ->
  merge_display_term F lF sd h = (Ok out, h') ->
  cells keys !! jj = Some K ->
  join_key column K = Ok K' ->
  (forall j' k k', cells keys !! j' = Some k -> join_key column k = Ok k' ->
                   key_eqb k' K' = true -> cells texts !! j' = Some T') ->
  exists Fo Do n,
    get_column out F = Some Fo
    /\ get_column out (F ++ "_display") = Some Do
    /\ rectangular n out
    /\ (forall G, has_column out G = true ->
                  has_column sd G = true \/ G = (F ++ "_display")%string)
    /\ (forall q k, cells Fo !! q = Some k -> key_eqb k K' = true ->
                    cells Do !! q = Some T')
    /\ (forall r k, cells col !! r = Some k -> key_eqb k K' = true ->
                    exists q, cells Fo !! q = Some k).
Proof.
  intros Hcol Hdt Hnew Hl Hstep Hjj HK Hunique.
  destruct (merge_display_term_lookup F lF sd out h h' col keys texts Hcol Hnew Hl Hstep)
    as (jk & Hcast & _ & _ & Hout).
  rewrite Hdt in Hcast.
  pose proof (joined_keys_lookup column keys jk Hcast) as Hjk.
  set (idx := left_join (cells col) (cells jk)) in Hout. cbv zeta in Hout.
  assert (HjjK : cells jk !! jj = Some K') by (apply Hjk; eauto).
  eexists _, _, (length idx).
  split; [subst out; rewrite get_column_app, get_column_take_rows, Hcol; reflexivity|].
  split.
  { subst out. rewrite get_column_app, get_column_take_rows.
    rewrite has_column_get in Hnew.
    destruct (get_column sd (F ++ "_display")); [discriminate|].
    simpl. rewrite String.eqb_refl. reflexivity. }
  split.
  { subst out. apply Forall_app. split.
    - rewrite <- (length_map fst idx). apply rectangular_take_rows.
    - constructor; [|constructor]. simpl. rewrite length_take, length_map. reflexivity. }
  split.
  { intros G HG. subst out. rewrite has_column_app, has_column_take_rows in HG.
    apply orb_true_iff in HG as [HG|HG]; [left; exact HG|right].
    unfold has_column, columns in HG. simpl in HG. rewrite orb_false_r in HG.
    apply String.eqb_eq in HG. exact HG. }
  simpl cells. split.
  - intros q k Hq Hk. apply lookup_take_map in Hq as (a & Ha & ->).
    change (map fst idx) with (fst <$> idx) in Ha. rewrite list_lookup_fmap in Ha.
    destruct (idx !! q) as [[a' ob]|] eqn:Hidx; [|discriminate].
    injection Ha as <-.
    assert (Hin : In (a', ob) idx) by (eapply lookup_In, Hidx).
    apply left_join_In in Hin as [Ha' Hob].
    unfold take. change (map ?f ?x) with (f <$> x). rewrite !list_lookup_fmap, Hidx.
    simpl. f_equal. destruct ob as [j|].
    + destruct Hob as [Hj Hkey].
      pose proof (lookup_nth_value _ _ Hj) as Hjkj.
      apply Hjk in Hjkj as (k0 & Hk0 & Hjoin).
      apply nth_lookup_value. apply (Hunique j k0 _ Hk0 Hjoin).
      eapply key_eqb_trans_l; eassumption.
    + apply lookup_lt_Some in HjjK as Hlt. specialize (Hob jj Hlt).
      rewrite (nth_lookup_value _ _ _ HjjK) in Hob. congruence.
  - intros r k Hr Hk.
    assert (Hin : In (r, Some jj) idx).
    { apply (left_join_from_Some (cells col) (cells jk) 0 r jj).
      - eapply lookup_lt_Some, Hr.
      - apply matches_from_In. exists jj. split; [reflexivity|].
        split; [eapply lookup_lt_Some, HjjK|].
        rewrite (nth_lookup_value _ _ _ Hr), (nth_lookup_value _ _ _ HjjK). exact Hk. }
    apply In_lookup in Hin as [q Hq]. exists q.
    rewrite (lookup_take_Some (map fst idx) (cells col) q r).
    + rewrite (nth_lookup_value _ _ _ Hr). reflexivity.
    + change (map fst idx) with (fst <$> idx). rewrite list_lookup_fmap, Hq. reflexivity.
Qed.


(** The whole loop: every row of the result whose [F] equals [K'] holds
    [T'] under the display name of [F], and each row of the table given
    whose [F] equals [K'] is among them. *)
Lemma merge_display_terms_translates (d : list (string * nat)) (sd out : DataFrame)
    (h h' : list DataFrame) (n : nat) (col keys : Series) (jj : nat) (K : value) :
  incl d D -> NoDup (map fst d) -> In (F, lF) d ->
  merge_display_terms d sd h = (Ok out, h') ->
  lookup_tables D h ->
  (forall G, In G (map fst d) -> has_column sd (G ++ "_display") = false) ->
  rectangular n sd ->
  get_column sd F = Some col ->
  s_dtype col = column ->
  h !! lF = Some (lookup_table F keys texts) ->
  cells keys !! jj = Some K ->
  join_key column K = Ok K' ->
  (forall j' k k', cells keys !! j' = Some k -> join_key column k = Ok k' ->
                   key_eqb k' K' = true -> cells texts !! j' = Some T') ->
  exists Fo Do,
    get_column out F = Some Fo
    /\ get_column out (F ++ "_display") = Some Do
    /\ (forall q k, cells Fo !! q = Some k -> key_eqb k K' = true ->
                    cells Do !! q = Some T')
    /\ (forall r k, cells col !! r = Some k -> key_eqb k K' = true ->
                    exists q, cells Fo !! q = Some k /\ cells Do !! q = Some T').
Proof.
  intros Hincl Hnd Hin Hrun HD Hnew Hrect Hcol Hdt Hl Hjj HK Hunique.
  apply in_split in Hin as (d1 & d2 & ->).
  rewrite map_app in Hnd. apply NoDup_app in Hnd as (Hnd1 & Hdisj & Hnd2).
  simpl in Hnd2. apply NoDup_cons in Hnd2 as [HF2 Hnd2].
  assert (HF1 : ~ In F (map fst d1)).
  { intros HF. apply list_elem_of_In in HF. apply (Hdisj F HF). left. }
  assert (HF2' : ~ In F (map fst d2)) by (intros HF; apply HF2, list_elem_of_In, HF).
  assert (Hdisj' : forall G, In G (map fst d1) -> ~ In G (map fst d2)).
  { intros G HG1 HG2. apply list_elem_of_In in HG1. apply (Hdisj G HG1).
    right. apply list_elem_of_In, HG2. }
  assert (Hincl1 : incl d1 D) by (intros p Hp; apply Hincl, in_or_app; left; exact Hp).
  assert (Hincl2 : incl d2 D)
    by (intros p Hp; apply Hincl, in_or_app; right; right; exact Hp).
  assert (HinD : In (F, lF) D) by (apply Hincl, in_or_app; right; left; reflexivity).
  rewrite merge_display_terms_app in Hrun. unfold mbind in Hrun.
  destruct (merge_display_terms d1 sd h) as [[mid|] hmid] eqn:Hrun1; [|discriminate].
  (* the fields before [F] *)
  destruct (merge_display_terms_rows D d1 Hincl1 Hnd1 sd mid h hmid n Hrun1 HD)
    as (prov1 & Hrect1 & Hrange1 & Hcover1 & Hcols1 & Hnames1);
    [intros G HG; apply Hnew; rewrite map_app; apply in_or_app; left; exact HG
    |exact Hrect|].
  pose proof (merge_display_terms_tables D d1 Hincl1 sd h hmid _ HD Hrun1) as HDmid.
  assert (Hlmid : hmid !! lF = Some (lookup_table F keys texts)).
  { assert (Hp : Forall (fun p : string * nat => ~ (fun x => x = lF) (snd p)) d1).
    { apply List.Forall_forall. intros [G l] HGl Heq. simpl in Heq. subst l.
      destruct (HD G lF (Hincl1 _ HGl)) as (keys' & texts' & Hl').
      rewrite Hl in Hl'. injection Hl' as <- _ _.
      apply HF1. apply (in_map fst) in HGl. exact HGl. }
    destruct (merge_display_terms_preserves _ d1 Hp sd _ _ _ Hrun1) as [_ Hkeep].
    rewrite (Hkeep lF eq_refl). exact Hl. }
  pose proof (Hcols1 F col Hcol) as Hcolmid.
  assert (Hnewmid : forall G, ~ In G (map fst d1) ->
                      has_column sd (G ++ "_display") = false ->
                      has_column mid (G ++ "_display") = false).
  { intros G HG HGsd. destruct (has_column mid (G ++ "_display")) eqn:Hhas; [|reflexivity].
    destruct (Hnames1 _ Hhas) as [Hc|(G' & HG' & Heq)]; [congruence|].
    apply append_inj_l in Heq. subst G'. contradiction. }
  (* the field [F] *)
  simpl in Hrun. rewrite has_column_get, Hcolmid in Hrun. unfold mbind in Hrun.
  destruct (merge_display_term F lF mid hmid) as [[outF|] hF] eqn:HstepF; [|discriminate].
  destruct (merge_display_term_translates mid outF hmid hF _ keys jj K Hcolmid Hdt
              (Hnewmid F HF1 (Hnew F ltac:(rewrite map_app; apply in_or_app; right; left;
                                            reflexivity)))
              Hlmid HstepF Hjj HK Hunique)
    as (Fo1 & Do1 & n1 & HFo1 & HDo1 & HrectF & HnamesF & HU1 & HE1).
  (* the fields after [F] *)
  destruct (merge_display_terms_rows D d2 Hincl2 Hnd2 outF out hF h' n1 Hrun
              (merge_display_term_tables D F lF mid hmid hF _ HDmid HinD HstepF))
    as (prov3 & Hrect3 & Hrange3 & Hcover3 & Hcols3 & _); [|exact HrectF|].
  { intros G HG. destruct (has_column outF (G ++ "_display")) eqn:Hhas; [|reflexivity].
    destruct (HnamesF _ Hhas) as [Hc|Heq].
    - rewrite Hnewmid in Hc; [discriminate| |].
      + intros HG1. exact (Hdisj' G HG1 HG).
      + apply Hnew. rewrite map_app. apply in_or_app. right. right. exact HG.
    - apply append_inj_l in Heq. subst G. contradiction. }
  assert (HlenFo1 : length (cells Fo1) = n1) by exact (rectangular_get _ _ _ _ HrectF HFo1).
  exists (mkSeries (s_dtype Fo1) (take (map Some prov3) (cells Fo1))),
         (mkSeries (s_dtype Do1) (take (map Some prov3) (cells Do1))).
  split; [exact (Hcols3 _ _ HFo1)|]. split; [exact (Hcols3 _ _ HDo1)|].
  simpl cells.
  assert (HU : forall q k, take (map Some prov3) (cells Fo1) !! q = Some k ->
                           key_eqb k K' = true ->
                           take (map Some prov3) (cells Do1) !! q = Some T').
  { intros q k Hq Hk. apply lookup_take_map in Hq as (p & Hp & ->).
    rewrite (lookup_take_Some _ _ _ _ Hp). f_equal. apply nth_lookup_value.
    apply (HU1 p (nth p (cells Fo1) VNaN)); [|exact Hk].
    apply lookup_nth_value. rewrite HlenFo1.
    rewrite List.Forall_forall in Hrange3. apply Hrange3. eapply lookup_In, Hp. }
  split; [exact HU|].
  intros r k Hr Hk.
  assert (Hrn : (r < n)%nat).
  { rewrite <- (rectangular_get _ _ _ _ Hrect Hcol). eapply lookup_lt_Some, Hr. }
  destruct (In_lookup _ _ (Hcover1 r Hrn)) as [q1 Hq1].
  destruct (HE1 q1 k) as [q2 Hq2]; [|exact Hk|].
  { simpl. rewrite (lookup_take_Some _ _ _ _ Hq1). f_equal.
    apply nth_lookup_value, Hr. }
  assert (Hq2n : (q2 < n1)%nat) by (rewrite <- HlenFo1; eapply lookup_lt_Some, Hq2).
  destruct (In_lookup _ _ (Hcover3 q2 Hq2n)) as [q Hq].
  exists q.
  assert (HFq : take (map Some prov3) (cells Fo1) !! q = Some k).
  { rewrite (lookup_take_Some _ _ _ _ Hq). f_equal. apply nth_lookup_value, Hq2. }
  split; [exact HFq|]. exact (HU q k HFq Hk).
Qed.

End Translation.

(** C7.  Round trip through the display dictionary.  Let row [j] of the
    display-terms table be the one-to-one term (F, V, T).  The dictionary that
    [load_display_terms] builds binds F to a lookup table with a row (K, T'),
    where K and T' are V and T as the numeric coercion of the lookup table
    leaves them.  Then let [clean_subjects_data] succeed on a raw table such
    that, in the table that enters the joins (after the replacement of 'N/A',
    the recoding of the race and the numeric coercion), F is a column, all
    columns have the same number of cells and no column bears the display
    name of a field of the dictionary.  Write K' for K as the join compares it
    (cast to float when the column F is of dtype float64), and suppose that
    every row of the lookup table whose key equals K' has the text T'.  Then
    the cleaned table has the columns F and F_display, every row of it whose
    F equals K' holds T' in F_display, and every row of the table that
    entered the joins whose F equals K' is among these rows. *)
Theorem display_round_trip (terms t : DataFrame) (h0 h1 : list DataFrame)
    (d dm : list (string * nat)) (j : nat) (F : string) (V T : value) :
  load_display_terms terms h0 = (Ok (t, d, dm), h1) ->
  term_at terms j F V T ->
  exists lF keys texts jj K T',
    In (F, lF) d
    /\ h1 !! lF = Some (lookup_table F keys texts)
    /\ cells keys !! jj = Some K
    /\ cells texts !! jj = Some T'
    /\ coerced V K /\ coerced T T'
    /\ forall (subjects_raw : nat) (raw : DataFrame) (drop_cols_list : list string)
          (sd0 : DataFrame) (column : Series) (n l : nat) (h2 : list DataFrame)
          (K' : value),
         h1 !! subjects_raw = Some raw ->
         coerced_subjects raw drop_cols_list = Ok sd0 ->
         rectangular n sd0 ->
         (forall G, In G (map fst d) -> has_column sd0 (G ++ "_display") = false) ->
         get_column sd0 F = Some column ->
         join_key (s_dtype column) K = Ok K' ->
         (forall j' k k', cells keys !! j' = Some k ->
                          join_key (s_dtype column) k = Ok k' ->
                          key_eqb k' K' = true -> cells texts !! j' = Some T') ->
         clean_subjects_data subjects_raw d drop_cols_list h1 = (Ok l, h2) ->
         exists out Fo Do,
           h2 !! l = Some out
           /\ get_column out F = Some Fo
           /\ get_column out (F ++ "_display") = Some Do
           /\ (forall q k, cells Fo !! q = Some k -> key_eqb k K' = true ->
                           cells Do !! q = Some T')
           /\ (forall r k, cells column !! r = Some k -> key_eqb k K' = true ->
                           exists q, cells Fo !! q = Some k /\ cells Do !! q = Some T').
Proof.
  intros Hload Hterm.
  destruct (display_dictionary_entry _ _ _ _ _ _ _ _ _ _ Hload Hterm)
    as (Hnd & HD & lF & keys & texts & jj & K & T' & HlF & Hl & HK & HT' & HVK & HTT').
  exists lF, keys, texts, jj, K, T'.
  repeat (split; [assumption|]).
  intros subjects_raw raw drop_cols_list sd0 column n l h2 K'
         Hraw Hsd0 Hrect Hnew Hcol HK' Hunique Hclean.
  rewrite clean_subjects_data_cleaned in Hclean.
  unfold cleaned_subjects, mbind, load, lift in Hclean. rewrite Hraw, Hsd0 in Hclean.
  destruct (merge_display_terms d sd0 h1) as [[out|] h'] eqn:Hrun; [|discriminate].
  injection Hclean as <- <-.
  destruct (merge_display_terms_translates d F lF texts (s_dtype column) K' T'
              d sd0 out h1 h' n column keys jj K
              (fun p Hp => Hp) Hnd HlF Hrun HD Hnew Hrect Hcol eq_refl Hl HK HK' Hunique)
    as (Fo & Do & HFo & HDo & HU & HE).
  exists out, Fo, Do. split.
  { rewrite lookup_app_r by lia. rewrite Nat.sub_diag. reflexivity. }
  repeat (split; [assumption|]). exact HE.
Qed.

End RoundTrip.

(** C7, witness: on the trial, the term (sp_data_site, '1', 'Site One') and
    the subject whose site is '1': the cleaned table has a row with the site
    1 and the text 'Site One'. *)
Lemma display_round_trip_trial :
  exists out Fo Do q,
    snd (clean_subjects_data 0%nat trial_dict ["adverse_effects"] trial_heap) !! 6%nat
    = Some out
    /\ get_column out "sp_data_site" = Some Fo
    /\ get_column out "sp_data_site_display" = Some Do
    /\ cells Fo !! q = Some (VNum 1)
    /\ cells Do !! q = Some (VStr "Site One").
Proof.
  destruct (display_round_trip trial_display_terms trial_display_terms
              [trial_subjects_raw; trial_screening_sites] trial_heap
              trial_dict trial_dict_multi 0%nat "sp_data_site" (VStr "1") (VStr "Site One"))
    as (lF & keys & texts & jj & K & T' & HlF & Hl & HK & HT' & HVK & _ & Hclean).
  { vm_compute. reflexivity. }
  { unfold term_at. repeat eexists; reflexivity. }
  assert (HlF' : lF = 2%nat).
  { destruct HlF as [Heq|[Heq|[Heq|[]]]]; [|discriminate Heq|discriminate Heq].
    injection Heq as <-. reflexivity. }
  subst lF. vm_compute in Hl. injection Hl as <- <-.
  assert (Hjj : jj = 0%nat /\ K = VNum 1).
  { destruct jj as [|[|jj]]; simpl in HK; try discriminate HK.
    - injection HK as <-. auto.
    - injection HK as <-. destruct HVK as [Heq|[(n & Hn & Heq)|Heq]].
      + discriminate Heq.
      + vm_compute in Hn. injection Hn as <-. discriminate Heq.
      + discriminate Heq. }
  destruct Hjj as [-> ->]. simpl in HT'. injection HT' as <-.
  edestruct (Hclean 0%nat trial_subjects_raw ["adverse_effects"])
    as (out & Fo & Do & Hout & HFo & HDo & _ & HE).
  - vm_compute. reflexivity.
  - vm_compute. reflexivity.
  - unfold rectangular. repeat constructor.
  - intros G [<-|[<-|[<-|[]]]]; vm_compute; reflexivity.
  - vm_compute. reflexivity.
  - vm_compute. reflexivity.
  - intros [|[|j']] k k' Hk Hk' Hkey; simpl in Hk; try discriminate Hk.
    + reflexivity.
    + injection Hk as <-. vm_compute in Hk'. injection Hk' as <-.
      vm_compute in Hkey. discriminate Hkey.
  - vm_compute. reflexivity.
  - destruct (HE 0%nat (VNum 1)) as (q & HFq & HDq); [reflexivity|reflexivity|].
    exists out, Fo, Do, q. repeat split; assumption.
Defined.

(** C7, the claim as written: after the display dictionary is built from
    the single term (dem_race, '1|2', 'Both'), the cleaning of a table whose
    race column holds '1|2' in its first row yields the race '8' and no
    display text in that row. *)
Lemma display_round_trip_race :
  term_at race_terms 0 "dem_race" (VStr "1|2") (VStr "Both")
  /\ get_column subjects_two_races "dem_race"
     = Some (mkSeries object [VStr "1|2"; VStr "unknown"; VStr "N/A"])
  /\ exists out,
       fst (build_and_clean race_terms [subjects_two_races]) = Ok out
       /\ get_column out "dem_race"
          = Some (mkSeries object [VStr "8"; VStr "unknown"; VNaN])
       /\ get_column out "dem_race_display" = Some (mkSeries object [VNaN; VNaN; VNaN]).
Proof.
  split; [unfold term_at; repeat eexists; reflexivity|].
  split; [reflexivity|].
  eexists. split; [vm_compute; reflexivity|]. split; vm_compute; reflexivity.
Qed.

(** When the site column of the subjects is a column of floats and a value
    of the field in the dictionary is no number, the cast of the lookup
    table fails and with it the cleaning. *)
Lemma display_round_trip_mixed :
  term_at site_terms 0 "sp_data_site" (VStr "1") (VStr "Site One")
  /\ fst (build_and_clean site_terms [subjects_one_site]) = Raise ValueError.
Proof.
  split; [unfold term_at; repeat eexists; reflexivity|]. vm_compute. reflexivity.
Qed.

(* ------------------------------------------------------------------------- *)
(** ** The helpers and the consented view *)
(* ------------------------------------------------------------------------- *)

Lemma cells_infer_series (vs : list value) : cells (infer_series vs) = vs.
Proof.
  unfold infer_series.
  repeat match goal with |- context [if ?b then _ else _] => destruct b end; reflexivity.
Qed.



(* ------------------------------------------------------------------------- *)
(** ** Moving a column *)
(* ------------------------------------------------------------------------- *)

Lemma lookup_insert_at {A} (pos : nat) (a : A) (l : list A) :
  (pos <= length l)%nat -> insert_at pos a l !! pos = Some a.
Proof.
  revert l. induction pos as [|pos IH]; intros l Hpos; [reflexivity|].
  destruct l as [|x l]; simpl in *; [lia|]. apply IH. lia.
Qed.

Lemma length_insert_at {A} (pos : nat) (a : A) (l : list A) :
  length (insert_at pos a l) = S (length l).
Proof.
  revert l. induction pos as [|pos IH]; intros l; [reflexivity|].
  destruct l as [|x l]; simpl; [reflexivity|]. rewrite IH. reflexivity.
Qed.

Lemma remove_column_insert_at (pos : nat) (c : string) (s : Series) (l : DataFrame) :
  has_column l c = false -> remove_column (insert_at pos (c, s) l) c = l.
Proof.
  revert l. induction pos as [|pos IH]; intros l Hl.
  - simpl. rewrite String.eqb_refl. reflexivity.
  - destruct l as [|[n x] l]; simpl.
    + rewrite String.eqb_refl. reflexivity.
    + unfold has_column, columns in Hl. simpl in Hl. apply orb_false_iff in Hl as [Hn Hl].
      rewrite Hn. f_equal. apply IH. exact Hl.
Qed.

Lemma get_column_insert_at (pos : nat) (c c' : string) (s : Series) (l : DataFrame) :
  has_column l c = false ->
  get_column (insert_at pos (c, s) l) c'
  = if String.eqb c' c then Some s else get_column l c'.
Proof.
  revert l. induction pos as [|pos IH]; intros l Hl.
  - reflexivity.
  - destruct l as [|[n x] l]; simpl; [reflexivity|].
    unfold has_column, columns in Hl. simpl in Hl. apply orb_false_iff in Hl as [Hn Hl].
    rewrite (IH l Hl). destruct (String.eqb_spec c' n) as [->|Hc']; [|reflexivity].
    rewrite String.eqb_sym, Hn. reflexivity.
Qed.

Lemma get_column_remove_column (d : DataFrame) (c c' : string) :
  c' <> c -> get_column (remove_column d c) c' = get_column d c'.
Proof.
  intros Hc. induction d as [|[n x] d IH]; simpl; [reflexivity|].
  destruct (String.eqb_spec c n) as [->|Hn].
  - destruct (String.eqb_spec c' n); [contradiction|reflexivity].
  - simpl. rewrite IH. reflexivity.
Qed.

Lemma length_remove_column (d : DataFrame) (c : string) (s : Series) :
  get_column d c = Some s -> S (length (remove_column d c)) = length d.
Proof.
  induction d as [|[n x] d IH]; simpl; [discriminate|].
  destruct (String.eqb c n); [reflexivity|]. intros Hc. simpl. rewrite IH; auto.
Qed.

Lemma move_column_inplace_moves_aux (df : nat) (col : string) (pos : nat)
    (h : list DataFrame) (d : DataFrame) :
  h !! df = Some d ->
  (get_column d col = None ->
   move_column_inplace df col pos h = (Raise KeyError, h))
  /\ (forall s,
        get_column d col = Some s ->
        (length (remove_column d col) < pos)%nat ->
        move_column_inplace df col pos h
        = (Raise IndexError, <[df := remove_column d col]> h)).
Proof.
  intros Hl. unfold move_column_inplace, mbind, lift, getitem.
  rewrite (load_lookup _ _ _ Hl). split.
  - intros Hs. rewrite Hs. reflexivity.
  - intros s Hs Hpos. rewrite Hs. unfold store.
    destruct (Nat.ltb_spec (length (remove_column d col)) pos); [reflexivity|lia].
Qed.

(** [move_column_inplace] on a table that has the column once and at least
    [pos] other columns: afterwards the column stands at position [pos] of
    that same table object, the other columns are in the order they were in,
    and every column has the cells it had.  When the column is missing,
    [KeyError] is raised and the table is as it was; when [pos] exceeds the
    number of the other columns, [IndexError] is raised after the column was
    popped, so the table is left without it. *)
Theorem move_column_inplace_moves (df : nat) (col : string) (pos : nat)
    (h : list DataFrame) (d : DataFrame) :
  h !! df = Some d ->
  (forall s,
      get_column d col = Some s ->
      has_column (remove_column d col) col = false ->
      (pos <= length (remove_column d col))%nat ->
      exists d',
        move_column_inplace df col pos h = (Ok tt, <[df := d']> h)
        /\ d' !! pos = Some (col, s)
        /\ remove_column d' col = remove_column d col
        /\ length d' = length d
        /\ forall c, get_column d' c = get_column d c)
  /\ (get_column d col = None ->
      move_column_inplace df col pos h = (Raise KeyError, h))
  /\ (forall s,
        get_column d col = Some s ->
        (length (remove_column d col) < pos)%nat ->
        move_column_inplace df col pos h
        = (Raise IndexError, <[df := remove_column d col]> h)).
Proof.
  intros Hl. split; [|exact (move_column_inplace_moves_aux df col pos h d Hl)].
  unfold move_column_inplace, mbind, lift, getitem.
  rewrite (load_lookup _ _ _ Hl).
  - intros s Hs Hdup Hpos. rewrite Hs. unfold store.
    destruct (Nat.ltb_spec (length (remove_column d col)) pos); [lia|].
    rewrite Hdup. rewrite list_insert_insert_eq.
    exists (insert_at pos (col, s) (remove_column d col)).
    split; [reflexivity|]. split; [apply lookup_insert_at, Hpos|].
    split; [apply remove_column_insert_at, Hdup|].
    split; [rewrite length_insert_at; apply (length_remove_column _ _ _ Hs)|].
    intros c. rewrite (get_column_insert_at _ _ _ _ _ Hdup).
    destruct (String.eqb_spec c col) as [->|Hc]; [symmetry; exact Hs|].
    apply get_column_remove_column, Hc.
Qed.

(** Witness: [Visit], the last of four columns, is moved to position 2. *)
Lemma move_column_inplace_example :
  exists d',
    move_column_inplace 0%nat "Visit" 2 [four_columns] = (Ok tt, [d'])
    /\ columns d' = ["index"; "MCC"; "Visit"; "screening_site"]
    /\ get_column d' "Visit" = Some (mkSeries object [VStr "Baseline Visit"]).
Proof.
  destruct (move_column_inplace_moves 0%nat "Visit" 2 [four_columns] four_columns eq_refl)
    as (Hok & _).
  destruct (Hok (mkSeries object [VStr "Baseline Visit"]))
    as (d' & Hrun & Hpos & Hrest & Hlen & Hcells);
    [reflexivity|reflexivity|simpl; lia|].
  exists d'. split; [exact Hrun|]. split; [|rewrite Hcells; reflexivity].
  vm_compute in Hrun. injection Hrun as <-. reflexivity.
Defined.

(* ------------------------------------------------------------------------- *)
(** ** Failures of the blood simplifier *)
(* ------------------------------------------------------------------------- *)

Section BloodSimplifier.
Context `{Pandas}.

(** [simplify_blooddata] on a table that lacks one of the three visit columns
    raises [KeyError] and leaves the table as it was.  When the three are
    there and [Visit] is not, [KeyError] is raised after the three columns
    were dropped from the table; when [Visit] is there with fewer than two
    other columns left, [IndexError] is raised and the table is left without
    the visit columns and without [Visit]. *)
Theorem simplify_blooddata_fails (blood_df : nat) (h : list DataFrame) (d : DataFrame) :
  h !! blood_df = Some d ->
  (forall c, In c dict_cols -> has_column d c = false ->
             simplify_blooddata blood_df h = (Raise KeyError, h))
  /\ (forall d1,
        drop_columns d dict_cols = Ok d1 ->
        (get_column d1 "Visit" = None ->
         simplify_blooddata blood_df h = (Raise KeyError, <[blood_df := d1]> h))
        /\ (forall visit,
              get_column d1 "Visit" = Some visit ->
              (length (remove_column d1 "Visit") < 2)%nat ->
              simplify_blooddata blood_df h
              = (Raise IndexError, <[blood_df := remove_column d1 "Visit"]> h))).
Proof.
  intros Hl. unfold simplify_blooddata, mbind. rewrite (load_lookup _ _ _ Hl).
  unfold lift. split.
  - intros c Hc Hmissing. unfold drop_columns.
    assert (Hall : forallb (has_column d) dict_cols = false).
    { destruct (forallb (has_column d) dict_cols) eqn:Hall; [|reflexivity].
      rewrite forallb_forall in Hall. rewrite (Hall c Hc) in Hmissing. discriminate. }
    rewrite Hall. reflexivity.
  - intros d1 Hdrop. rewrite Hdrop.
    assert (Hl1 : <[blood_df := d1]> h !! blood_df = Some d1)
      by (eapply lookup_store, Hl).
    destruct (move_column_inplace_moves_aux blood_df "Visit" 2 _ d1 Hl1) as (Hkey & Hindex).
    split.
    + intros Hvisit. unfold store at 1. rewrite (Hkey Hvisit). reflexivity.
    + intros visit Hvisit Hlen. unfold store at 1. rewrite (Hindex visit Hvisit Hlen).
      rewrite list_insert_insert_eq. reflexivity.
Qed.

End BloodSimplifier.

(** Witness: a table in which no record has the visit at three months is
    refused, and stays as it was. *)
Lemma simplify_blooddata_fails_example :
  simplify_blooddata 0%nat [blood_two_visits] = (Raise KeyError, [blood_two_visits]).
Proof.
  destruct (simplify_blooddata_fails 0%nat [blood_two_visits] blood_two_visits eq_refl)
    as [Hmissing _].
  apply (Hmissing "3-Mo Post-Op"); [right; right; left; reflexivity|reflexivity].
Defined.

Section BloodFetcher.
Context `{Pandas}.

(** When both centers answer 200 with a body that is false in a condition
    (an object without records, [null], zero, the empty text),
    [bloodjson_to_df] yields a table without columns, the drop of the visit
    columns fails in [simplify_blooddata], and [get_api_blood] returns
    [None] after its two requests: no empty data set is returned. *)
Theorem get_api_blood_no_records (net : remote) (now : Z) (api_root : string)
    (r1 r2 : response) (b1 b2 : value) :
  net (url api_root "blood" "blood-1-latest.json") = Some r1 ->
  net (url api_root "blood" "blood-2-latest.json") = Some r2 ->
  status_code r1 = 200 -> status_code r2 = 200 ->
  json_body r1 = Some b1 -> json_body r2 = Some b2 ->
  truthy b1 = false -> truthy b2 = false ->
  get_api_blood net now api_root
  = (Ok PyNone, ["blood-1-latest.json"; "blood-2-latest.json"]).
Proof.
  intros Hn1 Hn2 Hs1 Hs2 Hb1 Hb2 Ht1 Ht2. unfold get_api_blood. cbv zeta.
  change (api_dict "blood" "blood1") with "blood-1-latest.json".
  change (api_dict "blood" "blood2") with "blood-2-latest.json".
  rewrite Hn1, Hs1, Hb1, Hn2, Hs2, Hb2. simpl Z.eqb. cbv iota.
  unfold bloodjson_to_df. simpl bloodjson_loop.
  change (py_eqb (VStr "1") (VStr "1")) with true.
  change (py_eqb (VStr "2") (VStr "1")) with false.
  change (py_eqb (VStr "2") (VStr "2")) with true.
  cbv iota. rewrite Ht1, Ht2. reflexivity.
Qed.

End BloodFetcher.

(** Witness: both centers answer with an object without records. *)
Lemma get_api_blood_no_records_example :
  get_api_blood remote_no_records 0 "https://api.a2cps.org"
  = (Ok PyNone, ["blood-1-latest.json"; "blood-2-latest.json"]).
Proof.
  apply (get_api_blood_no_records remote_no_records 0 "https://api.a2cps.org"
           (mkResponse 200 (Some (VDict [])) None) (mkResponse 200 (Some (VDict [])) None)
           (VDict []) (VDict []));
    reflexivity.
Defined.

(* ------------------------------------------------------------------------- *)
(** ** The cleaner of the adverse events *)
(* ------------------------------------------------------------------------- *)

Section AdverseEvents.
Context `{Pandas}.

Lemma merge_no_unmodelled (left right : DataFrame) (on : string) :
  merge left right on <> Raise Unmodelled.
Proof.
  unfold merge, getitem.
  destruct (get_column left on); [|discriminate].
  destruct (get_column right on); [|discriminate]. simpl.
  destruct (negb _); [discriminate|]. destruct (_ || _); discriminate.
Qed.

Lemma merge_multi_terms_reads (d : list (string * nat)) :
  forall (multi_data : DataFrame) (h : list DataFrame),
    snd (merge_multi_terms d multi_data h) = h
    /\ fst (merge_multi_terms d multi_data h) <> Raise Unmodelled.
Proof.
  induction d as [|[i l] d IH]; intros multi_data h; simpl.
  - split; [reflexivity|discriminate].
  - destruct (has_column multi_data i); [|apply IH].
    unfold mbind, load, lift. destruct (h !! l) as [terms|]; [|split; [reflexivity|discriminate]].
    destruct (merge multi_data terms i) as [m|e] eqn:Hm; [apply IH|].
    split; [reflexivity|]. simpl. rewrite <- Hm. apply merge_no_unmodelled.
Qed.

(** [clean_adverse_events] raises nothing and writes nothing: whatever the
    extracted table and the dictionary, it returns a table or [None], and
    every table object is as it was (unlike [clean_subjects_data], it casts
    no lookup table).  It returns [None] exactly when a join raises, and
    with a dictionary without entries it returns the table coerced to
    numbers. *)
Theorem clean_adverse_events_reads_only (adverse_events : DataFrame)
    (d : list (string * nat)) (h : list DataFrame) :
  (exists o, clean_adverse_events adverse_events d h = (Ok o, h)
             /\ (o = None
                 <-> exists e,
                       fst (merge_multi_terms d
                              (df_apply to_numeric_ignore adverse_events) h)
                       = Raise e))
  /\ clean_adverse_events adverse_events [] h
     = (Ok (Some (df_apply to_numeric_ignore adverse_events)), h).
Proof.
  split; [|reflexivity].
  unfold clean_adverse_events, try_except.
  destruct (merge_multi_terms_reads d (df_apply to_numeric_ignore adverse_events) h)
    as [Hheap Hresult].
  destruct (merge_multi_terms d _ h) as [[out|e] h'] eqn:Hrun; simpl in *; subst h'.
  - exists (Some out). split; [reflexivity|]. split; [discriminate|].
    intros [e He]. discriminate.
  - exists None. destruct e; try (split; [reflexivity|]; split; eauto).
    contradiction.
Qed.

End AdverseEvents.

(* ------------------------------------------------------------------------- *)
(** ** The display dictionaries *)
(* ------------------------------------------------------------------------- *)

Lemma positions_from_filter (p : value -> bool) (l : list value) :
  forall n,
    positions_from n p l
    = List.filter (fun j => p (nth (j - n) l VNaN)) (seq n (length l)).
Proof.
  induction l as [|v l IH]; intros n; simpl; [reflexivity|].
  rewrite Nat.sub_diag. rewrite IH.
  assert (Hext : List.filter (fun j => p (nth (j - S n) l VNaN)) (seq (S n) (length l))
                 = List.filter (fun j => p match (j - n)%nat with
                                           | O => v
                                           | S m => nth m l VNaN
                                           end) (seq (S n) (length l))).
  { apply filter_ext_in. intros j Hj. apply in_seq in Hj.
    replace (j - n)%nat with (S (j - S n)) by lia. reflexivity. }
  rewrite Hext. destruct (p v); reflexivity.
Qed.

Lemma positions_from_map {A} (q : value -> bool) (g : A -> value) (d : A) (l : list A) :
  forall n,
    map (fun k => nth (k - n) l d) (positions_from n q (map g l))
    = List.filter (fun a => q (g a)) l.
Proof.
  induction l as [|a l IH]; intros n; [reflexivity|].
  cbn [map positions_from List.filter].
  assert (Hshift : map (fun k => nth (k - n) (a :: l) d) (positions_from (S n) q (map g l))
                   = map (fun k => nth (k - S n) l d) (positions_from (S n) q (map g l))).
  { apply map_ext_in. intros k Hk. rewrite positions_from_filter in Hk.
    apply filter_In in Hk as [Hk _]. apply in_seq in Hk.
    replace (k - n)%nat with (S (k - S n)) by lia. reflexivity. }
  destruct (q (g a)); cbn [map]; rewrite ?Nat.sub_diag, Hshift, IH; reflexivity.
Qed.

Lemma filter_filter_andb {A} (f g : A -> bool) (l : list A) :
  List.filter f (List.filter g l) = List.filter (fun x => g x && f x) l.
Proof.
  induction l as [|a l IH]; simpl; [reflexivity|].
  destruct (g a); simpl; [destruct (f a)|]; rewrite IH; reflexivity.
Qed.

Lemma take_as_map (idx : list nat) (l : list value) :
  take (map Some idx) l = map (fun j => nth j l VNaN) idx.
Proof. unfold take. rewrite map_map. reflexivity. Qed.

Lemma dedup_by_incl {A} (eqb : A -> A -> bool) (l : list A) (x : A) :
  In x (dedup_by eqb l) -> In x l.
Proof.
  induction l as [|a l IH]; simpl; [tauto|]. intros [->|Hx]; [left; reflexivity|].
  right. apply IH. apply filter_In in Hx as [Hx _]. exact Hx.
Qed.

Lemma py_eqb_VStr (v : value) (s : string) : py_eqb v (VStr s) = true <-> v = VStr s.
Proof.
  split.
  - unfold py_eqb. destruct v; try discriminate; apply key_eqb_VStr.
  - intros ->. unfold py_eqb, key_eqb. simpl. apply String.eqb_refl.
Qed.

Lemma filter_nonempty {A} (f : A -> bool) (l : list A) :
  List.filter f l <> [] <-> exists a, In a l /\ f a = true.
Proof.
  split.
  - destruct (List.filter f l) as [|a r] eqn:Hf; [congruence|]. intros _.
    exists a. apply filter_In. rewrite Hf. left. reflexivity.
  - intros (a & Ha & Hfa) Hnil.
    assert (Hin : In a (List.filter f l)) by (apply filter_In; auto).
    rewrite Hnil in Hin. contradiction.
Qed.

Section Dictionaries.
Context `{Pandas}.

(** The rows of the lookup table of a field, read from the whole table. *)
Lemma term_rows_selected (fields multi col : Series) (mv : value) (F : string) :
  let idx0 := positions_from 0 (fun v => py_eqb v mv) (cells multi) in
  let idx := positions_from 0 (fun v => py_eqb v (VStr F))
                            (take (map Some idx0) (cells fields)) in
  take (map Some idx) (take (map Some idx0) (cells col))
  = map (fun j => nth j (cells col) VNaN) (term_rows fields multi mv F).
Proof.
  intros idx0 idx. rewrite (take_as_map idx0 (cells col)).
  rewrite take_as_map.
  assert (Hidx : map (fun k => nth k idx0 0%nat) idx = term_rows fields multi mv F).
  { unfold idx. rewrite take_as_map.
    pose proof (positions_from_map (fun v => py_eqb v (VStr F))
                  (fun j => nth j (cells fields) VNaN) 0%nat idx0 0%nat) as Hmap.
    rewrite <- (map_ext (fun k => nth (k - 0) idx0 0%nat) (fun k => nth k idx0 0%nat))
      by (intros k; rewrite Nat.sub_0_r; reflexivity).
    rewrite Hmap. unfold idx0, term_rows. rewrite positions_from_filter.
    rewrite filter_filter_andb. apply filter_ext. intros j.
    rewrite Nat.sub_0_r. reflexivity. }
  rewrite <- Hidx, map_map. apply map_ext_in. intros k Hk.
  unfold idx in Hk. rewrite positions_from_filter in Hk.
  apply filter_In in Hk as [Hk _]. apply in_seq in Hk.
  rewrite take_as_map, length_map in Hk.
  rewrite (nth_indep _ VNaN (nth 0 (cells col) VNaN)) by (rewrite length_map; lia).
  rewrite (map_nth (fun j => nth j (cells col) VNaN) idx0 0%nat k). reflexivity.
Qed.

Lemma dictionary_holds_terms (terms : DataFrame) (multi : Series) (mv : value)
    (h h' : list DataFrame) (d : list (string * nat)) :
  get_column terms "multi" = Some multi ->
  get_display_dictionary
    (take_rows (positions_from 0 (fun v => py_eqb v mv) (cells multi)) terms)
    "api_field" "api_value" "display_text" h = (Ok d, h') ->
  holds_terms terms mv d h'.
Proof.
  intros Hmulti Hdict.
  set (idx0 := positions_from 0 (fun v => py_eqb v mv) (cells multi)) in *.
  unfold get_display_dictionary, mbind, lift, getitem in Hdict.
  rewrite get_column_take_rows in Hdict.
  destruct (get_column terms "api_field") as [fields|] eqn:Hfields; [|discriminate].
  simpl in Hdict.
  apply fill_display_dictionary_spec in Hdict as (Hnames & _ & Htables).
  exists fields, multi. split; [exact Hfields|]. split; [exact Hmulti|].
  assert (Hrows : forall F,
             term_rows fields multi mv F
             = List.filter (fun j => py_eqb (nth j (cells fields) VNaN) (VStr F)) idx0).
  { intros F. unfold term_rows, idx0. rewrite positions_from_filter, filter_filter_andb.
    apply filter_ext. intros j. rewrite Nat.sub_0_r. reflexivity. }
  split.
  - intros F. rewrite Hrows, filter_nonempty. split.
    + intros HF. apply (in_map VStr) in HF. rewrite <- Hnames in HF.
      apply dedup_by_incl in HF. rewrite take_as_map in HF.
      apply in_map_iff in HF as (j & Hj & Hin). exists j. split; [exact Hin|].
      apply py_eqb_VStr, Hj.
    + intros (j & Hin & Hj). apply py_eqb_VStr in Hj.
      assert (HF : In (VStr F) (dedup_by key_eqb (take (map Some idx0) (cells fields)))).
      { apply dedup_by_In; [intros a; apply key_eqb_VStr|].
        rewrite take_as_map. apply in_map_iff. exists j. auto. }
      rewrite Hnames in HF. apply in_map_iff in HF as (x & [= ->] & Hx). exact Hx.
  - intros F l HFl. destruct (Htables F l HFl) as (tbl & Hterm & Hl).
    apply term_table_lookup in Hterm
      as (fields' & values' & texts' & _ & Hfields' & Hvalues' & Htexts' & Htbl).
    rewrite get_column_take_rows in Hfields', Hvalues', Htexts'.
    rewrite Hfields in Hfields'. simpl in Hfields'. injection Hfields' as <-.
    destruct (get_column terms "api_value") as [values|] eqn:Hvalues; [|discriminate].
    destruct (get_column terms "display_text") as [texts|] eqn:Htexts; [|discriminate].
    simpl in Hvalues', Htexts'. injection Hvalues' as <-. injection Htexts' as <-.
    exists values, texts. split; [reflexivity|]. split; [reflexivity|].
    assert (Hne : is_empty (positions_from 0 (fun v => py_eqb v (VStr F))
                              (take (map Some idx0) (cells fields))) = false).
    { assert (HF : In (VStr F) (take (map Some idx0) (cells fields))).
      { apply (dedup_by_incl key_eqb). rewrite Hnames.
        apply (in_map fst) in HFl. apply (in_map VStr) in HFl. exact HFl. }
      apply list_elem_of_In, list_elem_of_lookup in HF as [j Hj].
      destruct (positions_from_lookup (fun v => py_eqb v (VStr F)) _ _ _ Hj) as [jj Hjj].
      { apply py_eqb_VStr. reflexivity. }
      destruct (positions_from 0 (fun v => py_eqb v (VStr F))
                  (take (map Some idx0) (cells fields)));
        [destruct jj; discriminate Hjj|reflexivity]. }
    cbv zeta in Htbl. cbn [cells s_dtype] in Htbl. rewrite Hne in Htbl.
    rewrite Hl, Htbl. unfold terms_lookup. cbv zeta.
    unfold idx0. rewrite !term_rows_selected. reflexivity.
Qed.

Lemma fill_display_dictionary_locs (terms : DataFrame) (fields : list value) :
  forall (h h' : list DataFrame) (r : result (list (string * nat))),
    fill_display_dictionary terms "api_value" "display_text" fields h = (r, h') ->
    exists ext,
      h' = h ++ ext
      /\ forall d, r = Ok d ->
           map snd d = seq (length h) (length d) /\ length ext = length d.
Proof.
  induction fields as [|i fields IH]; intros h h' r; simpl.
  - intros [= <- <-]. exists []. split; [symmetry; apply app_nil_r|].
    intros d [= <-]. split; reflexivity.
  - unfold mbind, lift, alloc, mret.
    destruct (term_table terms "api_value" "display_text" i) as [[name tbl]|e].
    + simpl.
      destruct (fill_display_dictionary terms "api_value" "display_text" fields (h ++ [tbl]))
        as [[rest|e] h1] eqn:Hrest.
      * intros [= <- <-]. destruct (IH _ _ _ Hrest) as (ext & -> & Hd).
        destruct (Hd rest eq_refl) as [Hlocs Hlen].
        exists (tbl :: ext). split; [rewrite <- app_assoc; reflexivity|].
        intros d [= <-]. simpl. rewrite Hlocs, length_app, Hlen. simpl.
        split; [|reflexivity]. f_equal. f_equal. lia.
      * intros [= <- <-]. destruct (IH _ _ _ Hrest) as (ext & -> & _).
        exists (tbl :: ext). split; [rewrite <- app_assoc; reflexivity|].
        intros d; discriminate.
    + intros [= <- <-]. exists []. split; [symmetry; apply app_nil_r|].
      intros d; discriminate.
Qed.

Lemma get_display_dictionary_locs (terms : DataFrame) (h h' : list DataFrame)
    (r : result (list (string * nat))) :
  get_display_dictionary terms "api_field" "api_value" "display_text" h = (r, h') ->
  exists ext,
    h' = h ++ ext
    /\ forall d, r = Ok d ->
         map snd d = seq (length h) (length d) /\ length ext = length d.
Proof.
  unfold get_display_dictionary, mbind, lift, getitem.
  destruct (get_column terms "api_field") as [fields|].
  - apply fill_display_dictionary_locs.
  - intros [= <- <-]. exists []. split; [symmetry; apply app_nil_r|].
    intros d; discriminate.
Qed.

(** [load_display_terms] only makes new table objects: whatever it returns,
    the objects that existed are as they were.  When it succeeds, the display
    terms are returned as given, the lookup tables of the two dictionaries
    are new objects, one per entry and all distinct, and no field is the key
    of two entries of a dictionary. *)
Theorem load_display_terms_allocates (terms : DataFrame) (h0 h1 : list DataFrame)
    (r : result (DataFrame * list (string * nat) * list (string * nat))) :
  load_display_terms terms h0 = (r, h1) ->
  exists ext,
    h1 = h0 ++ ext
    /\ forall t d dm,
         r = Ok (t, d, dm) ->
         t = terms
         /\ length ext = (length d + length dm)%nat
         /\ map snd d = seq (length h0) (length d)
         /\ map snd dm = seq (length h0 + length d) (length dm)
         /\ NoDup (map fst d) /\ NoDup (map fst dm).
Proof.
  unfold load_display_terms.
  destruct (get_column terms "multi") as [multi|] eqn:Hmulti.
  2:{ intros [= <- <-]. exists []. split; [symmetry; apply app_nil_r|]. discriminate. }
  unfold filter_rows, getitem. rewrite Hmulti. unfold mbind at 1. unfold lift at 1.
  cbn [rbind]. unfold mbind at 1.
  destruct (get_display_dictionary _ "api_field" "api_value" "display_text" h0)
    as [[d'|e] hA] eqn:Hdict.
  2:{ intros [= <- <-]. apply get_display_dictionary_locs in Hdict as (ext & -> & _).
      exists ext. split; [reflexivity|]. discriminate. }
  unfold mbind at 1. unfold lift at 1. unfold mbind at 1.
  destruct (get_display_dictionary _ "api_field" "api_value" "display_text" hA)
    as [[dm'|e] hB] eqn:Hdictm.
  2:{ intros [= <- <-]. apply get_display_dictionary_locs in Hdict as (ext & -> & _).
      apply get_display_dictionary_locs in Hdictm as (ext' & -> & _).
      exists (ext ++ ext'). split; [symmetry; apply app_assoc|]. discriminate. }
  unfold mret. intros [= <- <-].
  pose proof Hdict as Hd. pose proof Hdictm as Hdm.
  apply get_display_dictionary_locs in Hd as (ext & -> & Hd).
  apply get_display_dictionary_locs in Hdm as (ext' & -> & Hdm).
  destruct (Hd d' eq_refl) as [Hlocs Hlen].
  destruct (Hdm dm' eq_refl) as [Hlocs' Hlen'].
  apply get_display_dictionary_spec in Hdict as (_ & _ & Hnd & _).
  apply get_display_dictionary_spec in Hdictm as (_ & _ & Hnd' & _).
  exists (ext ++ ext'). split; [symmetry; apply app_assoc|].
  intros t d dm [= <- <- <-]. split; [reflexivity|].
  split; [rewrite length_app; lia|]. split; [exact Hlocs|].
  split; [rewrite Hlocs', length_app, Hlen; reflexivity|]. split; assumption.
Qed.

(** What the two dictionaries of [load_display_terms] hold.  A field is a
    key of the one-to-one dictionary exactly when a row of the display-terms
    table bears it with [multi] equal to 0, and of the one-to-many dictionary
    exactly when a row bears it with [multi] equal to 1; a row with another
    [multi] feeds neither.  Each key is bound to the lookup table of its
    rows, in the order of the table. *)
Theorem load_display_terms_contents (terms t : DataFrame) (h0 h1 : list DataFrame)
    (d dm : list (string * nat)) :
  load_display_terms terms h0 = (Ok (t, d, dm), h1) ->
  holds_terms terms (VNum 0) d h1 /\ holds_terms terms (VNum 1) dm h1.
Proof.
  unfold load_display_terms.
  destruct (get_column terms "multi") as [multi|] eqn:Hmulti; [|discriminate].
  unfold filter_rows, getitem. rewrite Hmulti. unfold mbind at 1. unfold lift at 1.
  cbn [rbind]. unfold mbind at 1.
  destruct (get_display_dictionary _ "api_field" "api_value" "display_text" h0)
    as [[d'|] hA] eqn:Hdict; [|discriminate].
  unfold mbind at 1. unfold lift at 1. unfold mbind at 1.
  destruct (get_display_dictionary _ "api_field" "api_value" "display_text" hA)
    as [[dm'|] hB] eqn:Hdictm; [|discriminate].
  unfold mret. intros [= <- <- <- <-].
  pose proof (dictionary_holds_terms _ _ _ _ _ _ Hmulti Hdict) as Hd.
  pose proof (dictionary_holds_terms _ _ _ _ _ _ Hmulti Hdictm) as Hdm.
  split; [|exact Hdm].
  apply get_display_dictionary_locs in Hdictm as (ext & -> & _).
  destruct Hd as (fields & multi' & Hf & Hm & Hkeys & Htables).
  exists fields, multi'. repeat (split; [assumption|]).
  intros F l HFl. destruct (Htables F l HFl) as (values & texts & Hv & Ht & Hl).
  exists values, texts. repeat (split; [assumption|]).
  rewrite lookup_app_l by (eapply lookup_lt_Some, Hl). exact Hl.
Qed.

End Dictionaries.

(** Witness: on the trial the raw table and the ranges stay, and the four
    lookup tables are the objects 2 to 5. *)
Lemma load_display_terms_allocates_trial :
  exists ext,
    trial_heap = [trial_subjects_raw; trial_screening_sites] ++ ext
    /\ length ext = 4%nat
    /\ map snd trial_dict = [2%nat; 3%nat; 4%nat]
    /\ map snd trial_dict_multi = [5%nat].
Proof.
  edestruct (load_display_terms_allocates trial_display_terms
               [trial_subjects_raw; trial_screening_sites])
    as (ext & Hext & Hok); [vm_compute; reflexivity|].
  exists ext. split; [exact Hext|].
  destruct (Hok trial_display_terms trial_dict trial_dict_multi eq_refl)
    as (_ & Hlen & Hlocs & Hlocs' & _).
  split; [exact Hlen|]. split; [exact Hlocs|exact Hlocs'].
Defined.

(** Witness: the dictionaries of the trial. *)
Lemma load_display_terms_contents_trial :
  holds_terms trial_display_terms (VNum 0) trial_dict trial_heap
  /\ holds_terms trial_display_terms (VNum 1) trial_dict_multi trial_heap.
Proof.
  apply (load_display_terms_contents trial_display_terms trial_display_terms
           [trial_subjects_raw; trial_screening_sites] trial_heap
           trial_dict trial_dict_multi).
  vm_compute. reflexivity.
Defined.

(* ------------------------------------------------------------------------- *)
(** ** The rows of the cleaned subjects *)
(* ------------------------------------------------------------------------- *)

Section CleanedRows.
Context `{Pandas}.

Lemma load_display_terms_tables (terms t : DataFrame) (h0 h1 : list DataFrame)
    (d dm : list (string * nat)) :
  load_display_terms terms h0 = (Ok (t, d, dm), h1) ->
  NoDup (map fst d) /\ lookup_tables d h1.
Proof.
  intros Hload.
  apply load_display_terms_spec in Hload as (multi & fields & _ & _ & Hnd & Htables & _).
  split; [exact Hnd|].
  intros G l HGl. destruct (Htables G l HGl) as (tbl & Hterm & Hl).
  apply term_table_lookup in Hterm as (f & v & x & _ & _ & _ & _ & ->).
  eexists _, _. exact Hl.
Qed.

(** [clean_subjects_data] with a dictionary built by [load_display_terms]
    loses no subject and invents none.  Let the table that enters the joins
    (the raw table renamed, dropped, recoded and coerced) have [n] rows and
    no column that bears the display name of a field of the dictionary.
    Then each row of the cleaned table is one of these [n] rows, with the
    same cells and dtypes in all the columns that entered, each of the [n]
    rows is there at least once (more than once where a lookup table has
    the key of the row several times), and the only new columns are display
    columns. *)
Theorem clean_subjects_data_keeps_rows (terms t : DataFrame) (h0 h1 h2 : list DataFrame)
    (d dm : list (string * nat)) (subjects_raw l n : nat) (raw sd0 : DataFrame)
    (drop_cols_list : list string) :
  load_display_terms terms h0 = (Ok (t, d, dm), h1) ->
  h1 !! subjects_raw = Some raw ->
  coerced_subjects raw drop_cols_list = Ok sd0 ->
  rectangular n sd0 ->
  (forall G, In G (map fst d) -> has_column sd0 (G ++ "_display") = false) ->
  clean_subjects_data subjects_raw d drop_cols_list h1 = (Ok l, h2) ->
  exists out prov,
    h2 !! l = Some out
    /\ rectangular (length prov) out
    /\ Forall (fun p => (p < n)%nat) prov
    /\ (forall r, (r < n)%nat -> In r prov)
    /\ (forall c s, get_column sd0 c = Some s ->
          get_column out c
          = Some (mkSeries (s_dtype s) (map (fun p => nth p (cells s) VNaN) prov)))
    /\ (forall c, has_column out c = true ->
          has_column sd0 c = true
          \/ exists G, In G (map fst d) /\ c = (G ++ "_display")%string).
Proof.
  intros Hload Hraw Hsd0 Hrect Hnew Hclean.
  destruct (load_display_terms_tables _ _ _ _ _ _ Hload) as [Hnd HD].
  rewrite clean_subjects_data_cleaned in Hclean.
  unfold cleaned_subjects, mbind, load, lift in Hclean. rewrite Hraw, Hsd0 in Hclean.
  destruct (merge_display_terms d sd0 h1) as [[out|] h'] eqn:Hrun; [|discriminate].
  injection Hclean as <- <-.
  destruct (merge_display_terms_rows d d (fun p Hp => Hp) Hnd sd0 out h1 h' n Hrun HD
              Hnew Hrect)
    as (prov & Hrect' & Hrange & Hcover & Hcols & Hnames).
  exists out, prov. split.
  { rewrite lookup_app_r by lia. rewrite Nat.sub_diag. reflexivity. }
  repeat (split; [assumption|]). split; [|exact Hnames].
  intros c s Hc. rewrite (Hcols c s Hc), take_as_map. reflexivity.
Qed.

End CleanedRows.

(** Witness: the three subjects of the trial are the three rows of the
    cleaned table, in their order. *)
Lemma clean_subjects_data_keeps_rows_trial :
  exists out ids,
    snd (clean_subjects_data 0%nat trial_dict ["adverse_effects"] trial_heap) !! 6%nat
    = Some out
    /\ get_column out "record_id" = Some ids
    /\ In (VNum 5) (cells ids) /\ In (VNum 15) (cells ids) /\ In (VNum 25) (cells ids)
    /\ forall v, In v (cells ids) -> v = VNum 5 \/ v = VNum 15 \/ v = VNum 25.
Proof.
  edestruct (clean_subjects_data_keeps_rows trial_display_terms trial_display_terms
               [trial_subjects_raw; trial_screening_sites] trial_heap)
    as (out & prov & Hout & _ & Hrange & Hcover & Hcols & _).
  - vm_compute. reflexivity.
  - instantiate (2 := 0%nat). vm_compute. reflexivity.
  - instantiate (2 := ["adverse_effects"]). vm_compute. reflexivity.
  - unfold rectangular. repeat constructor.
  - intros G [<-|[<-|[<-|[]]]]; vm_compute; reflexivity.
  - vm_compute. reflexivity.
  - specialize (Hcols "record_id" (mkSeries int64 [VNum 5; VNum 15; VNum 25]) eq_refl).
    exists out. eexists. split; [exact Hout|]. split; [exact Hcols|]. simpl cells.
    assert (Hin : forall r v, (r < 3)%nat -> nth r [VNum 5; VNum 15; VNum 25] VNaN = v ->
                    In v (map (fun p => nth p [VNum 5; VNum 15; VNum 25] VNaN) prov)).
    { intros r v Hr <-. apply in_map_iff. exists r. split; [reflexivity|].
      apply Hcover. exact Hr. }
    split; [apply (Hin 0%nat); [lia|reflexivity]|].
    split; [apply (Hin 1%nat); [lia|reflexivity]|].
    split; [apply (Hin 2%nat); [lia|reflexivity]|].
    intros v Hv. apply in_map_iff in Hv as (p & <- & Hp).
    rewrite List.Forall_forall in Hrange. specialize (Hrange p Hp).
    destruct p as [|[|[|p]]]; simpl; auto. simpl in Hrange. lia.
Defined.

(* ------------------------------------------------------------------------- *)
(** ** The minutes of an interval *)
(* ------------------------------------------------------------------------- *)

Lemma minutes_of_days (t k : Z) : minutes_of (t + k * ns_per_day) = minutes_of t.
Proof.
  unfold minutes_of, hours_component, minutes_component.
  rewrite Z_mod_plus_full.
  replace (t + k * ns_per_day) with (t + (k * 24) * ns_per_hour)
    by (unfold ns_per_day; ring).
  rewrite Z_mod_plus_full. reflexivity.
Qed.

Lemma minutes_of_range (t : Z) : 0 <= minutes_of t < 1440.
Proof.
  unfold minutes_of, hours_component, minutes_component.
  assert (Hh : 0 <= (t mod ns_per_day) / ns_per_hour < 24).
  { pose proof (Z.mod_pos_bound t ns_per_day ltac:(reflexivity)) as Hb.
    split.
    - apply Z.div_pos; [lia|reflexivity].
    - apply Z.div_lt_upper_bound; [reflexivity|].
      change (ns_per_hour * 24) with ns_per_day. lia. }
  assert (Hm : 0 <= (t mod ns_per_hour) / ns_per_minute < 60).
  { pose proof (Z.mod_pos_bound t ns_per_hour ltac:(reflexivity)) as Hb.
    split.
    - apply Z.div_pos; [lia|reflexivity].
    - apply Z.div_lt_upper_bound; [reflexivity|].
      change (ns_per_minute * 60) with ns_per_hour. lia. }
  lia.
Qed.

(** The minutes that [clean_blooddata] derives from an interval are the
    hours and minutes components only: they lie between 0 and 1439, and whole
    days do not count.  So the flag [time_values_check] of a record is the
    same when its centrifuge or freezer time is moved by whole days, and an
    interval of [m] minutes before the blood draw counts as [1440 - m]
    minutes. *)
Theorem time_values_check_ignores_days (t_draw t_centrifuge t_freezer kc kf : Z) :
  times_in_order
    (whole_minutes (VDelta (t_centrifuge + kc * ns_per_day - t_draw)))
    (whole_minutes (VDelta (t_freezer + kf * ns_per_day - t_draw)))
  = times_in_order
      (whole_minutes (VDelta (t_centrifuge - t_draw)))
      (whole_minutes (VDelta (t_freezer - t_draw)))
  /\ 0 <= minutes_of (t_freezer - t_draw) < 1440
  /\ forall m, 0 < m <= 1440 -> minutes_of (- (m * ns_per_minute)) = 1440 - m.
Proof.
  split; [|split].
  - simpl.
    replace (t_centrifuge + kc * ns_per_day - t_draw)
      with (t_centrifuge - t_draw + kc * ns_per_day) by ring.
    replace (t_freezer + kf * ns_per_day - t_draw)
      with (t_freezer - t_draw + kf * ns_per_day) by ring.
    rewrite !minutes_of_days. reflexivity.
  - apply minutes_of_range.
  - intros m Hm.
    replace (- (m * ns_per_minute)) with ((1440 - m) * ns_per_minute + (-1) * ns_per_day)
      by (unfold ns_per_day, ns_per_hour; ring).
    rewrite minutes_of_days.
    unfold minutes_of, hours_component, minutes_component.
    assert (Hsmall : 0 <= (1440 - m) * ns_per_minute < ns_per_day).
    { unfold ns_per_day, ns_per_hour, ns_per_minute. lia. }
    rewrite (Z.mod_small _ ns_per_day) by exact Hsmall.
    set (x := 1440 - m) in *.
    assert (Hx : 0 <= x < 1440) by lia.
    replace (x * ns_per_minute / ns_per_hour) with (x / 60).
    2:{ unfold ns_per_hour.
        rewrite Z.div_mul_cancel_r; [reflexivity|discriminate|discriminate]. }
    replace ((x * ns_per_minute) mod ns_per_hour / ns_per_minute) with (x mod 60).
    2:{ unfold ns_per_hour. rewrite Z.mul_mod_distr_r by discriminate.
        rewrite Z.div_mul by discriminate. reflexivity. }
    pose proof (Z.div_mod x 60 ltac:(discriminate)). lia.
Qed.

(** Witness: a freezer time of one day and ten minutes after the draw, with
    a centrifuge time of five minutes, passes the check; one minute before
    the draw counts as 1439 minutes. *)
Lemma time_values_check_ignores_days_example :
  times_in_order
    (whole_minutes (VDelta (5 * ns_per_minute + 0 * ns_per_day - 0)))
    (whole_minutes (VDelta (10 * ns_per_minute + 1 * ns_per_day - 0)))
  = VBool true
  /\ minutes_of (- (1 * ns_per_minute)) = 1439.
Proof.
  destruct (time_values_check_ignores_days 0 (5 * ns_per_minute) (10 * ns_per_minute) 0 1)
    as (Hflag & _ & Hbefore).
  split; [rewrite Hflag; reflexivity|]. apply (Hbefore 1). lia.
Defined.

(* ------------------------------------------------------------------------- *)
(** ** What the fetchers return *)
(* ------------------------------------------------------------------------- *)

Ltac combined_records :=
  try match goal with
      | H : rbind ?c _ = Ok _ |- _ =>
          destruct c; simpl in H; [injection H as <-|discriminate H]
      end.

Ltac fetch_split :=
  repeat match goal with
         | |- context [match ?x with _ => _ end] =>
             lazymatch x with
             | context [match _ with _ => _ end] => fail
             | _ => destruct x eqn:?
             end
         | |- context [if ?b then _ else _] =>
             lazymatch b with
             | context [if _ then _ else _] => fail
             | context [match _ with _ => _ end] => fail
             | _ => destruct b eqn:?
             end
         end.

(** [get_api_subjects] never returns the mapping with a date and never
    returns [None]: what it returns is the list of the records, a failure
    marker for one of its two resources, ['step fail': '2'] when the
    combination raises, or the status of the outer handler.  The time read at
    its start is not part of what it returns.  When both resources answer 200
    with a JSON body, the result is the list of the records of
    [combine_mcc_json] on the two bodies under the keys '1' and '2'. *)
Theorem get_api_subjects_returns (net : remote) (now : Z) (api_root : string) :
  (forall date data, fst (get_api_subjects net now api_root) <> Ok (Dated date data))
  /\ fst (get_api_subjects net now api_root) <> Ok PyNone
  /\ (forall now', get_api_subjects net now' api_root = get_api_subjects net now api_root)
  /\ (forall r1 r2 b1 b2 subjects_raw,
        net (url api_root "subjects" "subjects-1-latest.json") = Some r1 ->
        net (url api_root "subjects" "subjects-2-latest.json") = Some r2 ->
        status_code r1 = 200 -> status_code r2 = 200 ->
        json_body r1 = Some b1 -> json_body r2 = Some b2 ->
        combine_mcc_json [("1", b1); ("2", b2)] = Ok subjects_raw ->
        fst (get_api_subjects net now api_root) = Ok (Records (to_records subjects_raw))).
Proof.
  split; [|split; [|split]].
  - intros date data. unfold get_api_subjects, or_else. cbv zeta.
    fetch_split; combined_records; simpl; discriminate.
  - unfold get_api_subjects, or_else. cbv zeta.
    fetch_split; combined_records; simpl; discriminate.
  - intros now'. reflexivity.
  - intros r1 r2 b1 b2 subjects_raw Hn1 Hn2 Hs1 Hs2 Hb1 Hb2 Hcombine.
    unfold get_api_subjects. cbv zeta.
    change (api_dict "subjects" "subjects1") with "subjects-1-latest.json".
    change (api_dict "subjects" "subjects2") with "subjects-2-latest.json".
    rewrite Hn1, Hs1, Hb1, Hn2, Hs2, Hb2, Hcombine. reflexivity.
Qed.

(** Witness: both centers answer with the subject 5; the result is the list
    of the two records, tagged with their centers. *)
Lemma get_api_subjects_returns_example :
  fst (get_api_subjects remote_one_subject 0 "https://api.a2cps.org")
  = Ok (Records [[("index", VStr "5"); ("main_record_id", VStr "a5"); ("mcc", VStr "1")];
                 [("index", VStr "5"); ("main_record_id", VStr "a5"); ("mcc", VStr "2")]]).
Proof.
  destruct (get_api_subjects_returns remote_one_subject 0 "https://api.a2cps.org")
    as (_ & _ & _ & Hrecords).
  eassert (Hcombine : combine_mcc_json
                        [("1", VDict [("5", VDict [("main_record_id", VStr "a5")])]);
                         ("2", VDict [("5", VDict [("main_record_id", VStr "a5")])])]
                      = Ok _) by (vm_compute; reflexivity).
  rewrite (Hrecords
             (mkResponse 200 (Some (VDict [("5", VDict [("main_record_id", VStr "a5")])]))
                         (Some [("site", mkSeries object [VStr "UI"])]))
             (mkResponse 200 (Some (VDict [("5", VDict [("main_record_id", VStr "a5")])]))
                         (Some [("site", mkSeries object [VStr "UI"])]))
             _ _ _ eq_refl eq_refl eq_refl eq_refl eq_refl eq_refl Hcombine).
  vm_compute. reflexivity.
Defined.

(** [get_api_imaging] returns the mapping with a date exactly when both of
    its resources answer 200 with a body that parses as CSV; the date is the
    time read before the first request, and the data are the records of the
    two tables under the names 'imaging' and 'qc'. *)
Theorem get_api_imaging_dated (net : remote) (now : Z) (api_root : string)
    (date : pyobject) (data : list (string * list record)) :
  fst (get_api_imaging net now api_root) = Ok (Dated date data)
  <-> exists r1 r2 imaging qc,
        net (url api_root "imaging" "imaging-log-latest.csv") = Some r1
        /\ net (url api_root "imaging" "qc-log-latest.csv") = Some r2
        /\ status_code r1 = 200 /\ status_code r2 = 200
        /\ csv_body r1 = Some imaging /\ csv_body r2 = Some qc
        /\ date = Timestamp now
        /\ data = [("imaging", to_records imaging); ("qc", to_records qc)].
Proof.
  unfold get_api_imaging. cbv zeta.
  change (api_dict "imaging" "imaging") with "imaging-log-latest.csv".
  change (api_dict "imaging" "qc") with "qc-log-latest.csv".
  split.
  - destruct (net (url api_root "imaging" "imaging-log-latest.csv")) as [r1|] eqn:Hn1;
      [|discriminate].
    destruct (Z.eqb_spec (status_code r1) 200) as [Hs1|]; [|discriminate].
    destruct (csv_body r1) as [imaging|] eqn:Himaging; [|discriminate].
    destruct (net (url api_root "imaging" "qc-log-latest.csv")) as [r2|] eqn:Hn2;
      [|discriminate].
    destruct (Z.eqb_spec (status_code r2) 200) as [Hs2|]; [|discriminate].
    destruct (csv_body r2) as [qc|] eqn:Hqc; [|discriminate].
    simpl. intros [= <- <-]. exists r1, r2, imaging, qc.
    repeat split; solve [reflexivity | assumption].
  - intros (r1 & r2 & imaging & qc & Hn1 & Hn2 & Hs1 & Hs2 & Hi & Hq & -> & ->).
    rewrite Hn1, Hs1, Hi, Hn2, Hs2, Hq. reflexivity.
Qed.

(** Witness: both imaging resources answer with a table of one row. *)
Lemma get_api_imaging_dated_example :
  fst (get_api_imaging remote_one_subject 7 "https://api.a2cps.org")
  = Ok (Dated (Timestamp 7)
          [("imaging", [[("site", VStr "UI")]]); ("qc", [[("site", VStr "UI")]])]).
Proof.
  apply (get_api_imaging_dated remote_one_subject 7 "https://api.a2cps.org").
  eexists _, _, _, _. repeat split; reflexivity.
Defined.

(* ------------------------------------------------------------------------- *)
(** ** Screening sites whose ranges overlap *)
(* ------------------------------------------------------------------------- *)

Lemma flat_map_ext_In {A B} (f g : A -> list B) (l : list A) :
  (forall a, In a l -> f a = g a) -> flat_map f l = flat_map g l.
Proof.
  induction l as [|a l IH]; intros Hfg; simpl; [reflexivity|].
  rewrite (Hfg a) by (left; reflexivity). f_equal. apply IH. intros b Hb. apply Hfg. right. exact Hb.
Qed.

Lemma flat_map_nested {A B C} (f : B -> list C) (g : A -> list B) (l : list A) :
  flat_map f (flat_map g l) = flat_map (fun a => flat_map f (g a)) l.
Proof.
  induction l as [|a l IH]; simpl; [reflexivity|]. rewrite flat_map_app, IH. reflexivity.
Qed.

(** The records of a left join, pair of rows by pair of rows. *)
Lemma left_join_from_records {R : Type} (make : value * value -> option nat -> R)
    (rows : list (value * value)) (rk : list value) :
  forall n,
    map (fun p => make (nth (fst p - n) rows (VNaN, VNaN)) (snd p))
        (left_join_from n (map fst rows) rk)
    = flat_map (fun row => match matches_from 0 (fst row) rk with
                           | [] => [make row None]
                           | js => map (fun j => make row (Some j)) js
                           end) rows.
Proof.
  induction rows as [|row rows IH]; intros n; [reflexivity|].
  cbn [map flat_map left_join_from]. rewrite map_app. f_equal.
  - destruct (matches_from 0 (fst row) rk) as [|j js].
    + cbn [map fst snd]. rewrite Nat.sub_diag. reflexivity.
    + cbn [map fst snd]. rewrite Nat.sub_diag. f_equal.
      rewrite map_map. apply map_ext. intros k. cbn [fst snd].
      rewrite Nat.sub_diag. reflexivity.
  - etransitivity; [|apply (IH (S n))]. apply map_ext_in. intros [l o] Hin.
    apply left_join_from_In in Hin as (i & -> & _). cbn [fst snd].
    replace (S n + i - n)%nat with (S i) by lia.
    replace (S n + i - S n)%nat with i by lia. reflexivity.
Qed.

Lemma matches_rows_with_id (z : Z) (ids : list value) :
  Forall number_or_missing ids ->
  matches_from 0 (VNum z) ids = rows_with_id z ids.
Proof.
  intros Hids. rewrite <- (positions_from_matches (fun v => key_eqb (VNum z) v)) by reflexivity.
  rewrite positions_from_filter. unfold rows_with_id. apply filter_ext_in.
  intros j Hj. apply in_seq in Hj. rewrite Nat.sub_0_r.
  rewrite List.Forall_forall in Hids.
  destruct (Hids (nth j ids VNaN)) as [->|[y ->]]; [apply nth_In; lia|reflexivity|].
  reflexivity.
Qed.

Section OverlappingRanges.
Context `{Pandas} `{Sqlite}.

(** [add_screening_site] does not ask the ranges to be disjoint, nor the ids
    to be distinct.  Its result is, record for record and in this order: for
    each row of the subjects with a numeric id, for each range that holds the
    id, one record for every row of the subjects that bears this id.  So a
    subject whose id is borne by no other row has exactly one row for each
    range that holds its id, with the site of that range, and a subject
    whose id lies in no range (or is missing) has none. *)
Theorem add_screening_site_fans_out (rs : list site_range) (df : DataFrame)
    (id_col : string) (ids : Series) :
  get_column df id_col = Some ids ->
  is_number_dtype (s_dtype ids) = true ->
  Forall number_or_missing (cells ids) ->
  cells ids <> [] ->
  has_column df "screening_site" = false ->
  has_column (ranges_table rs) id_col = false ->
  unquoted_name_ok id_col = true ->
  exists out,
    add_screening_site (ranges_table rs) df id_col = Ok out
    /\ to_records out = records_with_sites rs df id_col (cells ids).
Proof.
  intros Hids Hnum Hcells Hne Hsite Hamb Hname.
  destruct (add_screening_site_records rs df id_col ids) as (out & Hout & Hrec);
    try assumption.
  cbv zeta in Hrec. exists out. split; [exact Hout|]. rewrite Hrec. clear Hrec Hout.
  set (rows := range_join (cells ids) _).
  set (make := fun (row : value * value) (o : option nat) =>
                 (id_col, fst row) :: ("screening_site", snd row)
                 :: map (fun c : string * Series =>
                           (fst c, match o with
                                   | Some k => nth k (cells (snd c)) VNaN
                                   | None => VNaN
                                   end))
                        (other_columns df id_col)).
  unfold left_join.
  transitivity (map (fun p : nat * option nat =>
                       make (nth (fst p - 0) rows (VNaN, VNaN)) (snd p))
                    (left_join_from 0 (map fst rows) (cells ids))).
  { apply map_ext. intros [l o]. unfold make. simpl fst. simpl snd.
    rewrite Nat.sub_0_r.
    change VNaN with (fst (VNaN, VNaN)) at 1. rewrite map_nth.
    change (nth l (map snd rows) VNaN)
      with (nth l (map snd rows) (snd (VNaN, VNaN))). rewrite map_nth. reflexivity. }
  rewrite left_join_from_records.
  unfold rows, range_join, records_with_sites. rewrite flat_map_nested.
  apply flat_map_ext_In. intros x Hx.
  match goal with
  | |- context [zip3 ?a ?b ?c] =>
      assert (Hzip : zip3 a b c
                     = map (fun r : site_range =>
                              (VNum (fst (fst r)), VNum (snd (fst r)), VStr (snd r))) rs)
  end.
  { clear. induction rs as [|r rs IH]; simpl; [reflexivity|]. f_equal. exact IH. }
  rewrite Hzip. rewrite List.Forall_forall in Hcells.
  destruct (Hcells x Hx) as [->|[z ->]].
  - clear. induction rs as [|r rs IH]; simpl; [reflexivity|]. exact IH.
  - rewrite flat_map_nested. rewrite flat_map_concat_map, map_map, <- flat_map_concat_map.
    apply flat_map_ext. intros r. simpl sql_value.
    rewrite sql_between_num. fold (in_rangeb z r).
    destruct (in_rangeb z r); [|reflexivity]. simpl flat_map. rewrite app_nil_r.
    simpl fst. rewrite matches_rows_with_id by (apply List.Forall_forall, Hcells).
    assert (Hsome : rows_with_id z (cells ids) <> []).
    { rewrite <- matches_rows_with_id by (apply List.Forall_forall, Hcells).
      apply (In_nth _ _ VNaN) in Hx as (k & Hk & Hnth). intros Hnil.
      assert (Hin : In (0 + k)%nat (matches_from 0 (VNum z) (cells ids))).
      { apply matches_from_In. exists k. split; [reflexivity|]. split; [exact Hk|].
        rewrite Hnth. apply key_eqb_num. }
      rewrite Hnil in Hin. contradiction. }
    destruct (rows_with_id z (cells ids)) as [|j js] eqn:Hjs; [contradiction|].
    reflexivity.
Qed.

End OverlappingRanges.

(** Witness: with the ranges [1,10] -> "A" and [5,20] -> "B", the subject 5
    has two rows, one of the site "A" and one of the site "B", the subject
    15 has one and the subject 25 none. *)
Lemma add_screening_site_fans_out_example :
  exists out,
    add_screening_site (ranges_table overlapping_ranges) three_subjects "record_id" = Ok out
    /\ to_records out
       = [[("record_id", VNum 5); ("screening_site", VStr "A");
           ("main_record_id", VStr "a5")];
          [("record_id", VNum 5); ("screening_site", VStr "B");
           ("main_record_id", VStr "a5")];
          [("record_id", VNum 15); ("screening_site", VStr "B");
           ("main_record_id", VStr "a15")]].
Proof.
  destruct (add_screening_site_fans_out overlapping_ranges three_subjects "record_id"
              (mkSeries int64 [VNum 5; VNum 15; VNum 25]))
    as (out & Hout & Hrec); try reflexivity; try discriminate.
  - repeat (match goal with |- Forall _ _ => constructor end); right; eexists; reflexivity.
  - exists out. split; [exact Hout|]. rewrite Hrec. vm_compute. reflexivity.
Defined.

(* ------------------------------------------------------------------------- *)
(** ** The deviation reasons of the blood table *)
(* ------------------------------------------------------------------------- *)



Lemma has_column_set_column (d : DataFrame) (c c' : string) (s : Series) :
  has_column (set_column d c s) c' = has_column d c' || String.eqb c' c.
Proof.
  rewrite !has_column_get, get_column_set_column.
  destruct (String.eqb c' c); [rewrite orb_true_r; reflexivity|].
  rewrite orb_false_r. reflexivity.
Qed.


Section DeviationReason.
Context `{Pandas}.




End DeviationReason.


(* ------------------------------------------------------------------------- *)
(** ** Unnesting a column of dictionaries *)
(* ------------------------------------------------------------------------- *)

Lemma select_columns_get (df sel : DataFrame) (cs : list string) :
  select_columns df cs = Ok sel ->
  columns sel = cs
  /\ forall c, In c cs -> get_column sel c = get_column df c /\ has_column df c = true.
Proof.
  revert sel. induction cs as [|c cs IH]; intros sel; simpl.
  - intros [= <-]. split; [reflexivity|]. intros c [].
  - unfold getitem. destruct (get_column df c) as [s|] eqn:Hc; [|discriminate]. simpl.
    destruct (select_columns df cs) as [rest|]; [|discriminate]. simpl.
    intros [= <-]. destruct (IH rest eq_refl) as [Hcols Hget].
    split; [simpl; f_equal; exact Hcols|].
    intros c' Hc'. simpl. destruct (String.eqb_spec c' c) as [->|Hne].
    + split; [symmetry; exact Hc|]. rewrite has_column_get, Hc. reflexivity.
    + destruct Hc' as [Heq|Hin]; [congruence|]. apply Hget, Hin.
Qed.

Lemma mapM_all {A B} (f : A -> result B) (l : list A) (l' : list B) :
  mapM f l = Ok l' -> forall a, In a l -> exists b, f a = Ok b.
Proof.
  revert l'. induction l as [|x l IH]; intros l'; simpl; [intros _ a []|].
  destruct (f x) as [b|] eqn:Hx; [|discriminate]. simpl.
  destruct (mapM f l) as [bs|]; [|discriminate]. simpl.
  intros _ a [<-|Ha]; [eauto|]. eapply IH; [reflexivity|exact Ha].
Qed.

(* ------------------------------------------------------------------------- *)
(** ** Combining the subjects of the centers *)
(* ------------------------------------------------------------------------- *)

Lemma nodup_strings_filter (f : string -> bool) (l : list string) :
  nodup_strings l = true -> nodup_strings (List.filter f l) = true.
Proof.
  induction l as [|a l IH]; simpl; [reflexivity|].
  intros Hl. apply andb_true_iff in Hl as [Ha Hl].
  destruct (f a); [|apply IH, Hl]. simpl. rewrite (IH Hl), andb_true_r.
  apply negb_true_iff. apply negb_true_iff in Ha.
  destruct (existsb (String.eqb a) (List.filter f l)) eqn:Hex; [|reflexivity].
  apply existsb_exists in Hex as (x & Hx & Hax). apply filter_In in Hx as [Hx _].
  rewrite <- Ha. symmetry. apply existsb_exists. eauto.
Qed.

Lemma nodup_strings_dedup (l : list string) :
  nodup_strings (dedup_by String.eqb l) = true.
Proof.
  induction l as [|a l IH]; simpl; [reflexivity|].
  rewrite (nodup_strings_filter _ _ IH), andb_true_r. apply negb_true_iff.
  destruct (existsb _ _) eqn:Hex; [|reflexivity].
  apply existsb_exists in Hex as (x & Hx & Hax). apply filter_In in Hx as [_ Hx].
  rewrite Hax in Hx. discriminate.
Qed.

Lemma nodup_strings_app (l1 l2 : list string) :
  nodup_strings l1 = true -> nodup_strings l2 = true ->
  (forall x, In x l2 -> existsb (String.eqb x) l1 = false) ->
  nodup_strings (l1 ++ l2) = true.
Proof.
  intros H1 H2 Hd. induction l1 as [|a l1 IH]; simpl; [exact H2|].
  simpl in H1. apply andb_true_iff in H1 as [Ha H1].
  rewrite IH; [|exact H1|].
  - rewrite andb_true_r. apply negb_true_iff. apply negb_true_iff in Ha.
    rewrite existsb_app, Ha. simpl.
    destruct (existsb (String.eqb a) l2) eqn:Hex; [|reflexivity].
    apply existsb_exists in Hex as (x & Hx & Hax). apply String.eqb_eq in Hax. subst x.
    specialize (Hd a Hx). simpl in Hd. rewrite String.eqb_refl in Hd. discriminate.
  - intros x Hx. specialize (Hd x Hx). simpl in Hd.
    apply orb_false_iff in Hd as [_ Hd]. exact Hd.
Qed.

Lemma nodup_strings_set_column (d : DataFrame) (c : string) (s : Series) :
  nodup_strings (columns d) = true -> nodup_strings (columns (set_column d c s)) = true.
Proof.
  induction d as [|[n s'] d IH]; simpl; [reflexivity|].
  intros Hd. apply andb_true_iff in Hd as [Hn Hd].
  destruct (String.eqb_spec c n) as [->|Hne]; simpl.
  - rewrite Hn, Hd. reflexivity.
  - rewrite (IH Hd), andb_true_r.
    fold (columns d) in Hn. fold (columns (set_column d c s)).
    fold (has_column d n) in Hn. fold (has_column (set_column d c s) n).
    rewrite has_column_set_column. apply negb_true_iff in Hn. rewrite Hn. simpl.
    destruct (String.eqb_spec n c); [congruence|reflexivity].
Qed.

Lemma rectangular_set_column (n : nat) (d : DataFrame) (c : string) (s : Series) :
  rectangular n d -> length (cells s) = n -> rectangular n (set_column d c s).
Proof.
  unfold rectangular. intros Hd Hs. induction d as [|[n' s'] d IH]; simpl.
  - constructor; [exact Hs|constructor].
  - inversion Hd as [|? ? Hhead Htail]; subst.
    destruct (String.eqb c n'); constructor; auto.
Qed.

Lemma nrows_set_column (d : DataFrame) (c : string) (s : Series) :
  d <> [] -> length (cells s) = nrows d -> nrows (set_column d c s) = nrows d.
Proof.
  destruct d as [|[n s'] d]; [congruence|]. intros _ Hs. simpl.
  destruct (String.eqb c n); [exact Hs|reflexivity].
Qed.

Lemma get_column_named (f : string -> Series) (names : list string) (c : string) :
  get_column (map (fun c => (c, f c)) names) c
  = if existsb (String.eqb c) names then Some (f c) else None.
Proof.
  induction names as [|n names IH]; simpl; [reflexivity|].
  destruct (String.eqb_spec c n) as [->|Hne]; [reflexivity|]. exact IH.
Qed.

Lemma columns_named (f : string -> Series) (names : list string) :
  columns (map (fun c => (c, f c)) names) = names.
Proof. unfold columns. rewrite map_map. apply map_id. Qed.

Lemma column_cells_length (df : DataFrame) (c : string) :
  rectangular (nrows df) df -> has_column df c = true ->
  length (column_cells c df) = nrows df.
Proof.
  intros Hr Hc. unfold column_cells. rewrite has_column_get in Hc.
  destruct (get_column df c) as [s|] eqn:Hs; [|discriminate].
  exact (rectangular_get _ _ _ _ Hr Hs).
Qed.

Lemma center_table_well_formed (mcc : string) (v : value) (t : DataFrame) :
  center_table mcc v = Ok t ->
  well_formed t /\ column_cells "mcc" t = repeat (VStr mcc) (nrows t).
Proof.
  unfold center_table, from_dict_reset.
  destruct (as_records v) as [data|]; [|discriminate]. cbn [rbind].
  unfold from_dict_index.
  set (labels := row_keys String.eqb data).
  set (df0 := map (fun c => (c, infer_series (map (fun k => cell_of String.eqb data k c) labels)))
                  (field_names data)).
  assert (Hrect0 : rectangular (length labels) df0).
  { unfold rectangular, df0. apply List.Forall_forall. intros p Hp.
    apply in_map_iff in Hp as (c & <- & _). simpl.
    rewrite cells_infer_series, length_map. reflexivity. }
  assert (Hnodup0 : nodup_strings (columns df0) = true).
  { unfold df0. rewrite (columns_named
      (fun c => infer_series (map (fun k => cell_of String.eqb data k c) labels))).
    apply nodup_strings_dedup. }
  assert (Hreset : forall name,
             has_column df0 name = false ->
             let d := (name, infer_series (map VStr labels)) :: df0 in
             let t := set_column d "mcc" (constant_series (nrows d) (VStr mcc)) in
             well_formed t /\ column_cells "mcc" t = repeat (VStr mcc) (nrows t)).
  { intros name Hname d t'.
    assert (Hn : nrows d = length labels)
      by (unfold d; simpl; rewrite cells_infer_series, length_map; reflexivity).
    assert (Hlen : length (cells (constant_series (nrows d) (VStr mcc))) = nrows d)
      by (unfold constant_series; rewrite cells_infer_series, repeat_length; reflexivity).
    assert (Hrows : nrows t' = nrows d)
      by (apply nrows_set_column; [discriminate|exact Hlen]).
    split; [split; [|split]|].
    - unfold t', d. simpl. destruct (String.eqb "mcc" name); discriminate.
    - apply nodup_strings_set_column. unfold d. simpl.
      fold (columns df0). fold (has_column df0 name). rewrite Hname, Hnodup0. reflexivity.
    - rewrite Hrows. apply rectangular_set_column; [|exact Hlen].
      rewrite Hn. constructor; [|exact Hrect0].
      simpl. rewrite cells_infer_series, length_map. reflexivity.
    - unfold column_cells. unfold t' at 1.
      rewrite get_column_set_column, String.eqb_refl, Hrows.
      unfold constant_series. apply cells_infer_series. }
  unfold reset_index.
  destruct (has_column df0 "index") eqn:Hindex; cbn [negb].
  - destruct (has_column df0 "level_0") eqn:Hlevel; cbn [negb rbind]; [discriminate|].
    intros [= <-]. exact (Hreset "level_0" Hlevel).
  - cbn [rbind]. intros [= <-]. exact (Hreset "index" Hindex).
Qed.

Lemma concat_rows_well_formed (a b : DataFrame) :
  well_formed a -> well_formed b ->
  exists out,
    concat_rows a b = Ok out
    /\ well_formed out
    /\ nrows out = (nrows a + nrows b)%nat
    /\ forall c, has_column a c = true -> has_column b c = true ->
         exists s, get_column out c = Some s
                   /\ cells s = column_cells c a ++ column_cells c b.
Proof.
  intros (Ha & Hna & Hra) (Hb & Hnb & Hrb). unfold concat_rows.
  destruct a as [|[a0 sa0] a']; [congruence|]. destruct b as [|[b0 sb0] b']; [congruence|].
  set (a := (a0, sa0) :: a') in *. set (b := (b0, sb0) :: b') in *.
  rewrite Hna, Hnb. cbn [andb negb]. cbv zeta.
  set (part := fun (df : DataFrame) (n : nat) (c : string) =>
                 match get_column df c with
                 | Some s => s
                 | None => mkSeries float64 (repeat VNaN n)
                 end).
  set (names := columns a ++ List.filter (fun c => negb (has_column a c)) (columns b)).
  set (col := fun c : string =>
                mkSeries
                  match get_column a c, get_column b c with
                  | Some x, Some y => common_dtype (s_dtype x) (s_dtype y)
                  | Some x, None => upcast_missing (s_dtype x)
                  | None, Some y => upcast_missing (s_dtype y)
                  | None, None => object
                  end
                  (cells (part a (nrows a) c) ++ cells (part b (nrows b) c))).
  assert (Hpart : forall df c, rectangular (nrows df) df ->
                               length (cells (part df (nrows df) c)) = nrows df).
  { intros df c Hr. unfold part. destruct (get_column df c) as [s|] eqn:Hs.
    - exact (rectangular_get _ _ _ _ Hr Hs).
    - simpl. apply repeat_length. }
  assert (Hrows : nrows (map (fun c => (c, col c)) names) = (nrows a + nrows b)%nat).
  { unfold names, a at 1. simpl. rewrite length_app, !Hpart by assumption. reflexivity. }
  exists (map (fun c => (c, col c)) names). split; [reflexivity|].
  split; [split; [|split]|split].
  - unfold names, a. simpl. discriminate.
  - rewrite (columns_named col). unfold names. apply nodup_strings_app.
    + exact Hna.
    + apply nodup_strings_filter, Hnb.
    + intros x Hx. apply filter_In in Hx as [_ Hx]. apply negb_true_iff in Hx. exact Hx.
  - rewrite Hrows. unfold rectangular. apply List.Forall_forall. intros p Hp.
    apply in_map_iff in Hp as (c & <- & _). simpl.
    rewrite length_app, !Hpart by assumption. reflexivity.
  - exact Hrows.
  - intros c Hca Hcb. rewrite (get_column_named col).
    assert (Hin : existsb (String.eqb c) names = true).
    { unfold names. rewrite existsb_app. fold (has_column a c). rewrite Hca. reflexivity. }
    rewrite Hin. eexists. split; [reflexivity|]. simpl.
    unfold part, column_cells. rewrite has_column_get in Hca, Hcb.
    destruct (get_column a c); [|discriminate]. destruct (get_column b c); [|discriminate].
    reflexivity.
Qed.

Lemma center_table_has_mcc (mcc : string) (v : value) (t : DataFrame) :
  center_table mcc v = Ok t -> has_column t "mcc" = true.
Proof.
  unfold center_table. destruct (from_dict_reset v) as [d|]; [|discriminate].
  cbn [rbind]. intros [= <-]. rewrite has_column_set_column, String.eqb_refl.
  apply orb_true_r.
Qed.

Lemma combine_mcc_json_from_stacks (rest : list (string * value)) (tables : list DataFrame) :
  Forall2 (fun p t => center_table (fst p) (snd p) = Ok t) rest tables ->
  forall (df : DataFrame) (done : list DataFrame),
    stacks done df ->
    exists out, combine_mcc_json_from df rest = Ok out /\ stacks (done ++ tables) out.
Proof.
  induction 1 as [|[mcc v] t rest tables Ht Hrest IH]; intros df done Hdf.
  - exists df. rewrite app_nil_r. split; [reflexivity|exact Hdf].
  - simpl in Ht. destruct (center_table_well_formed _ _ _ Ht) as [Hwf _].
    assert (Hstep : exists df',
               (let* mcc_data := from_dict_reset v in
                let mcc_data :=
                  set_column mcc_data "mcc" (constant_series (nrows mcc_data) (VStr mcc)) in
                if df_empty df then Ok mcc_data else concat_rows df mcc_data) = Ok df'
               /\ stacks (done ++ [t]) df').
    { unfold center_table in Ht. destruct (from_dict_reset v) as [d|]; [|discriminate].
      cbn [rbind] in Ht |- *. injection Ht as Ht. cbv zeta. rewrite Ht.
      destruct Hdf as (Hrows & Hnone & Hsome).
      assert (Hsum : list_sum (map nrows (done ++ [t]))
                     = (list_sum (map nrows done) + nrows t)%nat)
        by (rewrite map_app, list_sum_app; simpl; lia).
      assert (Hlast : forall c, flat_map (column_cells c) (done ++ [t])
                                = flat_map (column_cells c) done ++ column_cells c t)
        by (intros c; rewrite flat_map_app; simpl; rewrite app_nil_r; reflexivity).
      destruct (df_empty df) eqn:Hempty.
      - exists t. split; [reflexivity|].
        assert (H0 : nrows df = 0%nat).
        { unfold df_empty in Hempty. apply orb_true_iff in Hempty as [He|He].
          - destruct df; [reflexivity|discriminate].
          - apply Nat.eqb_eq, He. }
        split; [rewrite Hsum, <- Hrows, H0; reflexivity|].
        split; [intros Habs; destruct done; discriminate|].
        intros _. split; [exact Hwf|]. intros c Hc.
        apply Forall_app in Hc as [Hdone Hc]. apply Forall_cons in Hc as [Hc _].
        rewrite has_column_get in Hc. destruct (get_column t c) as [s|] eqn:Hs; [|discriminate].
        exists s. split; [reflexivity|]. rewrite Hlast. unfold column_cells at 2. rewrite Hs.
        destruct done as [|t0 done']; [reflexivity|].
        destruct Hsome as [(_ & _ & Hrect) Hcols]; [discriminate|].
        destruct (Hcols c Hdone) as (s' & Hs' & <-).
        pose proof (rectangular_get _ _ _ _ Hrect Hs') as Hlen. rewrite H0 in Hlen.
        destruct (cells s'); [reflexivity|discriminate].
      - assert (Hdone : done <> []).
        { intros Hnil. rewrite (Hnone Hnil) in Hempty. discriminate. }
        destruct (Hsome Hdone) as [Hwfdf Hcols].
        destruct (concat_rows_well_formed df t Hwfdf Hwf) as (out & Hout & Hwfout & Hn & Hc).
        exists out. split; [exact Hout|].
        split; [rewrite Hn, Hsum, Hrows; reflexivity|].
        split; [intros Habs; destruct done; discriminate|].
        intros _. split; [exact Hwfout|]. intros c Hall.
        apply Forall_app in Hall as [Hall Hct]. apply Forall_cons in Hct as [Hct _].
        destruct (Hcols c Hall) as (s' & Hs' & Hcells).
        destruct (Hc c) as (s & Hs & Hscells); [rewrite has_column_get, Hs'; reflexivity|exact Hct|].
        exists s. split; [exact Hs|]. rewrite Hscells, Hlast. unfold column_cells at 1.
        rewrite Hs', Hcells. reflexivity. }
    destruct Hstep as (df' & Hstep & Hdf').
    destruct (IH df' (done ++ [t]) Hdf') as (out & Hout & Hstacks).
    exists out. rewrite <- app_assoc in Hstacks. split; [|exact Hstacks].
    cbn [combine_mcc_json_from].
    destruct (from_dict_reset v) as [d|]; [|discriminate]. cbn [rbind] in Hstep |- *.
    cbv zeta in Hstep. rewrite Hstep. exact Hout.
Qed.

Lemma center_tables_mcc (mcc_json : list (string * value)) (tables : list DataFrame) :
  Forall2 (fun p t => center_table (fst p) (snd p) = Ok t) mcc_json tables ->
  Forall (fun t => has_column t "mcc" = true) tables
  /\ flat_map (column_cells "mcc") tables
     = flat_map (fun pt => repeat (VStr (fst (fst pt))) (nrows (snd pt)))
                (combine mcc_json tables).
Proof.
  induction 1 as [|[mcc v] t rest tables Ht Hrest [IHhas IHcells]]; simpl.
  - split; [constructor|reflexivity].
  - simpl in Ht. split; [constructor; [exact (center_table_has_mcc _ _ _ Ht)|exact IHhas]|].
    destruct (center_table_well_formed _ _ _ Ht) as [_ ->]. rewrite IHcells. reflexivity.
Qed.

(** [combine_mcc_json] puts the tables of the centers one under the other, in
    the order of the centers: the result has as many rows as the tables
    together, each column that every table has holds the cells of the
    tables in that order, and column mcc names on each row the center the
    row comes from. *)
Theorem combine_mcc_json_stacks (mcc_json : list (string * value)) (tables : list DataFrame) :
  Forall2 (fun p t => center_table (fst p) (snd p) = Ok t) mcc_json tables ->
  exists out,
    combine_mcc_json mcc_json = Ok out
    /\ nrows out = list_sum (map nrows tables)
    /\ (tables <> [] ->
        (forall c, Forall (fun t => has_column t c = true) tables ->
           exists s, get_column out c = Some s
                     /\ cells s = flat_map (column_cells c) tables)
        /\ exists s, get_column out "mcc" = Some s
                     /\ cells s
                        = flat_map (fun pt => repeat (VStr (fst (fst pt))) (nrows (snd pt)))
                                   (combine mcc_json tables)).
Proof.
  intros Htables.
  destruct (combine_mcc_json_from_stacks _ _ Htables [] []) as (out & Hout & Hstacks).
  { split; [reflexivity|]. split; [reflexivity|]. intros Habs. congruence. }
  exists out. split; [exact Hout|]. simpl in Hstacks.
  destruct Hstacks as (Hrows & _ & Hsome). split; [exact Hrows|].
  intros Hne. destruct (Hsome Hne) as [_ Hcols]. split; [exact Hcols|].
  destruct (center_tables_mcc _ _ Htables) as [Hhas Hcells].
  destruct (Hcols "mcc" Hhas) as (s & Hs & Hscells).
  exists s. split; [exact Hs|]. rewrite Hscells. exact Hcells.
Qed.

(** Witness: three centers, the first without subjects; the three subjects
    of the two others come back, each with its center. *)
Lemma combine_mcc_json_stacks_example :
  exists out,
    combine_mcc_json three_centers = Ok out
    /\ nrows out = 3%nat
    /\ exists s, get_column out "mcc" = Some s
                 /\ cells s = [VStr "2"; VStr "3"; VStr "3"].
Proof.
  eassert (Htables : Forall2 (fun p t => center_table (fst p) (snd p) = Ok t)
                             three_centers _).
  { unfold three_centers. repeat (econstructor; [vm_compute; reflexivity|]). constructor. }
  destruct (combine_mcc_json_stacks _ _ Htables) as (out & Hout & Hrows & Hsome).
  exists out. split; [exact Hout|]. split; [exact Hrows|].
  destruct Hsome as [_ Hmcc]; [discriminate|]. exact Hmcc.
Defined.

(* ------------------------------------------------------------------------- *)
(** ** The rows of the adverse events table *)
(* ------------------------------------------------------------------------- *)

Lemma zip4_In (a b c d : list value) (x y z w : value) :
  In ((x, y, z), w) (zip4 a b c d) ->
  exists j, a !! j = Some x /\ b !! j = Some y /\ c !! j = Some z /\ d !! j = Some w.
Proof.
  revert b c d. induction a as [|x' a IH]; intros [|y' b] [|z' c] [|w' d]; simpl;
    try contradiction.
  intros [[= -> -> -> ->]|Hin].
  - exists 0%nat. repeat split; reflexivity.
  - destruct (IH _ _ _ Hin) as (j & Hj). exists (S j). exact Hj.
Qed.

Lemma mapM_In {A B} (f : A -> result B) (l : list A) (l' : list B) (b : B) :
  mapM f l = Ok l' -> In b l' -> exists a, In a l /\ f a = Ok b.
Proof.
  intros Hm Hb. apply list_elem_of_In, list_elem_of_lookup in Hb as [j Hj].
  apply (mapM_lookup _ _ _ Hm) in Hj as (a & Ha & Hfa).
  exists a. split; [|exact Hfa]. apply list_elem_of_In, list_elem_of_lookup. eauto.
Qed.

Lemma row_keys_incl {K} (keqb : K -> K -> bool) (data : list (K * record)) (k : K) :
  In k (row_keys keqb data) -> In k (map fst data).
Proof.
  unfold row_keys. intros Hk. apply dedup_by_incl in Hk.
  apply in_flat_map in Hk as (c & _ & Hk). apply in_map_iff in Hk as (p & <- & Hp).
  apply filter_In in Hp as [Hp _]. apply in_map, Hp.
Qed.

Lemma lookup_fmap_at {A B} (f : A -> B) (l : list A) (k : nat) (a : A) (b : B) :
  l !! k = Some a -> (f <$> l) !! k = Some b -> b = f a.
Proof. intros Ha. rewrite list_lookup_fmap, Ha. intros [= <-]. reflexivity. Qed.

Lemma get_column_filter_out (p : string -> bool) (df : DataFrame) (c : string) :
  p c = false -> get_column (List.filter (fun q => p (fst q)) df) c = None.
Proof.
  intros Hc. induction df as [|[n s] df IH]; simpl; [reflexivity|].
  destruct (p n) eqn:Hn; [|exact IH]. simpl.
  destruct (String.eqb_spec c n) as [->|_]; [congruence|exact IH].
Qed.

(** When [extract_adverse_effects_data] returns a table, its first four
    columns are index, main_record_id, mcc and instance, and every row is an
    instance of a subject of the table given: the first three cells are
    those of a row of [subjects_data] whose adverse effects cell is a
    dictionary, and the instance is a key of this dictionary. *)
Theorem extract_adverse_effects_rows (subjects_data out : DataFrame)
    (adverse_effects_col : string) :
  extract_adverse_effects_data subjects_data adverse_effects_col = Ok out ->
  exists c0 c1 c2 ae i m c inst,
    get_column subjects_data "index" = Some c0
    /\ get_column subjects_data "main_record_id" = Some c1
    /\ get_column subjects_data "mcc" = Some c2
    /\ get_column subjects_data adverse_effects_col = Some ae
    /\ firstn 4 (columns out) = ["index"; "main_record_id"; "mcc"; "instance"]
    /\ get_column out "index" = Some i
    /\ get_column out "main_record_id" = Some m
    /\ get_column out "mcc" = Some c
    /\ get_column out "instance" = Some inst
    /\ (0 < nrows out)%nat
    /\ forall k vi vm vc vn,
         cells i !! k = Some vi -> cells m !! k = Some vm ->
         cells c !! k = Some vc -> cells inst !! k = Some vn ->
         exists j name insts,
           vn = VStr name
           /\ cells c0 !! j = Some vi /\ cells c1 !! j = Some vm
           /\ cells c2 !! j = Some vc /\ cells ae !! j = Some (VDict insts)
           /\ has_key name insts = true.
Proof.
  unfold extract_adverse_effects_data, getitem.
  destruct (get_column subjects_data "index") as [c0|] eqn:H0; [|discriminate].
  destruct (get_column subjects_data "main_record_id") as [c1|] eqn:H1; [|discriminate].
  destruct (get_column subjects_data "mcc") as [c2|] eqn:H2; [|discriminate].
  cbn [rbind].
  destruct (get_column (List.filter _ subjects_data) adverse_effects_col) as [ae|] eqn:Hae;
    [|discriminate].
  cbn [rbind].
  set (multi_df := List.filter (fun r => negb (isnull (snd r)))
                     (zip4 (cells c0) (cells c1) (cells c2) (cells ae))).
  destruct (negb (unique_by subject_key_eqb (map fst multi_df))); [discriminate|].
  destruct (mapM instances_of multi_df) as [nested|] eqn:Hnested; [|discriminate].
  cbn [rbind]. destruct (concat nested) as [|first entries'] eqn:Hentries; [discriminate|].
  destruct (negb (is_VDict (snd first))); [discriminate|].
  destruct (mapM fields_of (first :: entries')) as [data|] eqn:Hdata; [|discriminate].
  cbn [rbind]. unfold from_dict_index.
  set (labels := row_keys instance_key_eqb data).
  set (multi0 := replace_blank _).
  destruct labels as [|l0 labels'] eqn:Hlabels; [discriminate|]. rewrite <- Hlabels.
  destruct (has_column multi0 "level_0" || has_column multi0 "level_1"); [discriminate|].
  set (multi4 := set_column _ "instance" _).
  intros Hsel. destruct (select_columns_get _ _ _ Hsel) as [Hcols Hget].
  assert (Hae' : get_column subjects_data adverse_effects_col = Some ae).
  { destruct (negb (existsb (String.eqb adverse_effects_col)
                             ["index"; "main_record_id"; "mcc"])) eqn:Hcol.
    - rewrite <- Hae. symmetry.
      apply (get_column_filter
               (fun n => negb (existsb (String.eqb n) ["index"; "main_record_id"; "mcc"]))).
      exact Hcol.
    - rewrite (get_column_filter_out
                 (fun n => negb (existsb (String.eqb n) ["index"; "main_record_id"; "mcc"])))
        in Hae by exact Hcol.
      discriminate. }
  assert (Hlead : forall c', In c' ["index"; "main_record_id"; "mcc"; "instance"] ->
                             get_column out c' = get_column multi4 c').
  { intros c' Hc'. apply Hget. apply in_or_app. left. exact Hc'. }
  exists c0, c1, c2, ae.
  exists (infer_series (map (fun l => fst (fst (fst l))) labels)),
         (infer_series (map (fun l => snd (fst (fst l))) labels)),
         (infer_series (map (fun l => snd (fst l)) labels)),
         (infer_series (map (fun l => VStr (snd l)) labels)).
  split; [reflexivity|]. split; [reflexivity|]. split; [reflexivity|].
  split; [exact Hae'|]. split; [rewrite Hcols; reflexivity|].
  split; [rewrite Hlead by (simpl; tauto); unfold multi4;
          rewrite !get_column_set_column; reflexivity|].
  split; [rewrite Hlead by (simpl; tauto); unfold multi4;
          rewrite !get_column_set_column; reflexivity|].
  split; [rewrite Hlead by (simpl; tauto); unfold multi4;
          rewrite !get_column_set_column; reflexivity|].
  split; [rewrite Hlead by (simpl; tauto); unfold multi4;
          rewrite !get_column_set_column; reflexivity|].
  split.
  { destruct out as [|[n s] out']; [discriminate|]. simpl in Hcols.
    injection Hcols as -> _.
    assert (Hs : get_column ((("index", s) :: out') : DataFrame) "index"
                 = get_column multi4 "index") by (apply Hlead; simpl; tauto).
    simpl in Hs. rewrite ?String.eqb_refl in Hs. unfold multi4 in Hs.
    rewrite !get_column_set_column in Hs. simpl in Hs. injection Hs as ->.
    simpl. rewrite cells_infer_series, Hlabels. simpl. lia. }
  intros k vi vm vc vn. rewrite !cells_infer_series. intros Hi Hm Hc Hn.
  destruct (labels !! k) as [[[[li lm] lc] ln]|] eqn:Hk;
    [|rewrite list_lookup_fmap, Hk in Hn; discriminate].
  pose proof (lookup_fmap_at (A := subject_key * string) _ labels k _ _ Hk Hi) as Hvi.
  pose proof (lookup_fmap_at (A := subject_key * string) _ labels k _ _ Hk Hm) as Hvm.
  pose proof (lookup_fmap_at (A := subject_key * string) _ labels k _ _ Hk Hc) as Hvc.
  pose proof (lookup_fmap_at (A := subject_key * string) _ labels k _ _ Hk Hn) as Hvn.
  simpl in Hvi, Hvm, Hvc, Hvn. clear Hi Hm Hc Hn. subst vi vm vc vn.
  assert (Hin : In (li, lm, lc, ln) (map fst data)).
  { apply row_keys_incl with (keqb := instance_key_eqb).
    apply list_elem_of_In, list_elem_of_lookup. eauto. }
  apply in_map_iff in Hin as ([key r] & Hkey & Hin). simpl in Hkey. subst key.
  destruct (mapM_In _ _ _ _ Hdata Hin) as ([key v] & Hentry & Hfields).
  unfold fields_of in Hfields. simpl in Hfields.
  destruct v; try discriminate. injection Hfields as -> <-.
  rewrite <- Hentries in Hentry. apply in_concat in Hentry as (group & Hgroup & Hentry).
  destruct (mapM_In _ _ _ _ Hnested Hgroup) as ([skey cell] & Hrow & Hinsts).
  unfold instances_of in Hinsts. simpl in Hinsts.
  destruct cell as [| | | |insts| |]; try discriminate. injection Hinsts as <-.
  apply in_map_iff in Hentry as ([name v] & [= Hskey Hln Hv] & Hname).
  simpl in Hskey. subst skey ln.
  unfold multi_df in Hrow. apply filter_In in Hrow as [Hrow _].
  apply zip4_In in Hrow as (j & Hj0 & Hj1 & Hj2 & Hj3).
  exists j, name, insts. repeat split; try assumption.
  unfold has_key. apply existsb_exists. exists (name, v). split; [exact Hname|].
  apply String.eqb_refl.
Qed.

(** Witness: on the trial the table comes back with the four leading
    columns and at least one row. *)
Lemma extract_adverse_effects_rows_trial :
  exists out i inst,
    extract_adverse_effects_data trial_subjects_raw "adverse_effects" = Ok out
    /\ firstn 4 (columns out) = ["index"; "main_record_id"; "mcc"; "instance"]
    /\ get_column out "index" = Some i
    /\ get_column out "instance" = Some inst
    /\ (0 < nrows out)%nat.
Proof.
  destruct (extract_adverse_effects_data trial_subjects_raw "adverse_effects")
    as [out|] eqn:Hrun; [|vm_compute in Hrun; discriminate].
  destruct (extract_adverse_effects_rows _ _ _ Hrun)
    as (c0 & c1 & c2 & ae & i & m & c & inst & _ & _ & _ & _ & Hcols & Hi & _ & _ & Hinst
        & Hrows & _).
  exists out, i, inst. repeat split; assumption.
Defined.

(* ------------------------------------------------------------------------- *)
(** ** The rows and columns of an unnested dictionary column *)
(* ------------------------------------------------------------------------- *)






(* ------------------------------------------------------------------------- *)
(** ** The race column of the cleaned subjects *)
(* ------------------------------------------------------------------------- *)








Section RaceColumn.
Context `{Pandas}.


End RaceColumn.










Section RaceRecoded.
Context `{Pandas}.


End RaceRecoded.



(* ------------------------------------------------------------------------- *)
(** ** The blood cleaner on a table without records *)
(* ------------------------------------------------------------------------- *)

(** On a table without records [apply] converts no column, the difference
    of the two time columns is a column of dtype [object], and its accessor
    [.dt] raises: [clean_blooddata] fails with [AttributeError], after it
    wrote [time_to_freezer] into the table it was given. *)
Lemma clean_blooddata_no_records :
  exists t,
    clean_blooddata 0%nat [blood_no_records] = (Raise AttributeError, [t])
    /\ get_column t "time_to_freezer" = Some (mkSeries object [])
    /\ has_column t "time_to_freezer_minutes" = false
    /\ has_column blood_no_records "time_to_freezer" = false.
Proof. eexists. vm_compute. repeat split; reflexivity. Qed.
